(** * Subsidy calculation engine: a shallow embedding and its properties

    The development follows [src/lib/calculator.ts],
    [src/lib/calculateMedicalSubsidy.ts], [src/lib/dataLoader.ts],
    [src/lib/utils.ts] and [src/types/subsidy.ts].

    Conventions of the embedding.
    - A JavaScript [number] holding an age, a year count or a yen amount is
      an integer of [Z].  The rates of the medical calculator (0.2, 0.3,
      1.0, 0.0) and the running total they feed are exact rationals of [Q];
      [Math.round] is [floor (x + 1/2)].
    - An optional field ([minAge?], [tiers?], ...) is an [option].
    - A [throw] is the [Throw] constructor of [Result]; iterating over, or
      reading [.length] of, an absent [ageBasedAmounts] is the [TypeError]
      that JavaScript raises there.
    - The JSON catalogs of the four prefectures, the medical cost table and
      the clock read by [new Date()] are parameters of the engine. *)

From Stdlib Require Import String.
From Stdlib Require Import ZArith List Bool Lia QArith Qround.
From Stdlib Require Import Sorting.Sorted Sorting.Permutation.
Import ListNotations.

Local Open Scope Z_scope.

(* ================================================================== *)
(** * Exceptions *)

Inductive Exception : Type :=
| Error (message : string)
| TypeError (message : string).

Inductive Result (A : Type) : Type :=
| Ok (value : A)
| Throw (e : Exception).

Arguments Ok {A} value.
Arguments Throw {A} e.

Definition bind {A B : Type} (r : Result A) (k : A -> Result B) : Result B :=
  match r with
  | Ok a => k a
  | Throw e => Throw e
  end.

Notation "x <- c1 ;; c2" := (bind c1 (fun x => c2))
  (at level 61, c1 at next level, right associativity).

Notation "' pat <- c1 ;; c2" := (bind c1 (fun x => match x with pat => c2 end))
  (at level 61, pat pattern, c1 at next level, right associativity).

(** [for (const a of l) { s = body(s, a) }] where the body may throw. *)
Definition forOf {A S : Type} (l : list A) (s0 : S) (body : S -> A -> Result S)
  : Result S :=
  fold_left (fun r a => s <- r ;; body s a) l (Ok s0).

(** [l.map(f)] where the callback may throw: elements are visited in order. *)
Fixpoint mapM {A B : Type} (f : A -> Result B) (l : list A) : Result (list B) :=
  match l with
  | [] => Ok []
  | a :: l' => b <- f a ;; bs <- mapM f l' ;; Ok (b :: bs)
  end.

(** Use of an optional array as an iterable, or a read of its [.length]. *)
Definition iterable {A : Type} (o : option (list A)) : Result (list A) :=
  match o with
  | Some l => Ok l
  | None => Throw (TypeError "undefined is not iterable")
  end.

(** [l.map((x, index) => f(x, index))]. *)
Fixpoint mapi_from {A B : Type} (i : nat) (f : A -> nat -> B) (l : list A) : list B :=
  match l with
  | [] => []
  | a :: l' => f a i :: mapi_from (S i) f l'
  end.

Definition mapi {A B : Type} (f : A -> nat -> B) (l : list A) : list B :=
  mapi_from 0 f l.

(** [Array.prototype.sort(cmp)]: a stable sort; an element goes in front of
    the first later element it does not compare greater than. *)
Fixpoint sort_insert {A : Type} (cmp : A -> A -> Z) (x : A) (l : list A) : list A :=
  match l with
  | [] => [x]
  | y :: l' => if cmp x y <=? 0 then x :: y :: l' else y :: sort_insert cmp x l'
  end.

Definition Array_sort {A : Type} (cmp : A -> A -> Z) (l : list A) : list A :=
  fold_right (sort_insert cmp) [] l.

(* ================================================================== *)
(** * Types ([src/types/subsidy.ts]) *)

(** 東京都, 埼玉県, 千葉県, 神奈川県 *)
Inductive Prefecture : Type := Tokyo | Saitama | Chiba | Kanagawa.

Inductive SubsidyType : Type :=
| childbirth_support
| childcare_allowance
| medical_expense
| school_lunch
| childcare_fee
| high_school_tuition
| university_tuition
| support_018
| other.

Inductive IncomeLimitType : Type := none | single | tiered.

Record IncomeTier : Type := mkIncomeTier {
  tier_threshold : Z;
  tier_amount : Z
}.

Record IncomeLimit : Type := mkIncomeLimit {
  il_type : IncomeLimitType;
  il_threshold : option Z;
  il_tiers : option (list IncomeTier)
}.

Inductive BirthOrder : Type := first | second | third_or_more.

(** The [birthOrder] of a [ChildCondition]: a birth order or ['any']. *)
Inductive BirthOrderCondition : Type :=
| only (b : BirthOrder)
| any.

Record ChildCondition : Type := mkChildCondition {
  cc_minAge : option Z;
  cc_maxAge : option Z;
  cc_birthOrder : option BirthOrderCondition
}.

Inductive Frequency : Type := once | monthly | yearly.

Record AgeBasedAmount : Type := mkAgeBasedAmount {
  ab_minAge : Z;
  ab_maxAge : Z;
  ab_amount : Z;
  ab_frequency : Frequency
}.

(** [amount: number | 'variable'] *)
Inductive Amount : Type :=
| AmountNumber (n : Z)
| AmountVariable.

Record Conditions : Type := mkConditions {
  incomeLimit : IncomeLimit;
  childCondition : ChildCondition
}.

(** [Subsidy | VariableAmountSubsidy]: one object shape; a
    [VariableAmountSubsidy] is the one that carries [ageBasedAmounts]. *)
Record Subsidy : Type := mkSubsidy {
  s_id : string;
  s_type : SubsidyType;
  s_prefecture : Prefecture;
  s_amount : Amount;
  s_frequency : Frequency;
  s_conditions : Conditions;
  ageBasedAmounts : option (list AgeBasedAmount)
}.

Record PrefectureData : Type := mkPrefectureData {
  pd_prefecture : Prefecture;
  policies : list Subsidy
}.

Record ChildInfo : Type := mkChildInfo {
  age : Z;
  birthOrder : BirthOrder
}.

Record CalculationInput : Type := mkCalculationInput {
  householdIncome : Z;
  children : list ChildInfo
}.

Record AgeRangeInfo : Type := mkAgeRangeInfo {
  fromAge : Z;
  toAge : Z;
  years : Z
}.

Record AppliedPolicy : Type := mkAppliedPolicy {
  policy : Subsidy;
  calculatedAmount : Z;
  yearsApplied : Z;
  ageRange : option AgeRangeInfo;
  maxAmount : option Z;
  receivedAmount : option Z
}.

Record CalculationResult : Type := mkCalculationResult {
  prefecture : Prefecture;
  appliedPolicies : list AppliedPolicy;
  totalAmount : Z;
  totalMaxAmount : Z;
  calculatedAt : string;
  rank : Z
}.

Record AgeMedicalCost : Type := mkAgeMedicalCost {
  amc_age : Z;
  annualCost : Z
}.

(** The object exported by [src/data/index.ts]. *)
Record SubsidyData : Type := mkSubsidyData {
  tokyo : PrefectureData;
  saitama : PrefectureData;
  chiba : PrefectureData;
  kanagawa : PrefectureData
}.

Definition isVariableAmountSubsidy (subsidy : Subsidy) : bool :=
  match s_amount subsidy with
  | AmountVariable => true
  | AmountNumber _ => false
  end.

Definition BirthOrder_eqb (a b : BirthOrder) : bool :=
  match a, b with
  | first, first | second, second | third_or_more, third_or_more => true
  | _, _ => false
  end.

(** [x ?? d] *)
Definition nullish (x : option Z) (d : Z) : Z :=
  match x with
  | Some v => v
  | None => d
  end.

(* ================================================================== *)
(** * [src/lib/utils.ts] *)

Definition calculateAmountByFrequency (amount : Z) (frequency : Frequency) : Z :=
  match frequency with
  | once => amount
  | monthly => amount * 12
  | yearly => amount
  end.

(* ================================================================== *)
(** * [src/lib/dataLoader.ts] *)

Definition getAllPrefectures : list Prefecture := [Tokyo; Saitama; Chiba; Kanagawa].

(* ================================================================== *)
(** * Age arithmetic ([src/lib/calculator.ts]) *)

Definition CHILDCARE_ALLOWANCE_THIRD_CHILD_MONTHLY : Z := 30000.

Definition calculateYearsFromCurrentAge (currentAge minAge maxAge : Z) : Z :=
  if currentAge >? maxAge then 0
  else
    let startAge := Z.max currentAge minAge in
    maxAge - startAge + 1.

Definition calculateAgeRangeInfo (currentAge minAge maxAge : Z) : AgeRangeInfo :=
  {| fromAge := Z.max currentAge minAge;
     toAge := maxAge;
     years := calculateYearsFromCurrentAge currentAge minAge maxAge |}.

(** [for (let age = lo; age <= hi; age++)]: the ages visited, in order. *)
Definition for_range (lo hi : Z) : list Z :=
  map (fun k => lo + Z.of_nat k) (seq 0 (Z.to_nat (hi - lo + 1))).

(** [Math.round] on an exact rational: ties go upwards. *)
Definition Math_round (x : Q) : Z := Qfloor (x + (1 # 2))%Q.

(** [Math.min(...l)] and [Math.max(...l)] of the list [x :: l]. *)
Definition Math_min (x : Z) (l : list Z) : Z := fold_left Z.min l x.
Definition Math_max (x : Z) (l : list Z) : Z := fold_left Z.max l x.

Section Engine.

(** The imported data and the clock. *)
Variable subsidyData : SubsidyData.
Variable ageMedicalCosts : list AgeMedicalCost.
Variable now : string.

(* ================================================================== *)
(** * Medical subsidy ([src/lib/calculateMedicalSubsidy.ts]) *)

Definition getAssistanceAge (prefecture : Prefecture) : Z :=
  match prefecture with
  | Tokyo | Saitama | Chiba | Kanagawa => 18
  end.

Definition getAssistanceRate (prefecture : Prefecture) : Q :=
  match prefecture with
  | Tokyo | Saitama | Chiba => 1
  | Kanagawa => 0
  end.

Definition getSelfPaymentRate (age : Z) : Q :=
  if age <=? 5 then (2 # 10)%Q else (3 # 10)%Q.

Definition getMedicalCostByAge (data : list AgeMedicalCost) (age : Z)
  : option AgeMedicalCost :=
  find (fun item => amc_age item =? age) data.

Definition calculateMedicalSubsidy (currentAge : Z) (prefecture : Prefecture) : Z :=
  if (currentAge <? 0) || (currentAge >? 18) then 0
  else
    let maxAge := getAssistanceAge prefecture in
    if currentAge >? maxAge then 0
    else
      let totalSubsidy :=
        fold_left
          (fun (totalSubsidy : Q) (age : Z) =>
             match getMedicalCostByAge ageMedicalCosts age with
             | Some medicalCost =>
                 let selfPaymentRate := getSelfPaymentRate age in
                 let selfPayment := (inject_Z (annualCost medicalCost) * selfPaymentRate)%Q in
                 let assistanceRate := getAssistanceRate prefecture in
                 (totalSubsidy + selfPayment * assistanceRate)%Q
             | None => totalSubsidy
             end)
          (for_range currentAge maxAge) (0 : Q)
      in
      Math_round totalSubsidy.

(* ================================================================== *)
(** * Data loading *)

Definition loadPrefectureData (prefecture : Prefecture) : PrefectureData :=
  match prefecture with
  | Tokyo => tokyo subsidyData
  | Saitama => saitama subsidyData
  | Chiba => chiba subsidyData
  | Kanagawa => kanagawa subsidyData
  end.

(* ================================================================== *)
(** * Filters *)

Definition checkTieredIncomeLimit (householdIncome : Z) (tiers : option (list IncomeTier))
  : bool :=
  match tiers with
  | None => false
  | Some tiers =>
      if (length tiers =? 0)%nat then false
      else existsb (fun tier => householdIncome <? tier_threshold tier) tiers
  end.

(** The callback of [filterByIncomeLimit]. *)
Definition passesIncomeLimit (householdIncome : Z) (subsidy : Subsidy) : bool :=
  let incomeLimit := incomeLimit (s_conditions subsidy) in
  match il_type incomeLimit, il_threshold incomeLimit with
  | none, _ => true
  | single, Some threshold =>
      (* a threshold of 0 is falsy and falls through to [return false] *)
      if threshold =? 0 then false else householdIncome <? threshold
  | single, None => false
  | tiered, _ => checkTieredIncomeLimit householdIncome (il_tiers incomeLimit)
  end.

Definition filterByIncomeLimit (subsidies : list Subsidy) (householdIncome : Z)
  : list Subsidy :=
  filter (passesIncomeLimit householdIncome) subsidies.

(** The birth-order test that the maximum and received calculators inline as
    the callback of [children.filter]. *)
Definition birthOrderEligible (subsidy : Subsidy) (child : ChildInfo) : bool :=
  match cc_birthOrder (childCondition (s_conditions subsidy)) with
  | Some (only b) => BirthOrder_eqb b (birthOrder child)
  | Some any | None => true
  end.

Definition matchesChildCondition (child : ChildInfo) (condition : ChildCondition) : bool :=
  let birthOrderFails :=
    match cc_birthOrder condition with
    | Some (only b) => negb (BirthOrder_eqb b (birthOrder child))
    | Some any | None => false
    end in
  if birthOrderFails then false
  else
    let childMinAge := 0 in
    let childMaxAge := 18 in
    let policyMinAge := nullish (cc_minAge condition) 0 in
    let policyMaxAge := nullish (cc_maxAge condition) 18 in
    if (childMaxAge <? policyMinAge) || (childMinAge >? policyMaxAge) then false
    else true.

Definition filterByChildConditions (subsidies : list Subsidy) (children : list ChildInfo)
  : list Subsidy :=
  filter
    (fun subsidy =>
       existsb (fun child => matchesChildCondition child (childCondition (s_conditions subsidy)))
               children)
    subsidies.

(* ================================================================== *)
(** * Maximum entitlement *)

Definition calculateMaxMedicalExpenseSubsidy (subsidy : Subsidy) (children : list ChildInfo)
  : Z :=
  let eligibleChildren := filter (birthOrderEligible subsidy) children in
  if (length eligibleChildren =? 0)%nat then 0
  else
    fold_left
      (fun total _ =>
         let subsidyAmount := calculateMedicalSubsidy 0 (s_prefecture subsidy) in
         total + subsidyAmount)
      eligibleChildren 0.

Definition calculateMaxChildcareFeeSubsidy (subsidy : Subsidy) (children : list ChildInfo)
  : Z :=
  match s_amount subsidy with
  | AmountVariable => 0
  | AmountNumber amount =>
      let eligibleChildren := filter (birthOrderEligible subsidy) children in
      if (length eligibleChildren =? 0)%nat then 0
      else
        let minAge := nullish (cc_minAge (childCondition (s_conditions subsidy))) 0 in
        let maxAge := nullish (cc_maxAge (childCondition (s_conditions subsidy))) 5 in
        let annualAmount := calculateAmountByFrequency amount (s_frequency subsidy) in
        let years := maxAge - minAge + 1 in
        annualAmount * years * Z.of_nat (length eligibleChildren)
  end.

(** The [amountPerYear] of [calculateMaxHighSchoolTuition] and of
    [calculateReceivedHighSchoolTuition]. *)
Definition maxTuitionPerYear (subsidy : Subsidy) (amount : Z) : Z :=
  let incomeLimit := incomeLimit (s_conditions subsidy) in
  match il_type incomeLimit, il_tiers incomeLimit with
  | tiered, Some (tier0 :: _) => tier_amount tier0
  | _, _ => calculateAmountByFrequency amount (s_frequency subsidy)
  end.

Definition calculateMaxHighSchoolTuition (subsidy : Subsidy) (children : list ChildInfo)
  : Z :=
  match s_amount subsidy with
  | AmountVariable => 0
  | AmountNumber amount =>
      let eligibleChildren := filter (birthOrderEligible subsidy) children in
      if (length eligibleChildren =? 0)%nat then 0
      else
        let minAge := nullish (cc_minAge (childCondition (s_conditions subsidy))) 15 in
        let maxAge := nullish (cc_maxAge (childCondition (s_conditions subsidy))) 18 in
        let years := maxAge - minAge + 1 in
        let amountPerYear := maxTuitionPerYear subsidy amount in
        amountPerYear * years * Z.of_nat (length eligibleChildren)
  end.

Definition isThirdChildAllowance (subsidy : Subsidy) (child : ChildInfo) : bool :=
  match s_type subsidy, birthOrder child with
  | childcare_allowance, third_or_more => true
  | _, _ => false
  end.

Definition calculateMaxAmount (subsidy : Subsidy) (children : list ChildInfo) : Result Z :=
  if isVariableAmountSubsidy subsidy then
    forOf children 0
      (fun total child =>
         if isThirdChildAllowance subsidy child then
           let annualAmount := CHILDCARE_ALLOWANCE_THIRD_CHILD_MONTHLY * 12 in
           Ok (total + annualAmount * 19)
         else
           ageRanges <- iterable (ageBasedAmounts subsidy) ;;
           Ok (fold_left
                 (fun total ageRange =>
                    let years := ab_maxAge ageRange - ab_minAge ageRange + 1 in
                    let annualAmount :=
                      calculateAmountByFrequency (ab_amount ageRange) (ab_frequency ageRange) in
                    total + annualAmount * years)
                 ageRanges total))
  else
    match s_amount subsidy with
    | AmountVariable => Ok 0
    | AmountNumber amount =>
        match s_type subsidy with
        | medical_expense => Ok (calculateMaxMedicalExpenseSubsidy subsidy children)
        | childcare_fee => Ok (calculateMaxChildcareFeeSubsidy subsidy children)
        | high_school_tuition => Ok (calculateMaxHighSchoolTuition subsidy children)
        | _ =>
            let minAge := nullish (cc_minAge (childCondition (s_conditions subsidy))) 0 in
            let maxAge := nullish (cc_maxAge (childCondition (s_conditions subsidy))) 18 in
            let eligibleChildren := filter (birthOrderEligible subsidy) children in
            if (length eligibleChildren =? 0)%nat then Ok 0
            else
              let annualAmount := calculateAmountByFrequency amount (s_frequency subsidy) in
              match s_frequency subsidy with
              | once => Ok (annualAmount * Z.of_nat (length eligibleChildren))
              | _ =>
                  let years := maxAge - minAge + 1 in
                  Ok (annualAmount * years * Z.of_nat (length eligibleChildren))
              end
        end
    end.

(* ================================================================== *)
(** * Received entitlement *)

Definition calculateReceivedMedicalExpenseSubsidy (subsidy : Subsidy)
  (children : list ChildInfo) : Z :=
  let eligibleChildren := filter (birthOrderEligible subsidy) children in
  if (length eligibleChildren =? 0)%nat then 0
  else
    fold_left
      (fun total child =>
         if age child =? 0 then total
         else
           let maxSubsidy := calculateMedicalSubsidy 0 (s_prefecture subsidy) in
           let remainingSubsidy := calculateMedicalSubsidy (age child) (s_prefecture subsidy) in
           let received := maxSubsidy - remainingSubsidy in
           total + received)
      eligibleChildren 0.

(** The loop shared, statement for statement, by the continuous branch of
    [calculateReceivedAmount] and by [calculateReceivedChildcareFeeSubsidy]. *)
Definition receivedLoop (annualAmount minAge maxAge : Z) (eligibleChildren : list ChildInfo)
  : Z :=
  fold_left
    (fun total child =>
       if age child =? 0 then total
       else if age child >? maxAge then
         let years := maxAge - minAge + 1 in
         total + annualAmount * years
       else if age child >? minAge then
         let years := age child - minAge in
         total + annualAmount * years
       else total)
    eligibleChildren 0.

Definition calculateReceivedChildcareFeeSubsidy (subsidy : Subsidy)
  (children : list ChildInfo) : Z :=
  match s_amount subsidy with
  | AmountVariable => 0
  | AmountNumber amount =>
      let eligibleChildren := filter (birthOrderEligible subsidy) children in
      if (length eligibleChildren =? 0)%nat then 0
      else
        let minAge := nullish (cc_minAge (childCondition (s_conditions subsidy))) 0 in
        let maxAge := nullish (cc_maxAge (childCondition (s_conditions subsidy))) 5 in
        let annualAmount := calculateAmountByFrequency amount (s_frequency subsidy) in
        receivedLoop annualAmount minAge maxAge eligibleChildren
  end.

Definition calculateReceivedHighSchoolTuition (subsidy : Subsidy)
  (children : list ChildInfo) : Z :=
  match s_amount subsidy with
  | AmountVariable => 0
  | AmountNumber amount =>
      let eligibleChildren := filter (birthOrderEligible subsidy) children in
      if (length eligibleChildren =? 0)%nat then 0
      else
        let minAge := nullish (cc_minAge (childCondition (s_conditions subsidy))) 15 in
        let maxAge := nullish (cc_maxAge (childCondition (s_conditions subsidy))) 18 in
        let amountPerYear := maxTuitionPerYear subsidy amount in
        fold_left
          (fun total child =>
             if (age child =? 0) || (age child <=? minAge) then total
             else if age child >? maxAge then
               let years := maxAge - minAge + 1 in
               total + amountPerYear * years
             else
               let years := age child - minAge in
               total + amountPerYear * years)
          eligibleChildren 0
  end.

Definition calculateReceivedAmount (subsidy : Subsidy) (children : list ChildInfo)
  : Result Z :=
  if isVariableAmountSubsidy subsidy then
    forOf children 0
      (fun total child =>
         if age child =? 0 then Ok total
         else if isThirdChildAllowance subsidy child then
           let annualAmount := CHILDCARE_ALLOWANCE_THIRD_CHILD_MONTHLY * 12 in
           Ok (total + annualAmount * age child)
         else
           ageRanges <- iterable (ageBasedAmounts subsidy) ;;
           Ok (fold_left
                 (fun total ageRange =>
                    if age child <=? ab_minAge ageRange then total
                    else
                      let receivedStartAge := ab_minAge ageRange in
                      let receivedEndAge := Z.min (age child - 1) (ab_maxAge ageRange) in
                      if receivedEndAge >=? receivedStartAge then
                        let years := receivedEndAge - receivedStartAge + 1 in
                        let annualAmount :=
                          calculateAmountByFrequency (ab_amount ageRange)
                                                     (ab_frequency ageRange) in
                        total + annualAmount * years
                      else total)
                 ageRanges total))
  else
    match s_amount subsidy with
    | AmountVariable => Ok 0
    | AmountNumber amount =>
        match s_type subsidy with
        | medical_expense => Ok (calculateReceivedMedicalExpenseSubsidy subsidy children)
        | childcare_fee => Ok (calculateReceivedChildcareFeeSubsidy subsidy children)
        | high_school_tuition => Ok (calculateReceivedHighSchoolTuition subsidy children)
        | _ =>
            let minAge := nullish (cc_minAge (childCondition (s_conditions subsidy))) 0 in
            let maxAge := nullish (cc_maxAge (childCondition (s_conditions subsidy))) 18 in
            let eligibleChildren := filter (birthOrderEligible subsidy) children in
            if (length eligibleChildren =? 0)%nat then Ok 0
            else
              let annualAmount := calculateAmountByFrequency amount (s_frequency subsidy) in
              match s_frequency subsidy with
              | once =>
                  let receivedCount :=
                    length (filter (fun child => age child >? maxAge) eligibleChildren) in
                  Ok (annualAmount * Z.of_nat receivedCount)
              | _ => Ok (receivedLoop annualAmount minAge maxAge eligibleChildren)
              end
        end
    end.

(* ================================================================== *)
(** * Current (remaining) entitlement *)

(** The shape [{ amount, years, ageRange? }] returned by the fixed calculators. *)
Record FixedResult : Type := mkFixedResult {
  fr_amount : Z;
  fr_years : Z;
  fr_ageRange : option AgeRangeInfo
}.

(** The inner loop over [subsidy.ageBasedAmounts] of [calculateVariableAmount]
    and of the else-branch of [calculateChildcareAllowance]. *)
Definition remainingByAgeRanges (child : ChildInfo) (ageRanges : list AgeBasedAmount)
  (total : Z) : Z :=
  fold_left
    (fun total ageRange =>
       let years :=
         calculateYearsFromCurrentAge (age child) (ab_minAge ageRange) (ab_maxAge ageRange) in
       if years >? 0 then
         let annualAmount :=
           calculateAmountByFrequency (ab_amount ageRange) (ab_frequency ageRange) in
         total + annualAmount * years
       else total)
    ageRanges total.

Definition calculateVariableAmount (subsidy : Subsidy) (children : list ChildInfo)
  : Result Z :=
  forOf children 0
    (fun total child =>
       ageRanges <- iterable (ageBasedAmounts subsidy) ;;
       Ok (remainingByAgeRanges child ageRanges total)).

Definition calculateChildcareAllowance (subsidy : Subsidy) (children : list ChildInfo)
  : Result Z :=
  forOf children 0
    (fun total child =>
       match birthOrder child with
       | third_or_more =>
           let years := calculateYearsFromCurrentAge (age child) 0 18 in
           let annualAmount := CHILDCARE_ALLOWANCE_THIRD_CHILD_MONTHLY * 12 in
           Ok (total + annualAmount * years)
       | _ =>
           ageRanges <- iterable (ageBasedAmounts subsidy) ;;
           Ok (remainingByAgeRanges child ageRanges total)
       end).

(** [eligibleChildren.length > 0 ? calculateAgeRangeInfo(eligibleChildren[0].age, ...) : undefined] *)
Definition firstChildAgeRange (eligibleChildren : list ChildInfo) (minAge maxAge : Z)
  : option AgeRangeInfo :=
  match eligibleChildren with
  | child0 :: _ => Some (calculateAgeRangeInfo (age child0) minAge maxAge)
  | [] => None
  end.

Definition calculateMedicalExpenseSubsidy (subsidy : Subsidy) (input : CalculationInput)
  : FixedResult :=
  let eligibleChildren :=
    filter (fun child => matchesChildCondition child (childCondition (s_conditions subsidy)))
           (children input) in
  if (length eligibleChildren =? 0)%nat then mkFixedResult 0 0 None
  else
    let totalAmount :=
      fold_left
        (fun totalAmount child =>
           let subsidyAmount := calculateMedicalSubsidy (age child) (s_prefecture subsidy) in
           totalAmount + subsidyAmount)
        eligibleChildren 0 in
    let minAge := nullish (cc_minAge (childCondition (s_conditions subsidy))) 0 in
    let maxAge := nullish (cc_maxAge (childCondition (s_conditions subsidy))) 18 in
    let ageRange := firstChildAgeRange eligibleChildren minAge maxAge in
    mkFixedResult totalAmount
                  (match ageRange with Some r => years r | None => 0 end)
                  ageRange.

(** The loop over [eligibleChildren] of the continuous fixed calculators; the
    state is the pair of [total] and [maxYears]. *)
Definition remainingLoop (amountPerYear minAge maxAge : Z) (eligibleChildren : list ChildInfo)
  : Z * Z :=
  fold_left
    (fun '(total, maxYears) child =>
       let years := calculateYearsFromCurrentAge (age child) minAge maxAge in
       if years >? 0 then (total + amountPerYear * years, Z.max maxYears years)
       else (total, maxYears))
    eligibleChildren (0, 0).

Definition calculateChildcareFeeSubsidy (subsidy : Subsidy) (input : CalculationInput)
  : Result FixedResult :=
  match s_amount subsidy with
  | AmountVariable => Throw (Error "固定金額の計算に変動金額型が渡されました")
  | AmountNumber amount =>
      let eligibleChildren :=
        filter (fun child => matchesChildCondition child (childCondition (s_conditions subsidy)))
               (children input) in
      if (length eligibleChildren =? 0)%nat then Ok (mkFixedResult 0 0 None)
      else
        let minAge := nullish (cc_minAge (childCondition (s_conditions subsidy))) 0 in
        let maxAge := nullish (cc_maxAge (childCondition (s_conditions subsidy))) 5 in
        let annualAmount := calculateAmountByFrequency amount (s_frequency subsidy) in
        let '(total, maxYears) := remainingLoop annualAmount minAge maxAge eligibleChildren in
        let ageRange := firstChildAgeRange eligibleChildren minAge maxAge in
        Ok (mkFixedResult total maxYears ageRange)
  end.

(** The [amountPerYear] of [calculateHighSchoolTuition]. *)
Definition tuitionPerYear (subsidy : Subsidy) (amount householdIncome : Z) : Z :=
  let incomeLimit := incomeLimit (s_conditions subsidy) in
  match il_type incomeLimit, il_tiers incomeLimit with
  | tiered, Some tiers =>
      match find (fun t => householdIncome <? tier_threshold t) tiers with
      | Some tier => tier_amount tier
      | None => 0
      end
  | _, _ => calculateAmountByFrequency amount (s_frequency subsidy)
  end.

Definition calculateHighSchoolTuition (subsidy : Subsidy) (input : CalculationInput)
  : Result FixedResult :=
  match s_amount subsidy with
  | AmountVariable => Throw (Error "固定金額の計算に変動金額型が渡されました")
  | AmountNumber amount =>
      let eligibleChildren :=
        filter (fun child => matchesChildCondition child (childCondition (s_conditions subsidy)))
               (children input) in
      if (length eligibleChildren =? 0)%nat then Ok (mkFixedResult 0 0 None)
      else
        let amountPerYear := tuitionPerYear subsidy amount (householdIncome input) in
        let minAge := nullish (cc_minAge (childCondition (s_conditions subsidy))) 15 in
        let maxAge := nullish (cc_maxAge (childCondition (s_conditions subsidy))) 18 in
        let '(totalAmount, maxYears) :=
          remainingLoop amountPerYear minAge maxAge eligibleChildren in
        let ageRange := firstChildAgeRange eligibleChildren minAge maxAge in
        Ok (mkFixedResult totalAmount maxYears ageRange)
  end.

Definition calculateFixedAmount (subsidy : Subsidy) (input : CalculationInput)
  : Result FixedResult :=
  match s_amount subsidy with
  | AmountVariable => Throw (Error "固定金額の計算に変動金額型が渡されました")
  | AmountNumber amount =>
      match s_type subsidy with
      | medical_expense => Ok (calculateMedicalExpenseSubsidy subsidy input)
      | childcare_fee => calculateChildcareFeeSubsidy subsidy input
      | high_school_tuition => calculateHighSchoolTuition subsidy input
      | _ =>
          let eligibleChildren :=
            filter (fun child =>
                      matchesChildCondition child (childCondition (s_conditions subsidy)))
                   (children input) in
          if (length eligibleChildren =? 0)%nat then Ok (mkFixedResult 0 0 None)
          else
            let minAge := nullish (cc_minAge (childCondition (s_conditions subsidy))) 0 in
            let maxAge := nullish (cc_maxAge (childCondition (s_conditions subsidy))) 18 in
            let annualAmount := calculateAmountByFrequency amount (s_frequency subsidy) in
            let '(totalAmount, maxYears) :=
              fold_left
                (fun '(totalAmount, maxYears) child =>
                   let years := calculateYearsFromCurrentAge (age child) minAge maxAge in
                   if years >? 0 then
                     match s_frequency subsidy with
                     | once => (totalAmount + annualAmount, Z.max maxYears 1)
                     | _ => (totalAmount + annualAmount * years, Z.max maxYears years)
                     end
                   else (totalAmount, maxYears))
                eligibleChildren (0, 0) in
            let ageRange := firstChildAgeRange eligibleChildren minAge maxAge in
            Ok (mkFixedResult totalAmount maxYears ageRange)
      end
  end.

(* ================================================================== *)
(** * Aggregation and ranking *)

Definition calculateSubsidyAmount (subsidy : Subsidy) (input : CalculationInput)
  : Result AppliedPolicy :=
  '(totalAmount, yearsApplied, ageRange) <-
    (if isVariableAmountSubsidy subsidy then
       totalAmount <-
         match s_type subsidy with
         | childcare_allowance => calculateChildcareAllowance subsidy (children input)
         | _ => calculateVariableAmount subsidy (children input)
         end ;;
       match children input with
       | [] => Ok (totalAmount, 0, None)
       | child :: _ =>
           ageRanges <- iterable (ageBasedAmounts subsidy) ;;
           match ageRanges with
           | [] => Ok (totalAmount, 0, None)
           | r0 :: rs =>
               let minAge := Math_min (ab_minAge r0) (map ab_minAge rs) in
               let maxAge := Math_max (ab_maxAge r0) (map ab_maxAge rs) in
               let ageRange := calculateAgeRangeInfo (age child) minAge maxAge in
               Ok (totalAmount, years ageRange, Some ageRange)
           end
       end
     else
       result <- calculateFixedAmount subsidy input ;;
       Ok (fr_amount result, fr_years result, fr_ageRange result)) ;;
  maxAmount <- calculateMaxAmount subsidy (children input) ;;
  receivedAmount <- calculateReceivedAmount subsidy (children input) ;;
  Ok {| policy := subsidy;
        calculatedAmount := totalAmount;
        yearsApplied := yearsApplied;
        ageRange := ageRange;
        maxAmount := Some maxAmount;
        receivedAmount := Some receivedAmount |}.

Definition calculateSubsidies (prefecture : Prefecture) (input : CalculationInput)
  : Result CalculationResult :=
  let data := loadPrefectureData prefecture in
  let eligibleSubsidies := filterByIncomeLimit (policies data) (householdIncome input) in
  let applicableSubsidies := filterByChildConditions eligibleSubsidies (children input) in
  appliedPolicies <-
    mapM (fun subsidy => calculateSubsidyAmount subsidy input) applicableSubsidies ;;
  let totalAmount :=
    fold_left (fun sum policy => sum + calculatedAmount policy) appliedPolicies 0 in
  let totalMaxAmount :=
    fold_left
      (fun sum policy =>
         sum + match maxAmount policy with
               | Some m => m
               | None => calculatedAmount policy
               end)
      appliedPolicies 0 in
  Ok {| prefecture := prefecture;
        appliedPolicies := appliedPolicies;
        totalAmount := totalAmount;
        totalMaxAmount := totalMaxAmount;
        calculatedAt := now;
        rank := 0 |}.

(** [{ ...result, rank }] *)
Definition withRank (result : CalculationResult) (rank : Z) : CalculationResult :=
  {| prefecture := prefecture result;
     appliedPolicies := appliedPolicies result;
     totalAmount := totalAmount result;
     totalMaxAmount := totalMaxAmount result;
     calculatedAt := calculatedAt result;
     rank := rank |}.

Definition calculateAllSubsidies (input : CalculationInput)
  : Result (list CalculationResult) :=
  let prefectures := getAllPrefectures in
  results <- mapM (fun prefecture => calculateSubsidies prefecture input) prefectures ;;
  Ok (mapi (fun result index => withRank result (Z.of_nat index + 1))
           (Array_sort (fun a b => totalAmount b - totalAmount a) results)).

(* ================================================================== *)
(** * Reference formulations used by the statements below *)

Definition sumZ (l : list Z) : Z := fold_right Z.add 0 l.

Definition sumQ (l : list Q) : Q := fold_right Qplus 0%Q l.

(** The cost the statistics provider reports for an age, nothing when the
    table has no row for it. *)
Definition annualMedicalCost (a : Z) : Q :=
  match find (fun item => amc_age item =? a) ageMedicalCosts with
  | Some row => inject_Z (annualCost row)
  | None => 0%Q
  end.

Definition selfPayRate (a : Z) : Q :=
  if a <=? 5 then (20 # 100)%Q else (30 # 100)%Q.

Definition assistanceRate (j : Prefecture) : Q :=
  match j with
  | Kanagawa => 0%Q
  | _ => (100 # 100)%Q
  end.

(** The medical subsidy as the specification words it: the rounded sum over
    the ages from the current age up to the assistance ceiling. *)
Definition medicalSubsidySpec (currentAge : Z) (j : Prefecture) : Z :=
  Math_round
    (sumQ (map (fun a => (annualMedicalCost a * selfPayRate a * assistanceRate j)%Q)
               (for_range currentAge (getAssistanceAge j)))).

(** A catalog entry is well typed when the ['variable'] sentinel comes with
    its list of age bands ([VariableAmountSubsidy]). *)
Definition wellTyped (subsidy : Subsidy) : Prop :=
  s_amount subsidy = AmountVariable -> ageBasedAmounts subsidy <> None.

Definition allPolicies : list Subsidy :=
  flat_map (fun prefecture => policies (loadPrefectureData prefecture)) getAllPrefectures.

Definition wellTypedCatalog : Prop := Forall wellTyped allPolicies.

(** Age bounds a calculator uses for a policy: the defaults depend on the
    policy type. *)
Definition effectiveMinAge (subsidy : Subsidy) : Z :=
  nullish (cc_minAge (childCondition (s_conditions subsidy)))
          (match s_type subsidy with high_school_tuition => 15 | _ => 0 end).

Definition effectiveMaxAge (subsidy : Subsidy) : Z :=
  nullish (cc_maxAge (childCondition (s_conditions subsidy)))
          (match s_type subsidy with childcare_fee => 5 | _ => 18 end).

(** What one child contributes to the remaining and to the received amount of
    a continuous policy paying [amountPerYear] over [minAge..maxAge]. *)
Definition remainingOf (amountPerYear minAge maxAge : Z) (child : ChildInfo) : Z :=
  let years := calculateYearsFromCurrentAge (age child) minAge maxAge in
  if years >? 0 then amountPerYear * years else 0.

Definition receivedOf (amountPerYear minAge maxAge : Z) (child : ChildInfo) : Z :=
  if age child =? 0 then 0
  else if age child >? maxAge then amountPerYear * (maxAge - minAge + 1)
  else if age child >? minAge then amountPerYear * (age child - minAge)
  else 0.

(** The remaining amount that [calculateSubsidyAmount] stores in
    [calculatedAmount]. *)
Definition currentAmount (subsidy : Subsidy) (input : CalculationInput) : Result Z :=
  if isVariableAmountSubsidy subsidy then
    match s_type subsidy with
    | childcare_allowance => calculateChildcareAllowance subsidy (children input)
    | _ => calculateVariableAmount subsidy (children input)
    end
  else
    result <- calculateFixedAmount subsidy input ;;
    Ok (fr_amount result).

Definition tierList (subsidy : Subsidy) : list IncomeTier :=
  match il_tiers (incomeLimit (s_conditions subsidy)) with
  | Some tiers => tiers
  | None => []
  end.

(** Age bounds are well formed when no interval the calculators use is
    empty: every age band of a variable policy, and the effective
    [minAge..maxAge] of a fixed policy that is prorated by age. *)
Definition wellFormedAges (subsidy : Subsidy) : Prop :=
  match s_amount subsidy with
  | AmountVariable =>
      forall bands, ageBasedAmounts subsidy = Some bands ->
        Forall (fun b => ab_minAge b <= ab_maxAge b) bands
  | AmountNumber _ =>
      match s_type subsidy with
      | medical_expense => True
      | _ => effectiveMinAge subsidy <= effectiveMaxAge subsidy
      end
  end.

(** No interval starts before birth. *)
Definition startsAtBirthOrLater (subsidy : Subsidy) : Prop :=
  match s_amount subsidy with
  | AmountVariable =>
      forall bands, ageBasedAmounts subsidy = Some bands ->
        Forall (fun b => 0 <= ab_minAge b) bands
  | AmountNumber _ =>
      match s_type subsidy with
      | medical_expense => True
      | _ => 0 <= effectiveMinAge subsidy
      end
  end.

(** A tiered high-school tuition policy pays, now and at its maximum, the
    same tier: the household income is below the first listed threshold. *)
Definition firstTierApplies (subsidy : Subsidy) (income : Z) : Prop :=
  isVariableAmountSubsidy subsidy = false ->
  s_type subsidy = high_school_tuition ->
  il_type (incomeLimit (s_conditions subsidy)) = tiered ->
  forall tier0 rest, il_tiers (incomeLimit (s_conditions subsidy)) = Some (tier0 :: rest) ->
    income < tier_threshold tier0.

(** Every amount of a catalog entry is a non-negative number of yen. *)
Definition nonNegativeAmounts (subsidy : Subsidy) : Prop :=
  (forall n, s_amount subsidy = AmountNumber n -> 0 <= n) /\
  (forall bands, ageBasedAmounts subsidy = Some bands ->
     Forall (fun b => 0 <= ab_amount b) bands) /\
  Forall (fun t => 0 <= tier_amount t) (tierList subsidy).

Definition nonNegativeCatalog : Prop := Forall nonNegativeAmounts allPolicies.

Definition nonNegativeCosts : Prop :=
  Forall (fun row => 0 <= annualCost row) ageMedicalCosts.

(** Results listed by non-increasing [key]. *)
Definition descending {A : Type} (key : A -> Z) (l : list A) : Prop :=
  Sorted (fun a b => key a >= key b) l.

Definition bandList (subsidy : Subsidy) : list AgeBasedAmount :=
  match ageBasedAmounts subsidy with
  | Some bands => bands
  | None => []
  end.

Definition bandAnnual (b : AgeBasedAmount) : Z :=
  calculateAmountByFrequency (ab_amount b) (ab_frequency b).

(** What one age band contributes for one child: over the whole band, from
    the current age on, and before the current age. *)
Definition bandFull (b : AgeBasedAmount) : Z :=
  bandAnnual b * (ab_maxAge b - ab_minAge b + 1).

Definition bandRemaining (child : ChildInfo) (b : AgeBasedAmount) : Z :=
  remainingOf (bandAnnual b) (ab_minAge b) (ab_maxAge b) child.

Definition bandReceived (child : ChildInfo) (b : AgeBasedAmount) : Z :=
  if age child <=? ab_minAge b then 0
  else
    let receivedEndAge := Z.min (age child - 1) (ab_maxAge b) in
    if receivedEndAge >=? ab_minAge b
    then bandAnnual b * (receivedEndAge - ab_minAge b + 1)
    else 0.

Definition thirdChildAnnual : Z := CHILDCARE_ALLOWANCE_THIRD_CHILD_MONTHLY * 12.

Definition annualOf (subsidy : Subsidy) (n : Z) : Z :=
  calculateAmountByFrequency n (s_frequency subsidy).

(** Per child, the three amounts of a policy: remaining from the current
    age, full span, and received before the current age. *)
Definition childRemaining (subsidy : Subsidy) (income : Z) (child : ChildInfo) : Z :=
  match s_amount subsidy with
  | AmountVariable =>
      if isThirdChildAllowance subsidy child
      then thirdChildAnnual * calculateYearsFromCurrentAge (age child) 0 18
      else sumZ (map (bandRemaining child) (bandList subsidy))
  | AmountNumber n =>
      let minAge := effectiveMinAge subsidy in
      let maxAge := effectiveMaxAge subsidy in
      match s_type subsidy with
      | medical_expense => calculateMedicalSubsidy (age child) (s_prefecture subsidy)
      | childcare_fee => remainingOf (annualOf subsidy n) minAge maxAge child
      | high_school_tuition =>
          remainingOf (tuitionPerYear subsidy n income) minAge maxAge child
      | _ =>
          match s_frequency subsidy with
          | once =>
              if calculateYearsFromCurrentAge (age child) minAge maxAge >? 0
              then annualOf subsidy n else 0
          | _ => remainingOf (annualOf subsidy n) minAge maxAge child
          end
      end
  end.

Definition childFull (subsidy : Subsidy) (child : ChildInfo) : Z :=
  match s_amount subsidy with
  | AmountVariable =>
      if isThirdChildAllowance subsidy child
      then thirdChildAnnual * 19
      else sumZ (map bandFull (bandList subsidy))
  | AmountNumber n =>
      let span := effectiveMaxAge subsidy - effectiveMinAge subsidy + 1 in
      match s_type subsidy with
      | medical_expense => calculateMedicalSubsidy 0 (s_prefecture subsidy)
      | childcare_fee => annualOf subsidy n * span
      | high_school_tuition => maxTuitionPerYear subsidy n * span
      | _ =>
          match s_frequency subsidy with
          | once => annualOf subsidy n
          | _ => annualOf subsidy n * span
          end
      end
  end.

Definition childReceived (subsidy : Subsidy) (child : ChildInfo) : Z :=
  match s_amount subsidy with
  | AmountVariable =>
      if age child =? 0 then 0
      else if isThirdChildAllowance subsidy child
      then thirdChildAnnual * age child
      else sumZ (map (bandReceived child) (bandList subsidy))
  | AmountNumber n =>
      let minAge := effectiveMinAge subsidy in
      let maxAge := effectiveMaxAge subsidy in
      match s_type subsidy with
      | medical_expense =>
          if age child =? 0 then 0
          else calculateMedicalSubsidy 0 (s_prefecture subsidy)
               - calculateMedicalSubsidy (age child) (s_prefecture subsidy)
      | childcare_fee => receivedOf (annualOf subsidy n) minAge maxAge child
      | high_school_tuition =>
          if (age child =? 0) || (age child <=? minAge) then 0
          else if age child >? maxAge
          then maxTuitionPerYear subsidy n * (maxAge - minAge + 1)
          else maxTuitionPerYear subsidy n * (age child - minAge)
      | _ =>
          match s_frequency subsidy with
          | once => if age child >? maxAge then annualOf subsidy n else 0
          | _ => receivedOf (annualOf subsidy n) minAge maxAge child
          end
      end
  end.

(** The children a calculator counts: every child for a variable policy;
    for a fixed policy those passing [matchesChildCondition] (remaining
    amount) or the birth-order test alone (maximum and received amounts). *)
Definition childrenNow (subsidy : Subsidy) (children : list ChildInfo) : list ChildInfo :=
  if isVariableAmountSubsidy subsidy then children
  else filter (fun child => matchesChildCondition child (childCondition (s_conditions subsidy)))
              children.

Definition childrenEver (subsidy : Subsidy) (children : list ChildInfo) : list ChildInfo :=
  if isVariableAmountSubsidy subsidy then children
  else filter (birthOrderEligible subsidy) children.

(** The age test of [matchesChildCondition]: the policy's ages meet 0..18. *)
Definition agesOverlap (condition : ChildCondition) : bool :=
  negb ((18 <? nullish (cc_minAge condition) 0) || (0 >? nullish (cc_maxAge condition) 18)).

(* ================================================================== *)
(** * Sample catalog entries *)

Definition anyChild (minAge maxAge : option Z) : ChildCondition :=
  {| cc_minAge := minAge; cc_maxAge := maxAge; cc_birthOrder := Some any |}.

Definition noLimit : IncomeLimit :=
  {| il_type := none; il_threshold := None; il_tiers := None |}.

(** The tiers of the example in [src/types/subsidy.ts]. *)
Definition saitamaTiers : IncomeLimit :=
  {| il_type := tiered; il_threshold := None;
     il_tiers := Some [ {| tier_threshold := 5000000; tier_amount := 200000 |};
                        {| tier_threshold := 5900000; tier_amount := 14000 |} ] |}.

Definition saitamaTuition : Subsidy :=
  {| s_id := "saitama_high_school_tuition"; s_type := high_school_tuition;
     s_prefecture := Saitama; s_amount := AmountNumber 200000; s_frequency := yearly;
     s_conditions := {| incomeLimit := saitamaTiers;
                        childCondition := anyChild (Some 15) (Some 18) |};
     ageBasedAmounts := None |}.

Definition childAllowance (p : Prefecture) : Subsidy :=
  {| s_id := "jido_teate"; s_type := childcare_allowance;
     s_prefecture := p; s_amount := AmountVariable; s_frequency := monthly;
     s_conditions := {| incomeLimit := noLimit; childCondition := anyChild (Some 0) (Some 18) |};
     ageBasedAmounts :=
       Some [ {| ab_minAge := 0; ab_maxAge := 2; ab_amount := 15000; ab_frequency := monthly |};
              {| ab_minAge := 3; ab_maxAge := 18; ab_amount := 10000; ab_frequency := monthly |} ] |}.

Definition tokyo018 : Subsidy :=
  {| s_id := "tokyo_018_support"; s_type := support_018;
     s_prefecture := Tokyo; s_amount := AmountNumber 5000; s_frequency := monthly;
     s_conditions := {| incomeLimit := noLimit; childCondition := anyChild (Some 0) (Some 18) |};
     ageBasedAmounts := None |}.

Definition birthGrant (p : Prefecture) : Subsidy :=
  {| s_id := "childbirth_grant"; s_type := childbirth_support;
     s_prefecture := p; s_amount := AmountNumber 100000; s_frequency := once;
     s_conditions := {| incomeLimit := noLimit; childCondition := anyChild (Some 0) (Some 0) |};
     ageBasedAmounts := None |}.

Definition medicalAid (p : Prefecture) : Subsidy :=
  {| s_id := "medical_aid"; s_type := medical_expense;
     s_prefecture := p; s_amount := AmountNumber 0; s_frequency := yearly;
     s_conditions := {| incomeLimit := noLimit; childCondition := anyChild (Some 0) (Some 18) |};
     ageBasedAmounts := None |}.

Definition childcareFee (p : Prefecture) : Subsidy :=
  {| s_id := "hoikuryo"; s_type := childcare_fee;
     s_prefecture := p; s_amount := AmountNumber 37000; s_frequency := monthly;
     s_conditions :=
       {| incomeLimit := {| il_type := single; il_threshold := Some 9100000; il_tiers := None |};
          childCondition := anyChild (Some 3) (Some 5) |};
     ageBasedAmounts := None |}.

(** A fixed-type entry that carries the ['variable'] sentinel and no bands. *)
Definition mistypedTuition : Subsidy :=
  {| s_id := "mistyped"; s_type := high_school_tuition;
     s_prefecture := Saitama; s_amount := AmountVariable; s_frequency := yearly;
     s_conditions := {| incomeLimit := noLimit; childCondition := anyChild None None |};
     ageBasedAmounts := None |}.

Definition sampleData : SubsidyData :=
  {| tokyo := {| pd_prefecture := Tokyo;
                 policies := [tokyo018; childAllowance Tokyo; medicalAid Tokyo;
                              birthGrant Tokyo; childcareFee Tokyo] |};
     saitama := {| pd_prefecture := Saitama;
                   policies := [saitamaTuition; childAllowance Saitama; medicalAid Saitama] |};
     chiba := {| pd_prefecture := Chiba;
                 policies := [childAllowance Chiba; medicalAid Chiba; childcareFee Chiba] |};
     kanagawa := {| pd_prefecture := Kanagawa;
                    policies := [childAllowance Kanagawa; medicalAid Kanagawa] |} |}.

Definition sampleCosts : list AgeMedicalCost :=
  map (fun '(a, c) => {| amc_age := a; annualCost := c |})
      [ (0, 250003); (1, 240000); (2, 230000); (3, 220000); (4, 200000); (5, 180000);
        (6, 150000); (7, 130000); (8, 120000); (9, 110000); (10, 100000); (11, 95000);
        (12, 90000); (13, 85000); (14, 80000); (15, 75000); (16, 70000); (17, 68000);
        (18, 65000) ].

Definition sampleNow : string := "2025-12-01T00:00:00.000Z".

Definition firstChild (a : Z) : ChildInfo := {| age := a; birthOrder := first |}.

Definition inputAge5 : CalculationInput :=
  {| householdIncome := 6000000; children := [firstChild 5] |}.

Definition inputBirth : CalculationInput :=
  {| householdIncome := 5500000; children := [firstChild 0] |}.

Definition inputAge16 : CalculationInput :=
  {| householdIncome := 5500000; children := [firstChild 16] |}.

(** What the engine reports for some of the entries above. *)
Definition tokyo018At5 : AppliedPolicy :=
  {| policy := tokyo018;
     calculatedAmount := 840000;
     yearsApplied := 14;
     ageRange := Some {| fromAge := 5; toAge := 18; years := 14 |};
     maxAmount := Some 1140000;
     receivedAmount := Some 300000 |}.

Definition allowanceAtBirth : AppliedPolicy :=
  {| policy := childAllowance Saitama;
     calculatedAmount := 2460000;
     yearsApplied := 19;
     ageRange := Some {| fromAge := 0; toAge := 18; years := 19 |};
     maxAmount := Some 2460000;
     receivedAmount := Some 0 |}.

Definition tuitionAtBirth : AppliedPolicy :=
  {| policy := saitamaTuition;
     calculatedAmount := 56000;
     yearsApplied := 4;
     ageRange := Some {| fromAge := 15; toAge := 18; years := 4 |};
     maxAmount := Some 800000;
     receivedAmount := Some 0 |}.

Definition tuitionAt16 : AppliedPolicy :=
  {| policy := saitamaTuition;
     calculatedAmount := 42000;
     yearsApplied := 3;
     ageRange := Some {| fromAge := 16; toAge := 18; years := 3 |};
     maxAmount := Some 800000;
     receivedAmount := Some 200000 |}.

(* ================================================================== *)
(** * Further code of the repository *)

(** ** [loadAllPrefectureData] ([src/lib/dataLoader.ts])

    The returned [Record<Prefecture, PrefectureData>] is the list of its
    entries in key order; [recordGet] is the property read [record[key]]. *)

Definition Prefecture_eqb (a b : Prefecture) : bool :=
  match a, b with
  | Tokyo, Tokyo | Saitama, Saitama | Chiba, Chiba | Kanagawa, Kanagawa => true
  | _, _ => false
  end.

Definition loadAllPrefectureData : list (Prefecture * PrefectureData) :=
  [ (Tokyo, tokyo subsidyData);
    (Saitama, saitama subsidyData);
    (Chiba, chiba subsidyData);
    (Kanagawa, kanagawa subsidyData) ].

Fixpoint recordGet {V : Type} (record : list (Prefecture * V)) (key : Prefecture)
  : option V :=
  match record with
  | [] => None
  | (k, v) :: rest => if Prefecture_eqb k key then Some v else recordGet rest key
  end.

(** ** [validateIncome] ([src/lib/utils.ts])

    The argument is a [number] that may be [NaN]. *)

Inductive IncomeValue : Type :=
| IncomeNaN
| IncomeNumber (n : Z).

Record ValidationResult : Type := mkValidationResult {
  isValid : bool;
  error : option string
}.

Definition validateIncome (income : IncomeValue) : ValidationResult :=
  match income with
  | IncomeNaN => {| isValid := false; error := Some "数値を入力してください"%string |}
  | IncomeNumber income =>
      if income <? 0 then
        {| isValid := false; error := Some "0以上の値を入力してください"%string |}
      else if income >? 99990000 then
        {| isValid := false; error := Some "9,999万円以下の値を入力してください"%string |}
      else {| isValid := true; error := None |}
  end.

(** ** [IncomeInput] (the income field of the form)

    [manYenValue] is the constant of that name; [handleChange] is the yen
    amount the handler passes to [onChange], from the text of the field:
    empty, or a number; [shownValue] is the [value] attribute given to the
    input, [None] for the empty string. *)

Definition manYenValue (value : Z) : Z :=
  if value =? 0 then 0 else Math_round (inject_Z value / inject_Z 10000)%Q.

Definition handleChange (typed : option Z) : Z :=
  let manYen := match typed with None => 0 | Some n => n end in
  let yen := manYen * 10000 in
  yen.


(** ** [ChildrenInput] (the children list of the form) *)

(** The conditional [i === 0 ? 'first' : i === 1 ? 'second' : 'third_or_more']
    that [addChild] applies to the length and [removeChild] to the index. *)
Definition birthOrderAt (i : nat) : BirthOrder :=
  match i with
  | O => first
  | S O => second
  | _ => third_or_more
  end.

Definition addChild (childInfoList : list ChildInfo) : list ChildInfo :=
  let birthOrder := birthOrderAt (length childInfoList) in
  childInfoList ++ [ {| age := 0; birthOrder := birthOrder |} ].

(** [updated[index] = { ...updated[index], age }].  Past the end the array
    would receive an entry without [birthOrder], which is no [ChildInfo]:
    [None]. *)
Fixpoint updateChild (childInfoList : list ChildInfo) (index : nat) (newAge : Z)
  : option (list ChildInfo) :=
  match childInfoList, index with
  | [], _ => None
  | child :: rest, O => Some ({| age := newAge; birthOrder := birthOrder child |} :: rest)
  | child :: rest, S index' =>
      match updateChild rest index' newAge with
      | Some rest' => Some (child :: rest')
      | None => None
      end
  end.

(** [l.filter((x, i) => keep(i))] *)
Fixpoint filteri_from {A : Type} (i : nat) (keep : nat -> bool) (l : list A) : list A :=
  match l with
  | [] => []
  | a :: l' => if keep i then a :: filteri_from (S i) keep l' else filteri_from (S i) keep l'
  end.

Definition removeChild (childInfoList : list ChildInfo) (index : nat) : list ChildInfo :=
  let updated := filteri_from 0 (fun i => negb (i =? index)%nat) childInfoList in
  let reordered :=
    mapi (fun child i => {| age := age child; birthOrder := birthOrderAt i |}) updated in
  reordered.

(** One user action on the children list, whose initial state is []. *)
Inductive FormStep : list ChildInfo -> list ChildInfo -> Prop :=
| step_add l : FormStep l (addChild l)
| step_update l index newAge l' :
    updateChild l index newAge = Some l' -> FormStep l l'
| step_remove l index : FormStep l (removeChild l index).

Inductive FormReachable : list ChildInfo -> Prop :=
| reach_initial : FormReachable []
| reach_step l l' : FormReachable l -> FormStep l l' -> FormReachable l'.

(** Birth orders follow the positions: first, second, then third_or_more. *)
Definition positional (l : list ChildInfo) : Prop :=
  map birthOrder l = map birthOrderAt (seq 0 (length l)).

(** ** [ComparisonChart] and [DetailModal] *)

Record ChartDatum : Type := mkChartDatum {
  cd_prefecture : Prefecture;
  cd_totalAmount : Z;
  displayAmount : Z;
  cd_rank : Z;
  policyCount : nat
}.

Definition chartData (results : list CalculationResult) : list ChartDatum :=
  map (fun result =>
         {| cd_prefecture := prefecture result;
            cd_totalAmount := totalAmount result;
            displayAmount := Math_round (inject_Z (totalAmount result) / inject_Z 10000)%Q;
            cd_rank := rank result;
            policyCount := length (appliedPolicies result) |})
      results.

Definition activePolicies (result : CalculationResult) : list AppliedPolicy :=
  filter (fun applied => calculatedAmount applied >? 0) (appliedPolicies result).

(** ** More sample data *)

Definition thirdChild (a : Z) : ChildInfo := {| age := a; birthOrder := third_or_more |}.

Definition singleLimitPolicy (threshold : Z) : Subsidy :=
  {| s_id := "single_limit"; s_type := other;
     s_prefecture := Tokyo; s_amount := AmountNumber 10000; s_frequency := yearly;
     s_conditions :=
       {| incomeLimit := {| il_type := single; il_threshold := Some threshold;
                            il_tiers := None |};
          childCondition := anyChild None None |};
     ageBasedAmounts := None |}.

Definition birthGrantAtBirth : AppliedPolicy :=
  {| policy := birthGrant Tokyo;
     calculatedAmount := 100000;
     yearsApplied := 1;
     ageRange := Some {| fromAge := 0; toAge := 0; years := 1 |};
     maxAmount := Some 100000;
     receivedAmount := Some 0 |}.

Definition birthGrantAt5 : AppliedPolicy :=
  {| policy := birthGrant Tokyo;
     calculatedAmount := 0;
     yearsApplied := 0;
     ageRange := Some {| fromAge := 5; toAge := 0; years := 0 |};
     maxAmount := Some 100000;
     receivedAmount := Some 100000 |}.


(** Every interval of the policy ends at age 18 or before. *)
Definition endsBy18 (subsidy : Subsidy) : Prop :=
  match s_amount subsidy with
  | AmountVariable => Forall (fun b => ab_maxAge b <= 18) (bandList subsidy)
  | AmountNumber _ =>
      match s_type subsidy with
      | medical_expense => True
      | _ => effectiveMaxAge subsidy <= 18
      end
  end.

(** The fixed policies that [calculateFixedAmount], [calculateMaxAmount] and
    [calculateReceivedAmount] handle in their own body. *)
Definition isGenericFixed (subsidy : Subsidy) : bool :=
  negb (isVariableAmountSubsidy subsidy) &&
  match s_type subsidy with
  | medical_expense | childcare_fee | high_school_tuition => false
  | _ => true
  end.

Definition inputAge19 : CalculationInput :=
  {| householdIncome := 6000000; children := [firstChild 19] |}.

Definition tokyo018At19 : AppliedPolicy :=
  {| policy := tokyo018;
     calculatedAmount := 0;
     yearsApplied := 0;
     ageRange := Some {| fromAge := 19; toAge := 18; years := 0 |};
     maxAmount := Some 1140000;
     receivedAmount := Some 1140000 |}.

(* ================================================================== *)
(** * Loops and sums *)

Lemma forOf_pure {A S : Type} (f : S -> A -> S) (body : S -> A -> Result S) :
  (forall s a, body s a = Ok (f s a)) ->
  forall l s0, forOf l s0 body = Ok (fold_left f l s0).
Proof.
  intros Hbody l. unfold forOf.
  induction l as [|a l IH]; intros s0; simpl.
  - reflexivity.
  - rewrite Hbody. apply IH.
Qed.

Lemma fold_left_plus {A : Type} (f : Z -> A -> Z) (g : A -> Z) :
  (forall t a, f t a = t + g a) ->
  forall l t0, fold_left f l t0 = t0 + sumZ (map g l).
Proof.
  intros Hf l.
  induction l as [|a l IH]; intros t0; simpl.
  - lia.
  - rewrite IH, Hf. lia.
Qed.

Lemma sumZ_const {A : Type} (k : Z) (l : list A) :
  sumZ (map (fun _ => k) l) = k * Z.of_nat (length l).
Proof.
  induction l as [|a l IH]; simpl length; simpl sumZ.
  - simpl. lia.
  - simpl map in IH. rewrite IH. lia.
Qed.

Lemma sumZ_pointwise {A : Type} (f g : A -> Z) (l : list A) :
  (forall a, In a l -> f a = g a) -> sumZ (map f l) = sumZ (map g l).
Proof.
  induction l as [|a l IH]; intros H; simpl.
  - reflexivity.
  - rewrite (H a (or_introl eq_refl)), IH; auto.
    intros b Hb. apply H. now right.
Qed.

Lemma sumZ_plus {A : Type} (f g : A -> Z) (l : list A) :
  sumZ (map (fun a => f a + g a) l) = sumZ (map f l) + sumZ (map g l).
Proof.
  induction l as [|a l IH]; simpl; lia.
Qed.

Lemma sumZ_le {A : Type} (f g : A -> Z) (l : list A) :
  (forall a, In a l -> f a <= g a) -> sumZ (map f l) <= sumZ (map g l).
Proof.
  induction l as [|a l IH]; intros H; simpl.
  - lia.
  - pose proof (H a (or_introl eq_refl)).
    assert (sumZ (map f l) <= sumZ (map g l)) by (apply IH; intros b Hb; apply H; now right).
    lia.
Qed.

Lemma sumZ_zero {A : Type} (f : A -> Z) (l : list A) :
  (forall a, In a l -> f a = 0) -> sumZ (map f l) = 0.
Proof.
  induction l as [|a l IH]; intros H; simpl.
  - reflexivity.
  - rewrite (H a (or_introl eq_refl)), IH; auto.
    intros b Hb. apply H. now right.
Qed.

Lemma length_zero_nil {A : Type} (l : list A) :
  (length l =? 0)%nat = true -> l = [].
Proof.
  destruct l; simpl; [reflexivity | discriminate].
Qed.

Lemma mapM_In {A B : Type} (f : A -> Result B) (l : list A) (bs : list B) :
  mapM f l = Ok bs ->
  forall b, In b bs -> exists a, In a l /\ f a = Ok b.
Proof.
  revert bs.
  induction l as [|a l IH]; intros bs H b Hb; simpl in H.
  - injection H as <-. destruct Hb.
  - destruct (f a) as [b0|e] eqn:Ea; simpl in H; [|discriminate].
    destruct (mapM f l) as [bs0|e] eqn:El; simpl in H; [|discriminate].
    injection H as <-.
    destruct Hb as [<-|Hb].
    + exists a. split; [now left | assumption].
    + destruct (IH bs0 eq_refl b Hb) as (a' & Hin & Hf).
      exists a'. split; [now right | assumption].
Qed.

Lemma mapM_total {A B : Type} (f : A -> Result B) (l : list A) :
  (forall a, In a l -> exists b, f a = Ok b) ->
  exists bs, mapM f l = Ok bs /\ length bs = length l.
Proof.
  induction l as [|a l IH]; intros H; simpl.
  - exists []. split; reflexivity.
  - destruct (H a (or_introl eq_refl)) as (b & Hb).
    destruct IH as (bs & Hbs & Hlen); [intros x Hx; apply H; now right|].
    exists (b :: bs). rewrite Hb, Hbs. simpl. split; [reflexivity | now rewrite Hlen].
Qed.

Lemma mapM_map {A B C : Type} (f : A -> Result B) (g : B -> C) (h : A -> C) (l : list A) bs :
  (forall a b, f a = Ok b -> g b = h a) ->
  mapM f l = Ok bs -> map g bs = map h l.
Proof.
  intros Hgh. revert bs.
  induction l as [|a l IH]; intros bs H; simpl in H.
  - injection H as <-. reflexivity.
  - destruct (f a) as [b0|e] eqn:Ea; simpl in H; [|discriminate].
    destruct (mapM f l) as [bs0|e] eqn:El; simpl in H; [|discriminate].
    injection H as <-. simpl. rewrite (Hgh _ _ Ea), (IH _ eq_refl). reflexivity.
Qed.

(* ================================================================== *)
(** * Sorting and ranking *)

Section Sorting.

Context {A : Type} (key : A -> Z).

Local Notation "'cmp'" := (fun a b => key b - key a).

Lemma sort_insert_perm (x : A) (l : list A) :
  Permutation (x :: l) (sort_insert cmp x l).
Proof.
  induction l as [|y l IH]; simpl.
  - apply Permutation_refl.
  - destruct (cmp x y <=? 0).
    + apply Permutation_refl.
    + eapply perm_trans; [apply perm_swap|]. now apply perm_skip.
Qed.

Lemma Array_sort_perm (l : list A) : Permutation l (Array_sort cmp l).
Proof.
  induction l as [|x l IH]; simpl.
  - apply perm_nil.
  - eapply perm_trans; [apply perm_skip, IH|]. apply sort_insert_perm.
Qed.

Lemma sort_insert_hd (x : A) (l : list A) (z : A) :
  key z >= key x -> HdRel (fun a b => key a >= key b) z l ->
  HdRel (fun a b => key a >= key b) z (sort_insert cmp x l).
Proof.
  intros Hzx Hl. destruct l as [|y l]; simpl.
  - now constructor.
  - destruct (cmp x y <=? 0); constructor; auto.
    now inversion Hl.
Qed.

Lemma sort_insert_sorted (x : A) (l : list A) :
  descending key l -> descending key (sort_insert cmp x l).
Proof.
  unfold descending.
  induction l as [|y l IH]; intros Hs; simpl.
  - repeat constructor.
  - destruct (cmp x y <=? 0) eqn:E.
    + constructor; [assumption|]. constructor. apply Z.leb_le in E. lia.
    + inversion Hs as [|? ? Hs' Hhd]; subst.
      constructor; [now apply IH|].
      apply sort_insert_hd; [apply Z.leb_gt in E; lia | assumption].
Qed.

Lemma Array_sort_sorted (l : list A) : descending key (Array_sort cmp l).
Proof.
  induction l as [|x l IH]; simpl.
  - constructor.
  - now apply sort_insert_sorted.
Qed.

End Sorting.

Lemma mapi_from_map {A B C : Type} (f : A -> nat -> B) (g : B -> C) (h : A -> C)
  (l : list A) (i : nat) :
  (forall a k, g (f a k) = h a) -> map g (mapi_from i f l) = map h l.
Proof.
  intros H. revert i. induction l as [|a l IH]; intros i; simpl.
  - reflexivity.
  - now rewrite H, IH.
Qed.

Lemma mapi_from_index {A B : Type} (f : A -> nat -> B) (g : B -> Z) (l : list A) (i : nat) :
  (forall a k, g (f a k) = Z.of_nat k + 1) ->
  map g (mapi_from i f l) = map Z.of_nat (seq (S i) (length l)).
Proof.
  intros H. revert i. induction l as [|a l IH]; intros i; simpl.
  - reflexivity.
  - rewrite H, IH. f_equal. lia.
Qed.

Lemma Sorted_map_key {A B : Type} (keyA : A -> Z) (keyB : B -> Z) (la : list A) (lb : list B) :
  map keyB lb = map keyA la -> descending keyA la -> descending keyB lb.
Proof.
  unfold descending. revert lb.
  induction la as [|a la IH]; intros lb Hmap Hs; destruct lb as [|b lb]; try discriminate.
  - constructor.
  - simpl in Hmap. injection Hmap as Hb Hrest.
    inversion Hs as [|? ? Hs' Hhd]; subst.
    constructor; [now apply IH|].
    destruct la as [|a' la]; destruct lb as [|b' lb]; try discriminate; constructor.
    simpl in Hrest. injection Hrest as Hb' _.
    inversion Hhd; subst. lia.
Qed.

(* ================================================================== *)
(** * The calculators as sums over children *)

Lemma remainingLoop_fst (a mn mx : Z) (l : list ChildInfo) :
  fst (remainingLoop a mn mx l) = sumZ (map (remainingOf a mn mx) l).
Proof.
  unfold remainingLoop.
  assert (G : forall l t m,
             fst (fold_left
                    (fun '(total, maxYears) child =>
                       let years := calculateYearsFromCurrentAge (age child) mn mx in
                       if years >? 0 then (total + a * years, Z.max maxYears years)
                       else (total, maxYears)) l (t, m))
             = t + sumZ (map (remainingOf a mn mx) l)).
  { clear l. induction l as [|c l IH]; intros t m; simpl.
    - lia.
    - unfold remainingOf at 1.
      destruct (calculateYearsFromCurrentAge (age c) mn mx >? 0); rewrite IH; lia. }
  rewrite G. lia.
Qed.

Lemma receivedLoop_sum (a mn mx : Z) (l : list ChildInfo) :
  receivedLoop a mn mx l = sumZ (map (receivedOf a mn mx) l).
Proof.
  unfold receivedLoop.
  rewrite (fold_left_plus _ (receivedOf a mn mx)); [lia|].
  intros t c. unfold receivedOf.
  destruct (age c =? 0); [lia|].
  destruct (age c >? mx); [lia|].
  destruct (age c >? mn); lia.
Qed.

Lemma wellTyped_bands (s : Subsidy) :
  wellTyped s -> s_amount s = AmountVariable ->
  ageBasedAmounts s = Some (bandList s).
Proof.
  intros Hwt Hv. specialize (Hwt Hv). unfold bandList.
  destruct (ageBasedAmounts s); [reflexivity | contradiction].
Qed.

Lemma remainingByAgeRanges_sum (c : ChildInfo) (bands : list AgeBasedAmount) (total : Z) :
  remainingByAgeRanges c bands total = total + sumZ (map (bandRemaining c) bands).
Proof.
  unfold remainingByAgeRanges.
  apply fold_left_plus. intros t b.
  unfold bandRemaining, remainingOf, bandAnnual.
  destruct (calculateYearsFromCurrentAge (age c) (ab_minAge b) (ab_maxAge b) >? 0); lia.
Qed.

(** ** Variable policies *)

Lemma currentAmount_variable (s : Subsidy) (input : CalculationInput) :
  s_amount s = AmountVariable -> wellTyped s ->
  currentAmount s input
  = Ok (sumZ (map (childRemaining s (householdIncome input)) (children input))).
Proof.
  intros Hv Hwt. pose proof (wellTyped_bands s Hwt Hv) as Hb.
  unfold currentAmount, isVariableAmountSubsidy. rewrite Hv.
  assert (Hvar : calculateVariableAmount s (children input)
                 = Ok (sumZ (map (fun c => sumZ (map (bandRemaining c) (bandList s)))
                                 (children input)))).
  { unfold calculateVariableAmount.
    rewrite (forOf_pure (fun t c => t + sumZ (map (bandRemaining c) (bandList s)))).
    - rewrite (fold_left_plus _ (fun c => sumZ (map (bandRemaining c) (bandList s))));
        [f_equal; lia | reflexivity].
    - intros t c. rewrite Hb. simpl. now rewrite remainingByAgeRanges_sum. }
  destruct (s_type s) eqn:Et;
    try (rewrite Hvar; f_equal; apply sumZ_pointwise; intros c _;
         unfold childRemaining, isThirdChildAllowance; rewrite Hv, Et; reflexivity).
  unfold calculateChildcareAllowance.
  rewrite (forOf_pure (fun t c => t + childRemaining s (householdIncome input) c)).
  - rewrite (fold_left_plus _ (childRemaining s (householdIncome input)));
      [f_equal; lia | reflexivity].
  - intros t c. unfold childRemaining, isThirdChildAllowance. rewrite Hv, Et, Hb.
    destruct (birthOrder c); simpl; rewrite ?remainingByAgeRanges_sum; reflexivity.
Qed.

Lemma calculateMaxAmount_variable (s : Subsidy) (cs : list ChildInfo) :
  s_amount s = AmountVariable -> wellTyped s ->
  calculateMaxAmount s cs = Ok (sumZ (map (childFull s) cs)).
Proof.
  intros Hv Hwt. pose proof (wellTyped_bands s Hwt Hv) as Hb.
  unfold calculateMaxAmount, isVariableAmountSubsidy. rewrite Hv.
  rewrite (forOf_pure (fun t c => t + childFull s c)).
  - rewrite (fold_left_plus _ (childFull s)); [f_equal; lia | reflexivity].
  - intros t c. unfold childFull. rewrite Hv.
    destruct (isThirdChildAllowance s c); [reflexivity|].
    rewrite Hb. simpl. f_equal.
    apply fold_left_plus. intros t' b. unfold bandFull, bandAnnual. lia.
Qed.

Lemma calculateReceivedAmount_variable (s : Subsidy) (cs : list ChildInfo) :
  s_amount s = AmountVariable -> wellTyped s ->
  calculateReceivedAmount s cs = Ok (sumZ (map (childReceived s) cs)).
Proof.
  intros Hv Hwt. pose proof (wellTyped_bands s Hwt Hv) as Hb.
  unfold calculateReceivedAmount, isVariableAmountSubsidy. rewrite Hv.
  rewrite (forOf_pure (fun t c => t + childReceived s c)).
  - rewrite (fold_left_plus _ (childReceived s)); [f_equal; lia | reflexivity].
  - intros t c. unfold childReceived. rewrite Hv.
    destruct (age c =? 0); [f_equal; lia|].
    destruct (isThirdChildAllowance s c); [reflexivity|].
    rewrite Hb. simpl. f_equal.
    apply fold_left_plus. intros t' b. unfold bandReceived, bandAnnual.
    destruct (age c <=? ab_minAge b); [lia|]. simpl.
    destruct (Z.min (age c - 1) (ab_maxAge b) >=? ab_minAge b); lia.
Qed.

(** ** Fixed policies *)

Lemma genericLoop_fst (f : Frequency) (a mn mx : Z) (l : list ChildInfo) (t m : Z) :
  fst (fold_left
         (fun '(totalAmount, maxYears) child =>
            let years := calculateYearsFromCurrentAge (age child) mn mx in
            if years >? 0 then
              match f with
              | once => (totalAmount + a, Z.max maxYears 1)
              | _ => (totalAmount + a * years, Z.max maxYears years)
              end
            else (totalAmount, maxYears))
         l (t, m))
  = t + sumZ (map (fun child =>
                     match f with
                     | once =>
                         if calculateYearsFromCurrentAge (age child) mn mx >? 0
                         then a else 0
                     | _ => remainingOf a mn mx child
                     end) l).
Proof.
  revert t m. induction l as [|c l IH]; intros t m; simpl.
  - lia.
  - unfold remainingOf at 1.
    destruct (calculateYearsFromCurrentAge (age c) mn mx >? 0) eqn:E; destruct f;
      rewrite IH; unfold remainingOf; rewrite ?E; lia.
Qed.

Ltac early_return E :=
  match goal with
  | |- context [(length ?l =? 0)%nat] =>
      destruct (length l =? 0)%nat eqn:E;
      [apply length_zero_nil in E; rewrite ?E | clear E]
  end.

Lemma calculateFixedAmount_amount (s : Subsidy) (input : CalculationInput) (n : Z) :
  s_amount s = AmountNumber n ->
  exists r, calculateFixedAmount s input = Ok r /\
            fr_amount r = sumZ (map (childRemaining s (householdIncome input))
                                    (childrenNow s (children input))).
Proof.
  intros Hn.
  unfold calculateFixedAmount, childrenNow, isVariableAmountSubsidy. rewrite Hn.
  set (eligible := filter _ (children input)).
  assert (Hgen :
    s_type s <> medical_expense -> s_type s <> childcare_fee ->
    s_type s <> high_school_tuition ->
    exists r,
      (if (length eligible =? 0)%nat then Ok (mkFixedResult 0 0 None)
       else
         let minAge := nullish (cc_minAge (childCondition (s_conditions s))) 0 in
         let maxAge := nullish (cc_maxAge (childCondition (s_conditions s))) 18 in
         let annualAmount := calculateAmountByFrequency n (s_frequency s) in
         let '(totalAmount, maxYears) :=
           fold_left
             (fun '(totalAmount, maxYears) child =>
                let years := calculateYearsFromCurrentAge (age child) minAge maxAge in
                if years >? 0 then
                  match s_frequency s with
                  | once => (totalAmount + annualAmount, Z.max maxYears 1)
                  | _ => (totalAmount + annualAmount * years, Z.max maxYears years)
                  end
                else (totalAmount, maxYears))
             eligible (0, 0) in
         let ageRange := firstChildAgeRange eligible minAge maxAge in
         Ok (mkFixedResult totalAmount maxYears ageRange)) = Ok r /\
      fr_amount r = sumZ (map (childRemaining s (householdIncome input)) eligible)).
  { intros H1 H2 H3.
    early_return E; [eexists; split; reflexivity|].
    cbv zeta.
    pose proof (genericLoop_fst (s_frequency s)
                  (calculateAmountByFrequency n (s_frequency s))
                  (nullish (cc_minAge (childCondition (s_conditions s))) 0)
                  (nullish (cc_maxAge (childCondition (s_conditions s))) 18)
                  eligible 0 0) as G.
    match type of G with fst ?x = _ => destruct x as [tot my] end.
    simpl in G. eexists; split; [reflexivity|]. simpl. rewrite G.
    apply sumZ_pointwise. intros c _.
    unfold childRemaining, effectiveMinAge, effectiveMaxAge, annualOf. rewrite Hn.
    destruct (s_type s); try congruence; reflexivity. }
  destruct (s_type s) eqn:Et; try (apply Hgen; congruence).
  - (* medical_expense *)
    eexists; split; [reflexivity|].
    unfold calculateMedicalExpenseSubsidy. fold eligible.
    early_return E; [reflexivity|]. simpl.
    rewrite (fold_left_plus _ (fun c => calculateMedicalSubsidy (age c) (s_prefecture s)));
      [|reflexivity].
    simpl. apply sumZ_pointwise. intros c _.
    unfold childRemaining. now rewrite Hn, Et.
  - (* childcare_fee *)
    unfold calculateChildcareFeeSubsidy. rewrite Hn. fold eligible.
    early_return E; [eexists; split; reflexivity|].
    cbv zeta.
    pose proof (remainingLoop_fst (calculateAmountByFrequency n (s_frequency s))
                  (nullish (cc_minAge (childCondition (s_conditions s))) 0)
                  (nullish (cc_maxAge (childCondition (s_conditions s))) 5)
                  eligible) as G.
    destruct (remainingLoop _ _ _ eligible) as [tot my].
    simpl in G. eexists; split; [reflexivity|]. simpl. rewrite G.
    apply sumZ_pointwise. intros c _.
    unfold childRemaining, effectiveMinAge, effectiveMaxAge, annualOf.
    now rewrite Hn, Et.
  - (* high_school_tuition *)
    unfold calculateHighSchoolTuition. rewrite Hn. fold eligible.
    early_return E; [eexists; split; reflexivity|].
    cbv zeta.
    pose proof (remainingLoop_fst (tuitionPerYear s n (householdIncome input))
                  (nullish (cc_minAge (childCondition (s_conditions s))) 15)
                  (nullish (cc_maxAge (childCondition (s_conditions s))) 18)
                  eligible) as G.
    destruct (remainingLoop _ _ _ eligible) as [tot my].
    simpl in G. eexists; split; [reflexivity|]. simpl. rewrite G.
    apply sumZ_pointwise. intros c _.
    unfold childRemaining, effectiveMinAge, effectiveMaxAge.
    now rewrite Hn, Et.
Qed.

Lemma currentAmount_fixed (s : Subsidy) (input : CalculationInput) (n : Z) :
  s_amount s = AmountNumber n ->
  currentAmount s input
  = Ok (sumZ (map (childRemaining s (householdIncome input))
                  (childrenNow s (children input)))).
Proof.
  intros Hn. destruct (calculateFixedAmount_amount s input n Hn) as (r & Hr & Ha).
  unfold currentAmount, isVariableAmountSubsidy. rewrite Hn, Hr. simpl. now rewrite Ha.
Qed.

Lemma calculateMaxAmount_fixed (s : Subsidy) (cs : list ChildInfo) (n : Z) :
  s_amount s = AmountNumber n ->
  calculateMaxAmount s cs = Ok (sumZ (map (childFull s) (childrenEver s cs))).
Proof.
  intros Hn.
  unfold calculateMaxAmount, childrenEver, isVariableAmountSubsidy. rewrite Hn.
  set (eligible := filter _ cs).
  assert (Hfull : forall c, childFull s c = childFull s {| age := 0; birthOrder := first |}).
  { intros c. unfold childFull. now rewrite Hn. }
  rewrite (sumZ_pointwise _ (fun _ => childFull s {| age := 0; birthOrder := first |})
             eligible (fun c _ => Hfull c)), sumZ_const.
  unfold childFull, effectiveMinAge, effectiveMaxAge, annualOf. rewrite Hn.
  destruct (s_type s) eqn:Et;
    try (early_return E; [f_equal; simpl; lia|];
         destruct (s_frequency s); f_equal; lia).
  - unfold calculateMaxMedicalExpenseSubsidy. fold eligible.
    early_return E; [f_equal; simpl; lia|].
    rewrite (fold_left_plus _ (fun _ => calculateMedicalSubsidy 0 (s_prefecture s)));
      [|reflexivity].
    rewrite sumZ_const. f_equal.
  - unfold calculateMaxChildcareFeeSubsidy. rewrite Hn. fold eligible.
    early_return E; [f_equal; simpl; lia|]. f_equal; lia.
  - unfold calculateMaxHighSchoolTuition. rewrite Hn. fold eligible.
    early_return E; [f_equal; simpl; lia|]. f_equal; lia.
Qed.

Lemma calculateReceivedAmount_fixed (s : Subsidy) (cs : list ChildInfo) (n : Z) :
  s_amount s = AmountNumber n ->
  calculateReceivedAmount s cs = Ok (sumZ (map (childReceived s) (childrenEver s cs))).
Proof.
  intros Hn.
  unfold calculateReceivedAmount, childrenEver, isVariableAmountSubsidy. rewrite Hn.
  set (eligible := filter _ cs).
  assert (Honce : forall a mx (l : list ChildInfo),
             a * Z.of_nat (length (filter (fun child => age child >? mx) l))
             = sumZ (map (fun c => if age c >? mx then a else 0) l)).
  { intros a mx l. induction l as [|c l IH]; simpl; [lia|].
    destruct (age c >? mx); simpl length; rewrite <- IH; lia. }
  assert (Hgen :
    s_type s <> medical_expense -> s_type s <> childcare_fee ->
    s_type s <> high_school_tuition ->
    (if (length eligible =? 0)%nat then Ok 0
     else
       let annualAmount := calculateAmountByFrequency n (s_frequency s) in
       match s_frequency s with
       | once =>
           let receivedCount :=
             length (filter (fun child =>
                               age child >? nullish (cc_maxAge (childCondition (s_conditions s))) 18)
                            eligible) in
           Ok (annualAmount * Z.of_nat receivedCount)
       | _ => Ok (receivedLoop annualAmount
                    (nullish (cc_minAge (childCondition (s_conditions s))) 0)
                    (nullish (cc_maxAge (childCondition (s_conditions s))) 18) eligible)
       end) = Ok (sumZ (map (childReceived s) eligible))).
  { intros H1 H2 H3.
    early_return E; [reflexivity|]. cbv zeta.
    assert (Hc : forall c, childReceived s c =
                 match s_frequency s with
                 | once => if age c >? nullish (cc_maxAge (childCondition (s_conditions s))) 18
                           then calculateAmountByFrequency n (s_frequency s) else 0
                 | _ => receivedOf (calculateAmountByFrequency n (s_frequency s))
                          (nullish (cc_minAge (childCondition (s_conditions s))) 0)
                          (nullish (cc_maxAge (childCondition (s_conditions s))) 18) c
                 end).
    { intros c. unfold childReceived, effectiveMinAge, effectiveMaxAge, annualOf.
      rewrite Hn. destruct (s_type s); try congruence; reflexivity. }
    rewrite (sumZ_pointwise _ _ eligible (fun c _ => Hc c)).
    destruct (s_frequency s); f_equal; rewrite ?Honce, ?receivedLoop_sum; reflexivity. }
  destruct (s_type s) eqn:Et; try (apply Hgen; congruence).
  - unfold calculateReceivedMedicalExpenseSubsidy. fold eligible.
    early_return E; [reflexivity|]. f_equal.
    rewrite (fold_left_plus _ (childReceived s)); [lia|].
    intros t c. unfold childReceived. rewrite Hn, Et.
    destruct (age c =? 0); lia.
  - unfold calculateReceivedChildcareFeeSubsidy. rewrite Hn. fold eligible.
    early_return E; [reflexivity|]. f_equal.
    rewrite receivedLoop_sum. apply sumZ_pointwise. intros c _.
    unfold childReceived, effectiveMinAge, effectiveMaxAge, annualOf.
    now rewrite Hn, Et.
  - unfold calculateReceivedHighSchoolTuition. rewrite Hn. fold eligible.
    early_return E; [reflexivity|]. f_equal.
    rewrite (fold_left_plus _ (childReceived s)); [lia|].
    intros t c. unfold childReceived, effectiveMinAge, effectiveMaxAge.
    rewrite Hn, Et. cbv zeta.
    destruct ((age c =? 0) || (age c <=? _)); [lia|].
    destruct (age c >? _); lia.
Qed.

(* ================================================================== *)
(** * The medical calculator *)

Lemma fold_left_Qplus {A : Type} (f : Q -> A -> Q) (g : A -> Q) :
  (forall t a, (f t a == t + g a)%Q) ->
  forall l t0, (fold_left f l t0 == t0 + sumQ (map g l))%Q.
Proof.
  intros Hf l.
  induction l as [|a l IH]; intros t0; simpl.
  - ring.
  - rewrite IH, Hf. ring.
Qed.

Lemma for_range_cons (lo hi : Z) :
  lo <= hi -> for_range lo hi = lo :: for_range (lo + 1) hi.
Proof.
  intros H. unfold for_range.
  replace (Z.to_nat (hi - lo + 1)) with (S (Z.to_nat (hi - (lo + 1) + 1))) by lia.
  cbn [seq map]. f_equal; [lia|].
  rewrite <- seq_shift, map_map.
  apply map_ext. intros k. lia.
Qed.

Lemma for_range_nil (lo hi : Z) : hi < lo -> for_range lo hi = [].
Proof.
  intros H. unfold for_range.
  replace (Z.to_nat (hi - lo + 1)) with 0%nat by lia. reflexivity.
Qed.

(** The term one age adds to the running total. *)
Lemma medical_term (j : Prefecture) (t : Q) (a : Z) :
  (match getMedicalCostByAge ageMedicalCosts a with
   | Some medicalCost =>
       t + inject_Z (annualCost medicalCost) * getSelfPaymentRate a * getAssistanceRate j
   | None => t
   end == t + annualMedicalCost a * selfPayRate a * assistanceRate j)%Q.
Proof.
  unfold annualMedicalCost, getMedicalCostByAge.
  destruct (find _ ageMedicalCosts) as [row|].
  - apply Qplus_comp; [reflexivity|].
    apply Qmult_comp; [apply Qmult_comp; [reflexivity|]|].
    + unfold getSelfPaymentRate, selfPayRate. destruct (a <=? 5); reflexivity.
    + destruct j; reflexivity.
  - ring.
Qed.

Lemma calculateMedicalSubsidy_in_range (a : Z) (j : Prefecture) :
  0 <= a <= 18 -> calculateMedicalSubsidy a j = medicalSubsidySpec a j.
Proof.
  intros Ha. unfold calculateMedicalSubsidy, medicalSubsidySpec.
  replace (a <? 0) with false by (symmetry; apply Z.ltb_ge; lia).
  replace (a >? 18) with false by (rewrite Z.gtb_ltb; symmetry; apply Z.ltb_ge; lia).
  assert (Hage : getAssistanceAge j = 18) by (destruct j; reflexivity).
  rewrite Hage. simpl orb. cbv iota.
  replace (a >? 18) with false by (rewrite Z.gtb_ltb; symmetry; apply Z.ltb_ge; lia).
  unfold Math_round. apply Qfloor_comp.
  apply Qplus_comp; [|reflexivity].
  rewrite (fold_left_Qplus _
             (fun x => (annualMedicalCost x * selfPayRate x * assistanceRate j)%Q)).
  - ring.
  - intros t x. apply medical_term.
Qed.

Lemma calculateMedicalSubsidy_out_of_range (a : Z) (j : Prefecture) :
  a < 0 \/ 18 < a -> calculateMedicalSubsidy a j = 0.
Proof.
  intros Ha. unfold calculateMedicalSubsidy.
  destruct (a <? 0) eqn:E1; [reflexivity|].
  destruct (a >? 18) eqn:E2; [reflexivity|].
  apply Z.ltb_ge in E1. rewrite Z.gtb_ltb in E2. apply Z.ltb_ge in E2. lia.
Qed.

Lemma medical_term_nonneg (j : Prefecture) (a : Z) :
  nonNegativeCosts ->
  (0 <= annualMedicalCost a * selfPayRate a * assistanceRate j)%Q.
Proof.
  intros Hc.
  assert (H1 : (0 <= annualMedicalCost a)%Q).
  { unfold annualMedicalCost.
    destruct (find _ ageMedicalCosts) as [row|] eqn:E; [|apply Qle_refl].
    apply find_some in E. destruct E as [Hin _].
    unfold nonNegativeCosts in Hc. rewrite Forall_forall in Hc.
    specialize (Hc row Hin).
    change 0%Q with (inject_Z 0). rewrite <- Zle_Qle. exact Hc. }
  assert (H2 : (0 <= selfPayRate a)%Q).
  { unfold selfPayRate. destruct (a <=? 5); discriminate. }
  assert (H3 : (0 <= assistanceRate j)%Q) by (destruct j; discriminate).
  apply Qmult_le_0_compat; [apply Qmult_le_0_compat|]; assumption.
Qed.

Lemma Math_round_le (x y : Q) : (x <= y)%Q -> Math_round x <= Math_round y.
Proof.
  intros H. unfold Math_round. apply Qfloor_resp_le.
  apply Qplus_le_l. exact H.
Qed.

Lemma Qle_plus_nonneg (x y : Q) : (0 <= x)%Q -> (y <= x + y)%Q.
Proof.
  intros H. apply Qle_trans with (0 + y)%Q.
  - rewrite Qplus_0_l. apply Qle_refl.
  - apply Qplus_le_l. exact H.
Qed.

Lemma Math_round_zero : Math_round 0 = 0.
Proof. reflexivity. Qed.

Lemma calculateMedicalSubsidy_step (a : Z) (j : Prefecture) :
  nonNegativeCosts -> 0 <= a -> a <= 18 ->
  calculateMedicalSubsidy (a + 1) j <= calculateMedicalSubsidy a j.
Proof.
  intros Hc H0 H18.
  rewrite (calculateMedicalSubsidy_in_range a j) by lia.
  assert (Hage : getAssistanceAge j = 18) by (destruct j; reflexivity).
  unfold medicalSubsidySpec. rewrite Hage.
  rewrite (for_range_cons a 18) by lia. cbn [map sumQ fold_right].
  destruct (Z.eq_dec a 18) as [->|Hne].
  - rewrite calculateMedicalSubsidy_out_of_range by lia.
    rewrite <- Math_round_zero. apply Math_round_le.
    rewrite for_range_nil by lia. simpl.
    rewrite Qplus_0_r. now apply medical_term_nonneg.
  - rewrite (calculateMedicalSubsidy_in_range (a + 1) j) by lia.
    unfold medicalSubsidySpec. rewrite Hage.
    apply Math_round_le. apply Qle_plus_nonneg. now apply medical_term_nonneg.
Qed.

Lemma calculateMedicalSubsidy_mono (a b : Z) (j : Prefecture) :
  nonNegativeCosts -> 0 <= a <= b ->
  calculateMedicalSubsidy b j <= calculateMedicalSubsidy a j.
Proof.
  intros Hc [H0 Hab].
  remember (Z.to_nat (b - a)) as k eqn:Ek.
  revert a b H0 Hab Ek.
  induction k as [|k IH]; intros a b H0 Hab Ek.
  - assert (b = a) by lia. subst. lia.
  - destruct (Z_le_gt_dec a 18) as [Hle|Hgt].
    + apply Z.le_trans with (calculateMedicalSubsidy (a + 1) j).
      * apply IH; lia.
      * now apply calculateMedicalSubsidy_step.
    + rewrite !calculateMedicalSubsidy_out_of_range by lia. lia.
Qed.

(* ================================================================== *)
(** * The engine *)

Lemma calculateSubsidyAmount_wellTyped (s : Subsidy) (input : CalculationInput) ap :
  calculateSubsidyAmount s input = Ok ap -> children input <> [] -> wellTyped s.
Proof.
  intros Hok Hne Hv.
  destruct (ageBasedAmounts s) as [bands|] eqn:Hb; [discriminate|].
  exfalso. revert Hok.
  unfold calculateSubsidyAmount, isVariableAmountSubsidy. rewrite Hv, Hb.
  destruct (children input) as [|c cs]; [now elim Hne|].
  destruct (match s_type s with
            | childcare_allowance => calculateChildcareAllowance s (c :: cs)
            | _ => calculateVariableAmount s (c :: cs)
            end); simpl; discriminate.
Qed.

Lemma calculateSubsidyAmount_amounts (s : Subsidy) (input : CalculationInput) :
  wellTyped s ->
  exists ap,
    calculateSubsidyAmount s input = Ok ap /\
    policy ap = s /\
    calculatedAmount ap
    = sumZ (map (childRemaining s (householdIncome input)) (childrenNow s (children input))) /\
    maxAmount ap = Some (sumZ (map (childFull s) (childrenEver s (children input)))) /\
    receivedAmount ap = Some (sumZ (map (childReceived s) (childrenEver s (children input)))).
Proof.
  intros Hwt. destruct (s_amount s) as [n|] eqn:Hn.
  - destruct (calculateFixedAmount_amount s input n Hn) as (r & Hr & Ha).
    unfold calculateSubsidyAmount, isVariableAmountSubsidy. rewrite Hn, Hr. simpl.
    rewrite (calculateMaxAmount_fixed s _ n Hn), (calculateReceivedAmount_fixed s _ n Hn).
    simpl. eexists; split; [reflexivity|]. simpl. auto.
  - pose proof (currentAmount_variable s input Hn Hwt) as Hcur.
    pose proof (wellTyped_bands s Hwt Hn) as Hb.
    unfold currentAmount, isVariableAmountSubsidy in Hcur. rewrite Hn in Hcur.
    unfold calculateSubsidyAmount, childrenNow, childrenEver, isVariableAmountSubsidy.
    rewrite Hn, Hcur, Hb. simpl.
    rewrite (calculateMaxAmount_variable s _ Hn Hwt),
            (calculateReceivedAmount_variable s _ Hn Hwt).
    destruct (children input) as [|c cs]; [|destruct (bandList s)]; simpl;
      (eexists; split; [reflexivity|]; simpl; auto).
Qed.

Lemma calculateSubsidyAmount_ok (s : Subsidy) (input : CalculationInput) ap :
  calculateSubsidyAmount s input = Ok ap -> children input <> [] ->
  policy ap = s /\
  calculatedAmount ap
  = sumZ (map (childRemaining s (householdIncome input)) (childrenNow s (children input))) /\
  maxAmount ap = Some (sumZ (map (childFull s) (childrenEver s (children input)))) /\
  receivedAmount ap = Some (sumZ (map (childReceived s) (childrenEver s (children input)))).
Proof.
  intros Hok Hne.
  pose proof (calculateSubsidyAmount_wellTyped s input ap Hok Hne) as Hwt.
  destruct (calculateSubsidyAmount_amounts s input Hwt) as (ap' & Hok' & H).
  rewrite Hok in Hok'. injection Hok' as <-. exact H.
Qed.

Lemma in_appliedPolicies (p : Prefecture) (input : CalculationInput) r ap :
  calculateSubsidies p input = Ok r -> In ap (appliedPolicies r) ->
  exists s,
    In s (policies (loadPrefectureData p)) /\
    passesIncomeLimit (householdIncome input) s = true /\
    existsb (fun child => matchesChildCondition child (childCondition (s_conditions s)))
            (children input) = true /\
    calculateSubsidyAmount s input = Ok ap.
Proof.
  unfold calculateSubsidies. intros Hok Hin.
  destruct (mapM _ _) as [aps|e] eqn:Em; simpl in Hok; [|discriminate].
  injection Hok as <-. simpl in Hin.
  destruct (mapM_In _ _ _ Em ap Hin) as (s & Hs & Hcalc).
  unfold filterByChildConditions, filterByIncomeLimit in Hs.
  apply filter_In in Hs. destruct Hs as [Hs Hchild].
  apply filter_In in Hs. destruct Hs as [Hs Hinc].
  exists s. auto.
Qed.

Lemma calculateSubsidies_fields (p : Prefecture) (input : CalculationInput) r :
  calculateSubsidies p input = Ok r ->
  prefecture r = p /\ rank r = 0 /\
  totalAmount r = sumZ (map calculatedAmount (appliedPolicies r)).
Proof.
  unfold calculateSubsidies. intros Hok.
  destruct (mapM _ _) as [aps|e] eqn:Em; simpl in Hok; [|discriminate].
  injection Hok as <-. simpl. repeat split.
  rewrite (fold_left_plus _ calculatedAmount); [lia | reflexivity].
Qed.

Lemma In_allPolicies (p : Prefecture) (s : Subsidy) :
  In s (policies (loadPrefectureData p)) -> In s allPolicies.
Proof.
  intros H. unfold allPolicies. apply in_flat_map.
  exists p. split; [|assumption]. destruct p; simpl; auto.
Qed.

Lemma calculateSubsidies_total (p : Prefecture) (input : CalculationInput) :
  wellTypedCatalog -> exists r, calculateSubsidies p input = Ok r.
Proof.
  intros Hwt. unfold calculateSubsidies.
  destruct (mapM_total (fun subsidy => calculateSubsidyAmount subsidy input)
              (filterByChildConditions
                 (filterByIncomeLimit (policies (loadPrefectureData p)) (householdIncome input))
                 (children input))) as (aps & Haps & _).
  - intros s Hs.
    unfold filterByChildConditions, filterByIncomeLimit in Hs.
    apply filter_In in Hs. destruct Hs as [Hs _].
    apply filter_In in Hs. destruct Hs as [Hs _].
    unfold wellTypedCatalog in Hwt. rewrite Forall_forall in Hwt.
    destruct (calculateSubsidyAmount_amounts s input (Hwt s (In_allPolicies p s Hs)))
      as (ap & Hap & _).
    now exists ap.
  - rewrite Haps. simpl. eexists. reflexivity.
Qed.

Lemma existsb_nonempty {A : Type} (f : A -> bool) (l : list A) :
  existsb f l = true -> l <> [].
Proof.
  destruct l; simpl; [discriminate | discriminate].
Qed.

(** ** The two eligibility tests *)

Lemma matchesChildCondition_split (s : Subsidy) (c : ChildInfo) :
  matchesChildCondition c (childCondition (s_conditions s))
  = birthOrderEligible s c && agesOverlap (childCondition (s_conditions s)).
Proof.
  unfold matchesChildCondition, birthOrderEligible, agesOverlap.
  destruct (cc_birthOrder (childCondition (s_conditions s))) as [[b|]|]; simpl;
    try destruct (BirthOrder_eqb b (birthOrder c)); simpl;
    destruct (18 <? nullish (cc_minAge (childCondition (s_conditions s))) 0);
    destruct (0 >? nullish (cc_maxAge (childCondition (s_conditions s))) 18); reflexivity.
Qed.

Lemma childrenNow_Ever (s : Subsidy) (cs : list ChildInfo) :
  existsb (fun child => matchesChildCondition child (childCondition (s_conditions s))) cs = true ->
  agesOverlap (childCondition (s_conditions s)) = true /\
  childrenNow s cs = childrenEver s cs.
Proof.
  intros Hex. apply existsb_exists in Hex. destruct Hex as (c & _ & Hc).
  rewrite matchesChildCondition_split in Hc. apply andb_true_iff in Hc.
  destruct Hc as [_ Hov]. split; [assumption|].
  unfold childrenNow, childrenEver.
  destruct (isVariableAmountSubsidy s); [reflexivity|].
  apply filter_ext. intros c'. rewrite matchesChildCondition_split, Hov.
  apply andb_true_r.
Qed.

(* ================================================================== *)
(** * One child, one policy *)

Ltac zbool :=
  repeat match goal with
  | |- context [?a >? ?b] => rewrite (Z.gtb_ltb a b)
  | |- context [?a >=? ?b] => rewrite (Z.geb_leb a b)
  end;
  repeat match goal with
  | |- context [Z.max ?a ?b] => destruct (Z.max_spec a b) as [[? ->]|[? ->]]
  | |- context [Z.min ?a ?b] => destruct (Z.min_spec a b) as [[? ->]|[? ->]]
  end;
  repeat match goal with
  | H : context [if _ then _ else _] |- _ => revert H
  | |- context [?a <? ?b] => destruct (Z.ltb_spec a b)
  | |- context [?a <=? ?b] => destruct (Z.leb_spec a b)
  | |- context [?a =? ?b] => destruct (Z.eqb_spec a b)
  end.

Ltac squeeze :=
  repeat match goal with
  | H : _ /\ _ |- _ => destruct H
  end;
  repeat match goal with
  | H1 : ?x <= ?y, H2 : ?y <= ?x |- _ =>
      assert (x = y) by lia; clear H1 H2; subst
  end.

Ltac zfinish := cbn [orb andb negb]; cbv beta iota zeta; intros; first [lia | nia | squeeze; lia].

Lemma years_conservation (a mn mx : Z) (c : ChildInfo) :
  mn <= mx -> 1 <= age c ->
  a * (mx - mn + 1) = remainingOf a mn mx c + receivedOf a mn mx c.
Proof.
  intros Hwf Hage. destruct c as [g bo]. simpl in *.
  unfold remainingOf, receivedOf, calculateYearsFromCurrentAge. simpl.
  zbool; zfinish.
Qed.

Lemma band_conservation (b : AgeBasedAmount) (c : ChildInfo) :
  ab_minAge b <= ab_maxAge b -> 1 <= age c ->
  bandFull b = bandRemaining c b + bandReceived c b.
Proof.
  intros Hwf Hage.
  unfold bandFull, bandRemaining, bandReceived, remainingOf, calculateYearsFromCurrentAge.
  generalize (bandAnnual b) as a. intros a.
  destruct c as [g bo]. destruct b as [mn mx am fr]. simpl in *.
  zbool; zfinish.
Qed.

Lemma years_at_birth (a mn mx : Z) (c : ChildInfo) :
  0 <= mn <= mx -> age c = 0 ->
  remainingOf a mn mx c = a * (mx - mn + 1) /\
  (calculateYearsFromCurrentAge (age c) mn mx >? 0) = true.
Proof.
  intros Hwf Hage.
  unfold remainingOf, calculateYearsFromCurrentAge. rewrite Hage.
  split; zbool; try reflexivity; zfinish.
Qed.

Lemma remainingOf_mono (a mn mx : Z) (c1 c2 : ChildInfo) :
  0 <= a -> age c1 <= age c2 ->
  remainingOf a mn mx c2 <= remainingOf a mn mx c1.
Proof.
  intros Ha Hage. destruct c1 as [g1 bo1]. destruct c2 as [g2 bo2]. simpl in *.
  unfold remainingOf, calculateYearsFromCurrentAge. simpl.
  zbool; zfinish.
Qed.

Lemma tuition_first_tier (s : Subsidy) (n income : Z) :
  passesIncomeLimit income s = true -> firstTierApplies s income ->
  s_amount s = AmountNumber n -> s_type s = high_school_tuition ->
  tuitionPerYear s n income = maxTuitionPerYear s n.
Proof.
  intros Hpass Hfirst Hn Et.
  unfold firstTierApplies, isVariableAmountSubsidy in Hfirst. rewrite Hn in Hfirst.
  specialize (Hfirst eq_refl Et).
  unfold tuitionPerYear, maxTuitionPerYear.
  unfold passesIncomeLimit, checkTieredIncomeLimit in Hpass.
  destruct (il_type (incomeLimit (s_conditions s))); try reflexivity.
  destruct (il_tiers (incomeLimit (s_conditions s))) as [[|t0 ts]|]; try discriminate.
  specialize (Hfirst eq_refl t0 ts eq_refl).
  simpl. apply Z.ltb_lt in Hfirst. now rewrite Hfirst.
Qed.

Lemma child_conservation (s : Subsidy) (income : Z) (c : ChildInfo) :
  wellFormedAges s -> firstTierApplies s income ->
  passesIncomeLimit income s = true ->
  s_frequency s <> once -> 1 <= age c <= 18 ->
  childFull s c = childRemaining s income c + childReceived s c.
Proof.
  intros Hwf Hfirst Hpass Hfreq Hage.
  unfold childFull, childRemaining, childReceived.
  unfold wellFormedAges in Hwf.
  destruct (s_amount s) as [n|] eqn:Hn.
  - destruct (s_type s) eqn:Et; cbv zeta;
      try (destruct (s_frequency s) eqn:Ef; [congruence | |];
           (apply years_conservation; [assumption | lia])).
    + (* medical_expense *)
      destruct (Z.eqb_spec (age c) 0); lia.
    + (* high_school_tuition *)
      rewrite (tuition_first_tier s n income Hpass Hfirst Hn Et).
      generalize (maxTuitionPerYear s n) as a. intros a.
      revert Hwf. generalize (effectiveMinAge s) as mn, (effectiveMaxAge s) as mx.
      intros mn mx Hwf. destruct c as [g bo]. simpl in *.
      unfold remainingOf, calculateYearsFromCurrentAge. simpl.
      zbool; zfinish.
  - destruct (Z.eqb_spec (age c) 0) as [|_]; [lia|].
    destruct (isThirdChildAllowance s c).
    + unfold calculateYearsFromCurrentAge, thirdChildAnnual,
        CHILDCARE_ALLOWANCE_THIRD_CHILD_MONTHLY.
      zbool; zfinish.
    + rewrite <- sumZ_plus. apply sumZ_pointwise. intros b Hb.
      apply band_conservation; [|lia].
      unfold bandList in Hb.
      destruct (ageBasedAmounts s) as [bands|] eqn:Eb; [|destruct Hb].
      specialize (Hwf bands eq_refl). rewrite Forall_forall in Hwf. now apply Hwf.
Qed.

Lemma child_received_at_birth (s : Subsidy) (c : ChildInfo) :
  agesOverlap (childCondition (s_conditions s)) = true -> age c = 0 ->
  childReceived s c = 0.
Proof.
  intros Hov Hage. unfold childReceived, receivedOf. rewrite Hage.
  change (0 =? 0) with true. cbn [orb]. cbv iota zeta.
  destruct (s_amount s) as [n|]; [|reflexivity].
  assert (Hmax : s_type s <> childcare_fee -> (0 >? effectiveMaxAge s) = false).
  { intros Ht. unfold effectiveMaxAge.
    unfold agesOverlap in Hov. apply negb_true_iff, orb_false_iff in Hov.
    destruct Hov as [_ Hov].
    destruct (s_type s); try congruence; exact Hov. }
  destruct (s_type s) eqn:Et; try reflexivity;
    destruct (s_frequency s); try reflexivity;
    rewrite Hmax by congruence; reflexivity.
Qed.

Lemma child_full_at_birth (s : Subsidy) (income : Z) (c : ChildInfo) :
  wellFormedAges s -> startsAtBirthOrLater s -> firstTierApplies s income ->
  passesIncomeLimit income s = true -> age c = 0 ->
  childFull s c = childRemaining s income c.
Proof.
  intros Hwf Hstart Hfirst Hpass Hage.
  unfold childFull, childRemaining.
  unfold wellFormedAges in Hwf. unfold startsAtBirthOrLater in Hstart.
  destruct (s_amount s) as [n|] eqn:Hn.
  - destruct (s_type s) eqn:Et; cbv zeta;
      try (destruct (years_at_birth (annualOf s n) (effectiveMinAge s) (effectiveMaxAge s) c)
             as [Hrem Hpos]; [lia | assumption |];
           destruct (s_frequency s); rewrite ?Hpos, ?Hrem; reflexivity).
    + now rewrite Hage.
    + rewrite (tuition_first_tier s n income Hpass Hfirst Hn Et).
      destruct (years_at_birth (maxTuitionPerYear s n) (effectiveMinAge s)
                  (effectiveMaxAge s) c) as [Hrem _]; [lia | assumption |].
      now rewrite Hrem.
  - destruct (isThirdChildAllowance s c).
    + now rewrite Hage.
    + apply sumZ_pointwise. intros b Hb.
      unfold bandList in Hb.
      destruct (ageBasedAmounts s) as [bands|] eqn:Eb; [|destruct Hb].
      specialize (Hwf bands eq_refl). specialize (Hstart bands eq_refl).
      rewrite Forall_forall in Hwf, Hstart.
      unfold bandFull, bandRemaining.
      destruct (years_at_birth (bandAnnual b) (ab_minAge b) (ab_maxAge b) c) as [Hrem _];
        [split; [now apply Hstart | now apply Hwf] | assumption |].
      now rewrite Hrem.
Qed.

(** ** Growing older *)

Lemma annualOf_nonneg (s : Subsidy) (n : Z) : 0 <= n -> 0 <= annualOf s n.
Proof.
  intros H. unfold annualOf, calculateAmountByFrequency.
  destruct (s_frequency s); lia.
Qed.

Lemma tuitionPerYear_nonneg (s : Subsidy) (n income : Z) :
  nonNegativeAmounts s -> s_amount s = AmountNumber n ->
  0 <= tuitionPerYear s n income.
Proof.
  intros (Hn & _ & Ht) Hs. specialize (Hn n Hs).
  unfold tuitionPerYear. unfold tierList in Ht.
  destruct (il_type (incomeLimit (s_conditions s))); try (now apply annualOf_nonneg).
  destruct (il_tiers (incomeLimit (s_conditions s))) as [tiers|];
    [|now apply annualOf_nonneg].
  destruct (find _ tiers) as [t|] eqn:Ef; [|lia].
  apply find_some in Ef. destruct Ef as [Hin _].
  rewrite Forall_forall in Ht. now apply Ht.
Qed.

Lemma once_mono (a mn mx g1 g2 : Z) :
  0 <= a -> g1 <= g2 ->
  (if calculateYearsFromCurrentAge g2 mn mx >? 0 then a else 0)
  <= (if calculateYearsFromCurrentAge g1 mn mx >? 0 then a else 0).
Proof.
  intros Ha Hg. unfold calculateYearsFromCurrentAge.
  zbool; zfinish.
Qed.

Lemma childRemaining_mono (s : Subsidy) (income : Z) (bo : BirthOrder) (a b : Z) :
  nonNegativeAmounts s -> nonNegativeCosts -> 0 <= a <= b ->
  childRemaining s income {| age := b; birthOrder := bo |}
  <= childRemaining s income {| age := a; birthOrder := bo |}.
Proof.
  intros Hnn Hc Hab. unfold childRemaining.
  destruct (s_amount s) as [n|] eqn:Hn.
  - pose proof (annualOf_nonneg s n (proj1 Hnn n Hn)) as Ha.
    pose proof (tuitionPerYear_nonneg s n income Hnn Hn) as Ht.
    destruct (s_type s); cbv zeta; simpl age;
      try (destruct (s_frequency s);
           [apply once_mono | apply remainingOf_mono | apply remainingOf_mono];
           simpl; (assumption || lia)).
    + now apply calculateMedicalSubsidy_mono.
    + apply remainingOf_mono; simpl; (assumption || lia).
    + apply remainingOf_mono; simpl; (assumption || lia).
  - unfold isThirdChildAllowance. simpl birthOrder. simpl age.
    destruct (match s_type s with childcare_allowance =>
                match bo with third_or_more => true | _ => false end
              | _ => false end).
    + unfold calculateYearsFromCurrentAge, thirdChildAnnual,
        CHILDCARE_ALLOWANCE_THIRD_CHILD_MONTHLY.
      zbool; zfinish.
    + apply sumZ_le. intros band Hband.
      unfold bandRemaining. apply remainingOf_mono; [|simpl; lia].
      destruct Hnn as (_ & Hb & _). unfold bandList in Hband.
      destruct (ageBasedAmounts s) as [bands|]; [|destruct Hband].
      specialize (Hb bands eq_refl). rewrite Forall_forall in Hb.
      specialize (Hb band Hband).
      unfold bandAnnual, calculateAmountByFrequency. destruct (ab_frequency band); lia.
Qed.

Lemma matchesChildCondition_age (g1 g2 : Z) (bo : BirthOrder) (condition : ChildCondition) :
  matchesChildCondition {| age := g1; birthOrder := bo |} condition
  = matchesChildCondition {| age := g2; birthOrder := bo |} condition.
Proof. reflexivity. Qed.

Lemma calculateSubsidies_applied (p : Prefecture) (input : CalculationInput) r :
  calculateSubsidies p input = Ok r ->
  mapM (fun subsidy => calculateSubsidyAmount subsidy input)
       (filterByChildConditions
          (filterByIncomeLimit (policies (loadPrefectureData p)) (householdIncome input))
          (children input))
  = Ok (appliedPolicies r).
Proof.
  unfold calculateSubsidies. intros Hok.
  destruct (mapM _ _) as [aps|e] eqn:Em; simpl in Hok; [|discriminate].
  now injection Hok as <-.
Qed.

Lemma totalAmount_single_child (p : Prefecture) (income g : Z) (bo : BirthOrder) r :
  calculateSubsidies p {| householdIncome := income;
                          children := [ {| age := g; birthOrder := bo |} ] |} = Ok r ->
  totalAmount r
  = sumZ (map (fun s => sumZ (map (childRemaining s income)
                                  (childrenNow s [ {| age := g; birthOrder := bo |} ])))
              (filterByChildConditions
                 (filterByIncomeLimit (policies (loadPrefectureData p)) income)
                 [ {| age := 0; birthOrder := bo |} ])).
Proof.
  intros Hok.
  destruct (calculateSubsidies_fields _ _ _ Hok) as (_ & _ & ->).
  apply calculateSubsidies_applied in Hok. simpl in Hok.
  f_equal.
  apply (mapM_map _ calculatedAmount _ _ _) with (2 := Hok).
  intros s ap Hap.
  apply calculateSubsidyAmount_ok in Hap; [|discriminate].
  now destruct Hap as (_ & -> & _).
Qed.

(* ================================================================== *)
(** * Properties of the engine *)

(** C2.  For [minAge <= maxAge], [calculateYearsFromCurrentAge] is 0 past
    [maxAge], the whole span [maxAge - minAge + 1] up to [minAge], and
    [maxAge - currentAge + 1] in between; in particular it gives 9, 0 and 1
    at (5,6,14), (15,6,14) and (14,6,14). *)
Theorem years_remaining_cases (currentAge minAge maxAge : Z) :
  minAge <= maxAge ->
  (currentAge > maxAge -> calculateYearsFromCurrentAge currentAge minAge maxAge = 0) /\
  (currentAge <= minAge ->
   calculateYearsFromCurrentAge currentAge minAge maxAge = maxAge - minAge + 1) /\
  (minAge < currentAge <= maxAge ->
   calculateYearsFromCurrentAge currentAge minAge maxAge = maxAge - currentAge + 1) /\
  calculateYearsFromCurrentAge 5 6 14 = 9 /\
  calculateYearsFromCurrentAge 15 6 14 = 0 /\
  calculateYearsFromCurrentAge 14 6 14 = 1.
Proof.
  intros Hwf. unfold calculateYearsFromCurrentAge.
  repeat split; try reflexivity; intros H; zbool; zfinish.
Qed.

(** C6.  A policy whose income limit is tagged [tiered] passes
    [filterByIncomeLimit] exactly when one of its tiers has a threshold
    strictly above the household income; with an empty or absent tier list
    it never passes, and the filter, a total function to a list, signals
    nothing. *)
Theorem tiered_income_filter (subsidies : list Subsidy) (income : Z) (s : Subsidy) :
  il_type (incomeLimit (s_conditions s)) = tiered ->
  (In s (filterByIncomeLimit subsidies income) <->
   In s subsidies /\ exists tier, In tier (tierList s) /\ income < tier_threshold tier) /\
  (tierList s = [] -> ~ In s (filterByIncomeLimit subsidies income)).
Proof.
  intros Ht.
  assert (Hpass : passesIncomeLimit income s = true <->
                  exists tier, In tier (tierList s) /\ income < tier_threshold tier).
  { unfold passesIncomeLimit, checkTieredIncomeLimit, tierList. rewrite Ht.
    destruct (il_tiers (incomeLimit (s_conditions s))) as [[|t ts]|].
    - split; [discriminate | intros (tier & [] & _)].
    - cbn [length Nat.eqb]. rewrite existsb_exists.
      split; intros (tier & Hin & Hlt); exists tier; split; auto;
        now apply Z.ltb_lt.
    - split; [discriminate | intros (tier & [] & _)]. }
  split.
  - unfold filterByIncomeLimit. rewrite filter_In, Hpass. reflexivity.
  - intros Hnil Hin. unfold filterByIncomeLimit in Hin.
    apply filter_In in Hin. destruct Hin as [_ Hin].
    apply Hpass in Hin. destruct Hin as (tier & Htier & _).
    rewrite Hnil in Htier. destruct Htier.
Qed.

(** C7.  For a high-school tuition policy with a tiered income limit, the
    current calculator pays per year the amount of the first listed tier
    whose threshold is strictly above the household income, or 0 when no
    tier is; the maximum calculator pays per year the amount of the first
    listed tier, whatever the income. *)
Theorem tuition_amount_per_year (s : Subsidy) (input : CalculationInput)
  (n : Z) (tiers : list IncomeTier) :
  s_type s = high_school_tuition ->
  s_amount s = AmountNumber n ->
  il_type (incomeLimit (s_conditions s)) = tiered ->
  il_tiers (incomeLimit (s_conditions s)) = Some tiers ->
  let amountPerYear :=
    match find (fun t => householdIncome input <? tier_threshold t) tiers with
    | Some tier => tier_amount tier
    | None => 0
    end in
  (exists r,
     calculateHighSchoolTuition s input = Ok r /\
     fr_amount r
     = sumZ (map (remainingOf amountPerYear (effectiveMinAge s) (effectiveMaxAge s))
                 (filter (fun child =>
                            matchesChildCondition child (childCondition (s_conditions s)))
                         (children input)))) /\
  (forall tier0 rest cs, tiers = tier0 :: rest ->
     calculateMaxHighSchoolTuition s cs
     = tier_amount tier0 * (effectiveMaxAge s - effectiveMinAge s + 1)
       * Z.of_nat (length (filter (birthOrderEligible s) cs))).
Proof.
  intros Et Hn Hil Htiers amountPerYear.
  assert (Hper : tuitionPerYear s n (householdIncome input) = amountPerYear).
  { unfold tuitionPerYear. now rewrite Hil, Htiers. }
  split.
  - unfold calculateHighSchoolTuition. rewrite Hn, Hper.
    unfold effectiveMinAge, effectiveMaxAge. rewrite Et.
    set (eligible := filter _ (children input)).
    early_return E; [eexists; split; reflexivity|].
    pose proof (remainingLoop_fst amountPerYear
                  (nullish (cc_minAge (childCondition (s_conditions s))) 15)
                  (nullish (cc_maxAge (childCondition (s_conditions s))) 18)
                  eligible) as G.
    destruct (remainingLoop _ _ _ eligible) as [tot my].
    simpl in G. eexists; split; [reflexivity|]. exact G.
  - intros tier0 rest cs ->.
    unfold calculateMaxHighSchoolTuition, maxTuitionPerYear.
    rewrite Hn, Hil, Htiers. unfold effectiveMinAge, effectiveMaxAge. rewrite Et.
    set (eligible := filter _ cs).
    early_return E; [simpl; lia | reflexivity].
Qed.


Lemma mapM_length {A B : Type} (f : A -> Result B) (l : list A) bs :
  mapM f l = Ok bs -> length bs = length l.
Proof.
  intros H. rewrite <- (length_map (fun _ => tt) bs), <- (length_map (fun _ => tt) l).
  f_equal. now apply (mapM_map f (fun _ => tt) (fun _ => tt) l bs).
Qed.

Lemma calculateAllSubsidies_ok (input : CalculationInput) results :
  calculateAllSubsidies input = Ok results ->
  Permutation (map prefecture results) getAllPrefectures /\
  map rank results = map Z.of_nat (seq 1 (length getAllPrefectures)) /\
  descending totalAmount results.
Proof.
  unfold calculateAllSubsidies. intros Hok.
  destruct (mapM _ getAllPrefectures) as [results0|e] eqn:Em; simpl in Hok; [|discriminate].
  injection Hok as <-.
  pose proof (Array_sort_perm totalAmount results0) as Hperm.
  pose proof (Array_sort_sorted totalAmount results0) as Hsorted.
  set (sorted := Array_sort (fun a b => totalAmount b - totalAmount a) results0) in *.
  unfold mapi. repeat split.
  - rewrite (mapi_from_map _ prefecture prefecture) by reflexivity.
    apply Permutation_sym.
    assert (Hp : map prefecture results0 = getAllPrefectures).
    { rewrite (mapM_map _ prefecture (fun p => p) _ _
                 (fun p r H => proj1 (calculateSubsidies_fields p input r H)) Em).
      apply map_id. }
    rewrite <- Hp. now apply Permutation_map.
  - rewrite (mapi_from_index _ rank) by reflexivity.
    rewrite <- (Permutation_length Hperm), (mapM_length _ _ _ Em). reflexivity.
  - apply (Sorted_map_key totalAmount totalAmount sorted); [|assumption].
    now apply mapi_from_map.
Qed.

Lemma descending_strongly {A : Type} (key : A -> Z) (l : list A) :
  descending key l -> StronglySorted (fun a b => key a >= key b) l.
Proof.
  apply Sorted_StronglySorted. intros x y z Hxy Hyz. lia.
Qed.

Lemma ranked_descending (l : list CalculationResult) (k : nat) :
  map rank l = map Z.of_nat (seq k (length l)) ->
  descending totalAmount l ->
  forall r1 r2, In r1 l -> In r2 l -> rank r1 <= rank r2 ->
                totalAmount r2 <= totalAmount r1.
Proof.
  intros Hranks Hsorted. apply descending_strongly in Hsorted.
  revert k Hranks.
  induction Hsorted as [|x l Hl IH Hx]; intros k Hranks r1 r2 H1 H2 Hle.
  - destruct H1.
  - simpl in Hranks. injection Hranks as Hk Hrest.
    assert (Hlater : forall r, In r l -> Z.of_nat k < rank r).
    { intros r Hr. apply (in_map rank) in Hr. rewrite Hrest in Hr.
      apply in_map_iff in Hr. destruct Hr as (i & <- & Hi).
      apply in_seq in Hi. lia. }
    rewrite Forall_forall in Hx.
    destruct H1 as [<-|H1], H2 as [<-|H2].
    + lia.
    + specialize (Hx r2 H2). lia.
    + specialize (Hlater r1 H1). lia.
    + now apply (IH (S k) Hrest).
Qed.

Lemma calculateAllSubsidies_total (input : CalculationInput) :
  wellTypedCatalog -> exists results, calculateAllSubsidies input = Ok results.
Proof.
  intros Hwt. unfold calculateAllSubsidies.
  destruct (mapM_total (fun p => calculateSubsidies p input) getAllPrefectures)
    as (results0 & H0 & _).
  - intros p _. now apply calculateSubsidies_total.
  - rewrite H0. simpl. eexists. reflexivity.
Qed.

(** C3.  On a well-typed catalog [calculateAllSubsidies] returns, for every
    input, one result per prefecture of [getAllPrefectures]; listed in
    order their ranks are 1, 2, ..., N, and a result of higher rank number
    never has a larger [totalAmount]. *)
Theorem ranking_validity (input : CalculationInput) :
  wellTypedCatalog ->
  exists results,
    calculateAllSubsidies input = Ok results /\
    Permutation (map prefecture results) getAllPrefectures /\
    map rank results = map Z.of_nat (seq 1 (length getAllPrefectures)) /\
    descending totalAmount results /\
    (forall r1 r2, In r1 results -> In r2 results -> rank r1 <= rank r2 ->
                   totalAmount r2 <= totalAmount r1).
Proof.
  intros Hwt.
  destruct (calculateAllSubsidies_total input Hwt) as (results & Hok).
  exists results. split; [assumption|].
  destruct (calculateAllSubsidies_ok input results Hok) as (Hperm & Hranks & Hsorted).
  repeat split; try assumption.
  apply (ranked_descending results 1); [|assumption].
  rewrite Hranks. do 2 f_equal.
  rewrite <- (Permutation_length Hperm). now rewrite length_map.
Qed.

(** C10.  On a well-typed catalog [calculateSubsidies] returns, for every
    prefecture and input, a result whose [rank] is 0; the ranks in a list
    returned by [calculateAllSubsidies] lie between 1 and N. *)
Theorem single_jurisdiction_rank (p : Prefecture) (input : CalculationInput) :
  wellTypedCatalog ->
  (exists r, calculateSubsidies p input = Ok r /\ rank r = 0) /\
  (forall results, calculateAllSubsidies input = Ok results ->
     Forall (fun r => 1 <= rank r <= Z.of_nat (length getAllPrefectures)) results).
Proof.
  intros Hwt. split.
  - destruct (calculateSubsidies_total p input Hwt) as (r & Hr).
    exists r. split; [assumption|].
    now destruct (calculateSubsidies_fields p input r Hr) as (_ & Hrank & _).
  - intros results Hok.
    destruct (calculateAllSubsidies_ok input results Hok) as (_ & Hranks & _).
    apply Forall_forall. intros r Hr.
    apply (in_map rank) in Hr. rewrite Hranks in Hr.
    apply in_map_iff in Hr. destruct Hr as (k & <- & Hk).
    apply in_seq in Hk. lia.
Qed.

(** C9, in the form that holds.  Given a policy whose amount is the sentinel ['variable'],
    the current-entitlement calculators for fixed amounts signal an error;
    the maximum and received calculators for childcare fees and high-school
    tuition return 0; and [calculateMaxAmount] and [calculateReceivedAmount]
    handle the policy, when it carries its age bands, as an age-banded one
    and return the banded sums. *)
Theorem variable_sentinel (s : Subsidy) (input : CalculationInput) (cs : list ChildInfo) :
  s_amount s = AmountVariable ->
  (exists message, calculateFixedAmount s input = Throw (Error message)) /\
  (exists message, calculateChildcareFeeSubsidy s input = Throw (Error message)) /\
  (exists message, calculateHighSchoolTuition s input = Throw (Error message)) /\
  calculateMaxChildcareFeeSubsidy s cs = 0 /\
  calculateMaxHighSchoolTuition s cs = 0 /\
  calculateReceivedChildcareFeeSubsidy s cs = 0 /\
  calculateReceivedHighSchoolTuition s cs = 0 /\
  (wellTyped s ->
   calculateMaxAmount s cs = Ok (sumZ (map (childFull s) cs)) /\
   calculateReceivedAmount s cs = Ok (sumZ (map (childReceived s) cs))).
Proof.
  intros Hv.
  unfold calculateFixedAmount, calculateChildcareFeeSubsidy, calculateHighSchoolTuition,
    calculateMaxChildcareFeeSubsidy, calculateMaxHighSchoolTuition,
    calculateReceivedChildcareFeeSubsidy, calculateReceivedHighSchoolTuition.
  rewrite Hv.
  repeat (split; [first [reflexivity | eexists; reflexivity]|]).
  intros Hwt. split.
  - now apply calculateMaxAmount_variable.
  - now apply calculateReceivedAmount_variable.
Qed.

Lemma In_childrenEver (s : Subsidy) (cs : list ChildInfo) (c : ChildInfo) :
  In c (childrenEver s cs) -> In c cs.
Proof.
  unfold childrenEver. destruct (isVariableAmountSubsidy s); [auto|].
  intros H. apply filter_In in H. tauto.
Qed.

(** C1, in the form that holds.  Take a policy applied by [calculateSubsidies] that is not
    a one-time grant, whose age bounds are well formed, and which, if it is
    a tiered high-school tuition policy, has its first tier's threshold
    above the household income.  When every child is aged 1 to 18, its
    [maxAmount] is its [calculatedAmount] plus its [receivedAmount]. *)
Theorem conservation_continuous (p : Prefecture) (input : CalculationInput)
  (r : CalculationResult) (ap : AppliedPolicy) :
  calculateSubsidies p input = Ok r ->
  In ap (appliedPolicies r) ->
  Forall (fun child => 1 <= age child <= 18) (children input) ->
  s_frequency (policy ap) <> once ->
  wellFormedAges (policy ap) ->
  firstTierApplies (policy ap) (householdIncome input) ->
  exists m received,
    maxAmount ap = Some m /\ receivedAmount ap = Some received /\
    m = calculatedAmount ap + received.
Proof.
  intros Hok Hin Hages Hfreq Hwf Hfirst.
  destruct (in_appliedPolicies p input r ap Hok Hin) as (s & _ & Hpass & Hex & Hcalc).
  pose proof (existsb_nonempty _ _ Hex) as Hne.
  destruct (calculateSubsidyAmount_ok s input ap Hcalc Hne) as (Hpol & Hcur & Hmax & Hrec).
  destruct (childrenNow_Ever s (children input) Hex) as [_ Hsame].
  rewrite Hpol in *.
  eexists. eexists. split; [exact Hmax|]. split; [exact Hrec|].
  rewrite Hcur, Hsame, <- sumZ_plus.
  apply sumZ_pointwise. intros c Hc.
  apply child_conservation; try assumption.
  apply In_childrenEver in Hc. rewrite Forall_forall in Hages. now apply Hages.
Qed.

(** C5, in the form that holds.  When every child is aged 0, every policy applied by
    [calculateSubsidies] has [receivedAmount] 0; and its [maxAmount] is its
    [calculatedAmount] provided its age bounds are well formed and start at
    0 or later and, if it is a tiered high-school tuition policy, its first
    tier's threshold is above the household income. *)
Theorem identity_at_birth (p : Prefecture) (input : CalculationInput)
  (r : CalculationResult) (ap : AppliedPolicy) :
  calculateSubsidies p input = Ok r ->
  In ap (appliedPolicies r) ->
  Forall (fun child => age child = 0) (children input) ->
  receivedAmount ap = Some 0 /\
  (wellFormedAges (policy ap) ->
   startsAtBirthOrLater (policy ap) ->
   firstTierApplies (policy ap) (householdIncome input) ->
   maxAmount ap = Some (calculatedAmount ap)).
Proof.
  intros Hok Hin Hages.
  destruct (in_appliedPolicies p input r ap Hok Hin) as (s & _ & Hpass & Hex & Hcalc).
  pose proof (existsb_nonempty _ _ Hex) as Hne.
  destruct (calculateSubsidyAmount_ok s input ap Hcalc Hne) as (Hpol & Hcur & Hmax & Hrec).
  destruct (childrenNow_Ever s (children input) Hex) as [Hov Hsame].
  rewrite Forall_forall in Hages.
  rewrite Hpol in *. split.
  - rewrite Hrec. f_equal. apply sumZ_zero. intros c Hc.
    apply child_received_at_birth; [assumption|].
    apply Hages. now apply In_childrenEver in Hc.
  - intros Hwf Hstart Hfirst.
    rewrite Hmax, Hcur, Hsame. f_equal.
    apply sumZ_pointwise. intros c Hc.
    apply child_full_at_birth; try assumption.
    apply Hages. now apply In_childrenEver in Hc.
Qed.

(** C4.  On a well-typed catalog whose amounts, like the medical costs,
    are non-negative: for a fixed prefecture, income and birth order, the
    [totalAmount] of a household with a single child does not increase
    when the child's age goes from [a] to any later age [b], 0 <= a <= b
    (so in particular along 0, 1, ..., 19). *)
Theorem total_amount_monotone (p : Prefecture) (income : Z) (bo : BirthOrder) (a b : Z) :
  wellTypedCatalog -> nonNegativeCatalog -> nonNegativeCosts ->
  0 <= a <= b ->
  exists ra rb,
    calculateSubsidies p {| householdIncome := income;
                            children := [ {| age := a; birthOrder := bo |} ] |} = Ok ra /\
    calculateSubsidies p {| householdIncome := income;
                            children := [ {| age := b; birthOrder := bo |} ] |} = Ok rb /\
    totalAmount rb <= totalAmount ra.
Proof.
  intros Hwt Hnn Hc Hab.
  destruct (calculateSubsidies_total p
              {| householdIncome := income;
                 children := [ {| age := a; birthOrder := bo |} ] |} Hwt) as (ra & Hra).
  destruct (calculateSubsidies_total p
              {| householdIncome := income;
                 children := [ {| age := b; birthOrder := bo |} ] |} Hwt) as (rb & Hrb).
  exists ra, rb. split; [assumption|]. split; [assumption|].
  rewrite (totalAmount_single_child p income a bo ra Hra),
          (totalAmount_single_child p income b bo rb Hrb).
  apply sumZ_le. intros s Hs.
  unfold filterByChildConditions, filterByIncomeLimit in Hs.
  apply filter_In in Hs. destruct Hs as [Hs _].
  apply filter_In in Hs. destruct Hs as [Hs _].
  apply In_allPolicies in Hs.
  unfold nonNegativeCatalog in Hnn. rewrite Forall_forall in Hnn. specialize (Hnn s Hs).
  unfold childrenNow.
  destruct (isVariableAmountSubsidy s).
  - simpl. pose proof (childRemaining_mono s income bo a b Hnn Hc Hab). lia.
  - simpl. rewrite (matchesChildCondition_age b a).
    destruct (matchesChildCondition _ _); simpl; [|lia].
    pose proof (childRemaining_mono s income bo a b Hnn Hc Hab). lia.
Qed.

(* ================================================================== *)
(** * Further properties: age arithmetic and filters *)

(** X1.  For [minAge <= maxAge] the year count lies between 0 and the span
    [maxAge - minAge + 1], and it never grows with the current age. *)
Theorem years_bounds_monotone (minAge maxAge : Z) :
  minAge <= maxAge ->
  (forall currentAge,
     0 <= calculateYearsFromCurrentAge currentAge minAge maxAge <= maxAge - minAge + 1) /\
  (forall a b, a <= b ->
     calculateYearsFromCurrentAge b minAge maxAge
     <= calculateYearsFromCurrentAge a minAge maxAge).
Proof.
  intros Hwf. split.
  - intros g. unfold calculateYearsFromCurrentAge. zbool; zfinish.
  - intros a b Hab. unfold calculateYearsFromCurrentAge. zbool; zfinish.
Qed.

(** X2.  While the child has not passed [maxAge], the [years] of
    [calculateAgeRangeInfo] is the length of the interval it reports,
    [toAge - fromAge + 1], and [fromAge] is neither below the current age
    nor below [minAge]. *)
Theorem age_range_info_consistent (currentAge minAge maxAge : Z) :
  currentAge <= maxAge ->
  let info := calculateAgeRangeInfo currentAge minAge maxAge in
  years info = toAge info - fromAge info + 1 /\
  currentAge <= fromAge info /\ minAge <= fromAge info /\ toAge info = maxAge.
Proof.
  intros H. unfold calculateAgeRangeInfo, calculateYearsFromCurrentAge. simpl.
  zbool; zfinish.
Qed.

(** X3.  Past [maxAge] the reported range is empty: [years] is 0 and
    [fromAge] lies above [toAge]. *)
Theorem age_range_info_aged_out (currentAge minAge maxAge : Z) :
  maxAge < currentAge ->
  let info := calculateAgeRangeInfo currentAge minAge maxAge in
  years info = 0 /\ toAge info < fromAge info.
Proof.
  intros H. unfold calculateAgeRangeInfo, calculateYearsFromCurrentAge. simpl.
  zbool; zfinish.
Qed.

Lemma passesIncomeLimit_antitone (income income' : Z) (s : Subsidy) :
  income <= income' ->
  passesIncomeLimit income' s = true -> passesIncomeLimit income s = true.
Proof.
  intros Hle. unfold passesIncomeLimit, checkTieredIncomeLimit.
  destruct (il_type (incomeLimit (s_conditions s))).
  - auto.
  - destruct (il_threshold (incomeLimit (s_conditions s))) as [t|]; [|auto].
    destruct (t =? 0); [auto|].
    rewrite !Z.ltb_lt. lia.
  - destruct (il_tiers (incomeLimit (s_conditions s))) as [tiers|]; [|auto].
    destruct (length tiers =? 0)%nat; [auto|].
    rewrite !existsb_exists. intros (tier & Hin & Hlt).
    exists tier. split; [assumption|].
    apply Z.ltb_lt. apply Z.ltb_lt in Hlt. lia.
Qed.

(** X4.  A lower income never loses a policy: what [filterByIncomeLimit]
    keeps at an income it keeps at every smaller income. *)
Theorem income_filter_antitone (subsidies : list Subsidy) (income income' : Z) :
  income <= income' ->
  incl (filterByIncomeLimit subsidies income') (filterByIncomeLimit subsidies income).
Proof.
  intros Hle s Hs. unfold filterByIncomeLimit in *.
  apply filter_In in Hs. destruct Hs as [Hin Hpass].
  apply filter_In. split; [assumption|].
  now apply (passesIncomeLimit_antitone income income').
Qed.

(** X5.  A policy with a single income threshold is kept exactly when the
    threshold is not 0 and the income is strictly below it: the threshold
    itself disqualifies, and a threshold of 0 disqualifies every income. *)
Theorem single_threshold_filter (subsidies : list Subsidy) (income threshold : Z)
  (s : Subsidy) :
  il_type (incomeLimit (s_conditions s)) = single ->
  il_threshold (incomeLimit (s_conditions s)) = Some threshold ->
  (In s (filterByIncomeLimit subsidies income) <->
   In s subsidies /\ threshold <> 0 /\ income < threshold).
Proof.
  intros Ht Hth. unfold filterByIncomeLimit. rewrite filter_In.
  unfold passesIncomeLimit. rewrite Ht, Hth.
  destruct (Z.eqb_spec threshold 0) as [->|Hne].
  - split; [intros [_ H]; discriminate | intros (_ & H & _); now elim H].
  - rewrite Z.ltb_lt. tauto.
Qed.

Lemma existsb_birthOrder (condition : ChildCondition) (cs : list ChildInfo) :
  existsb (fun child => matchesChildCondition child condition) cs
  = existsb (fun b => matchesChildCondition {| age := 0; birthOrder := b |} condition)
            (map birthOrder cs).
Proof.
  induction cs as [|c cs IH]; simpl; [reflexivity|].
  rewrite IH. destruct c as [g b]. reflexivity.
Qed.

Lemma child_filter_ignores_ages_aux (subsidies : list Subsidy) (cs cs' : list ChildInfo) :
  map birthOrder cs = map birthOrder cs' ->
  filterByChildConditions subsidies cs = filterByChildConditions subsidies cs'.
Proof.
  intros Hbo. unfold filterByChildConditions.
  apply filter_ext. intros s.
  now rewrite !existsb_birthOrder, Hbo.
Qed.

(** X6.  [filterByChildConditions] looks at birth orders only: two
    households whose children have the same birth orders, whatever their
    ages, keep the same policies, and a policy is kept exactly when some
    child passes its birth-order test and its ages meet 0..18. *)
Theorem child_filter_ignores_ages (subsidies : list Subsidy) (cs cs' : list ChildInfo) :
  map birthOrder cs = map birthOrder cs' ->
  filterByChildConditions subsidies cs = filterByChildConditions subsidies cs' /\
  (forall s, In s (filterByChildConditions subsidies cs) <->
             In s subsidies /\
             agesOverlap (childCondition (s_conditions s)) = true /\
             exists child, In child cs /\ birthOrderEligible s child = true).
Proof.
  intros Hbo. split; [now apply child_filter_ignores_ages_aux|].
  intros s. unfold filterByChildConditions. rewrite filter_In, existsb_exists.
  split.
  - intros (Hin & c & Hc & Hm). rewrite matchesChildCondition_split in Hm.
    apply andb_true_iff in Hm. destruct Hm as [Hb Ho].
    repeat split; try assumption. now exists c.
  - intros (Hin & Ho & c & Hc & Hb). split; [assumption|].
    exists c. split; [assumption|].
    rewrite matchesChildCondition_split, Hb, Ho. reflexivity.
Qed.

(* ================================================================== *)
(** * Further properties: the engine *)

Lemma filterByChildConditions_nil (subsidies : list Subsidy) :
  filterByChildConditions subsidies [] = [].
Proof.
  unfold filterByChildConditions.
  induction subsidies as [|s l IH]; simpl; auto.
Qed.

Lemma calculateSubsidies_no_children (p : Prefecture) (income : Z) :
  calculateSubsidies p {| householdIncome := income; children := [] |}
  = Ok {| prefecture := p; appliedPolicies := []; totalAmount := 0; totalMaxAmount := 0;
          calculatedAt := now; rank := 0 |}.
Proof.
  unfold calculateSubsidies. simpl. rewrite filterByChildConditions_nil. reflexivity.
Qed.

(** X7.  For a household without children, on every catalog and at every
    income, [calculateSubsidies] returns a result with no applied policy
    and both totals 0; no catalog entry is evaluated, so nothing is thrown. *)
Theorem no_children_no_policies (p : Prefecture) (income : Z) :
  exists r,
    calculateSubsidies p {| householdIncome := income; children := [] |} = Ok r /\
    appliedPolicies r = [] /\ totalAmount r = 0 /\ totalMaxAmount r = 0 /\
    prefecture r = p.
Proof.
  eexists. split; [apply calculateSubsidies_no_children|]. simpl. auto.
Qed.

(** X8.  With all totals equal the sort keeps the order of
    [getAllPrefectures]: for a household without children
    [calculateAllSubsidies] ranks Tokyo, Saitama, Chiba, Kanagawa as 1, 2,
    3, 4. *)
Theorem no_children_ranking (income : Z) :
  exists results,
    calculateAllSubsidies {| householdIncome := income; children := [] |} = Ok results /\
    map (fun r => (prefecture r, totalAmount r, rank r)) results
    = [(Tokyo, 0, 1); (Saitama, 0, 2); (Chiba, 0, 3); (Kanagawa, 0, 4)].
Proof.
  unfold calculateAllSubsidies. simpl.
  rewrite !calculateSubsidies_no_children. simpl.
  eexists. split; reflexivity.
Qed.


Lemma iterable_throws {A : Type} (o : option (list A)) e :
  iterable o = Throw e -> e = TypeError "undefined is not iterable" /\ o = None.
Proof.
  destruct o; simpl; intros H; [discriminate|].
  injection H as <-. auto.
Qed.






(** X10.  [calculateSubsidies] returns a result exactly when every catalog
    entry that survives both filters carries its age bands if its amount is
    ['variable']; entries that are filtered out are never evaluated. *)
Theorem calculateSubsidies_succeeds_iff (p : Prefecture) (input : CalculationInput) :
  (exists r, calculateSubsidies p input = Ok r) <->
  Forall wellTyped
    (filterByChildConditions
       (filterByIncomeLimit (policies (loadPrefectureData p)) (householdIncome input))
       (children input)).
Proof.
  split.
  - intros (r & Hr). apply Forall_forall. intros s Hs.
    pose proof (calculateSubsidies_applied p input r Hr) as Hm.
    assert (Hne : children input <> []).
    { unfold filterByChildConditions in Hs. apply filter_In in Hs.
      destruct Hs as [_ Hex]. now apply existsb_nonempty in Hex. }
    destruct (calculateSubsidyAmount s input) as [ap|e] eqn:Es.
    + now apply (calculateSubsidyAmount_wellTyped s input ap).
    + exfalso. clear Hr. revert Hm Hs Es.
      generalize (appliedPolicies r) as aps.
      generalize (filterByChildConditions
                    (filterByIncomeLimit (policies (loadPrefectureData p))
                                         (householdIncome input)) (children input)) as l.
      induction l as [|s0 l IH]; intros aps Hm Hs Es; [destruct Hs|].
      simpl in Hm.
      destruct (calculateSubsidyAmount s0 input) as [b|e0] eqn:E0; simpl in Hm;
        [|discriminate].
      destruct (mapM _ l) as [bs|e1] eqn:El; simpl in Hm; [|discriminate].
      destruct Hs as [->|Hs]; [congruence|].
      now apply (IH bs).
  - intros Hall. rewrite Forall_forall in Hall. unfold calculateSubsidies.
    destruct (mapM_total (fun subsidy => calculateSubsidyAmount subsidy input)
                (filterByChildConditions
                   (filterByIncomeLimit (policies (loadPrefectureData p))
                                        (householdIncome input))
                   (children input))) as (aps & Haps & _).
    + intros s Hs.
      destruct (calculateSubsidyAmount_amounts s input (Hall s Hs)) as (ap & Hap & _).
      now exists ap.
    + rewrite Haps. simpl. eexists. reflexivity.
Qed.

(** X11.  The applied policies of a result are the catalog entries that
    survive both filters, one each and in catalog order; each has its
    [maxAmount] and [receivedAmount] set; and the two totals are the sums
    of the [calculatedAmount]s and of the [maxAmount]s. *)
Theorem applied_policies_follow_catalog (p : Prefecture) (input : CalculationInput)
  (r : CalculationResult) :
  calculateSubsidies p input = Ok r ->
  map policy (appliedPolicies r)
  = filterByChildConditions
      (filterByIncomeLimit (policies (loadPrefectureData p)) (householdIncome input))
      (children input) /\
  totalAmount r = sumZ (map calculatedAmount (appliedPolicies r)) /\
  exists maxima,
    map maxAmount (appliedPolicies r) = map Some maxima /\
    totalMaxAmount r = sumZ maxima /\
    Forall (fun ap => receivedAmount ap <> None) (appliedPolicies r).
Proof.
  intros Hok.
  pose proof (calculateSubsidies_applied p input r Hok) as Hm.
  destruct (calculateSubsidies_fields p input r Hok) as (_ & _ & Htotal).
  assert (Hshape : forall s ap, calculateSubsidyAmount s input = Ok ap ->
                     policy ap = s /\ maxAmount ap <> None /\ receivedAmount ap <> None).
  { intros s ap. unfold calculateSubsidyAmount.
    destruct (if isVariableAmountSubsidy s then _ else _) as [[[t y] a]|]; simpl;
      [|discriminate].
    destruct (calculateMaxAmount s (children input)); simpl; [|discriminate].
    destruct (calculateReceivedAmount s (children input)); simpl; [|discriminate].
    intros H. injection H as <-. simpl. repeat split; discriminate. }
  split; [|split; [assumption|]].
  - apply (mapM_map _ policy (fun s => s) _ _ (fun s ap H => proj1 (Hshape s ap H))) in Hm.
    now rewrite map_id in Hm.
  - exists (map (fun ap => match maxAmount ap with Some m => m | None => 0 end)
                (appliedPolicies r)).
    assert (Hall : Forall (fun ap => maxAmount ap <> None /\ receivedAmount ap <> None)
                          (appliedPolicies r)).
    { apply Forall_forall. intros ap Hap.
      destruct (mapM_In _ _ _ Hm ap Hap) as (s & _ & Hs).
      now destruct (Hshape s ap Hs) as (_ & H1 & H2). }
    repeat split.
    + rewrite map_map. apply map_ext_in. intros ap Hap.
      rewrite Forall_forall in Hall. destruct (Hall ap Hap) as [H1 _].
      destruct (maxAmount ap); [reflexivity | now elim H1].
    + revert Hok. unfold calculateSubsidies. rewrite Hm. simpl.
      intros H. injection H as <-. simpl.
      rewrite (fold_left_plus _ (fun ap => match maxAmount ap with
                                           | Some m => m
                                           | None => calculatedAmount ap
                                           end)) by reflexivity.
      rewrite Z.add_0_l. f_equal.
      pose proof Hall as Hall'. rewrite Forall_forall in Hall'.
      apply map_ext_in. intros ap Hap.
      destruct (Hall' ap Hap) as [H1 _].
      destruct (maxAmount ap); [reflexivity | now elim H1].
    + eapply Forall_impl; [|exact Hall]. intros ap [_ H]. exact H.
Qed.

Lemma mapi_from_In {A B : Type} (f : A -> nat -> B) (l : list A) (i : nat) (b : B) :
  In b (mapi_from i f l) -> exists a k, In a l /\ b = f a k.
Proof.
  revert i. induction l as [|a l IH]; intros i H; simpl in H; [destruct H|].
  destruct H as [<-|H].
  - exists a, i. split; [now left | reflexivity].
  - destruct (IH _ H) as (a' & k & Hin & Hb). exists a', k. split; [now right | assumption].
Qed.

(** X12.  Ranking changes nothing but the rank: every result returned by
    [calculateAllSubsidies] is the result of [calculateSubsidies] for its
    prefecture, with the rank filled in. *)
Theorem ranked_results_are_single_results (input : CalculationInput)
  (results : list CalculationResult) (r : CalculationResult) :
  calculateAllSubsidies input = Ok results ->
  In r results ->
  calculateSubsidies (prefecture r) input = Ok (withRank r 0).
Proof.
  unfold calculateAllSubsidies. intros Hok Hr.
  destruct (mapM _ getAllPrefectures) as [results0|e] eqn:Em; simpl in Hok; [|discriminate].
  injection Hok as <-.
  apply mapi_from_In in Hr. destruct Hr as (r0 & k & Hr0 & ->).
  apply (Permutation_in _ (Permutation_sym (Array_sort_perm totalAmount results0))) in Hr0.
  destruct (mapM_In _ _ _ Em r0 Hr0) as (p & _ & Hp).
  destruct (calculateSubsidies_fields p input r0 Hp) as (Hpref & Hrank & _).
  simpl. rewrite Hpref, Hp. f_equal.
  destruct r0; simpl in *. unfold withRank. simpl. now subst.
Qed.

Lemma childFull_birthOrder (s : Subsidy) (c : ChildInfo) :
  childFull s c = childFull s {| age := 0; birthOrder := birthOrder c |}.
Proof. destruct c. reflexivity. Qed.

Lemma full_sum_birthOrder (s : Subsidy) (cs : list ChildInfo) :
  sumZ (map (childFull s) (childrenEver s cs))
  = sumZ (map (fun b => childFull s {| age := 0; birthOrder := b |})
              (map birthOrder (childrenEver s cs))).
Proof.
  rewrite map_map. apply sumZ_pointwise. intros c _. apply childFull_birthOrder.
Qed.

Lemma childrenEver_birthOrder (s : Subsidy) (cs cs' : list ChildInfo) :
  map birthOrder cs = map birthOrder cs' ->
  map birthOrder (childrenEver s cs) = map birthOrder (childrenEver s cs').
Proof.
  unfold childrenEver. destruct (isVariableAmountSubsidy s); [auto|].
  revert cs'. induction cs as [|c cs IH]; intros cs' H; destruct cs' as [|c' cs'];
    try discriminate; [reflexivity|].
  simpl in H. injection H as Hb Hrest. simpl.
  assert (He : birthOrderEligible s c = birthOrderEligible s c').
  { unfold birthOrderEligible. now rewrite Hb. }
  rewrite He. specialize (IH cs' Hrest).
  destruct (birthOrderEligible s c'); simpl; rewrite ?Hb, ?IH; reflexivity.
Qed.

Lemma totalMaxAmount_sum (p : Prefecture) (input : CalculationInput) r :
  calculateSubsidies p input = Ok r ->
  totalMaxAmount r
  = sumZ (map (fun s => sumZ (map (childFull s) (childrenEver s (children input))))
              (filterByChildConditions
                 (filterByIncomeLimit (policies (loadPrefectureData p))
                                      (householdIncome input))
                 (children input))).
Proof.
  intros Hok. pose proof (calculateSubsidies_applied p input r Hok) as Hm.
  destruct (children input) as [|c0 cs0] eqn:Ec.
  - rewrite filterByChildConditions_nil in *. simpl in Hm. injection Hm as Hm.
    revert Hok. unfold calculateSubsidies. rewrite Ec, filterByChildConditions_nil. simpl.
    intros H. now injection H as <-.
  - assert (Hmax : map (fun ap => match maxAmount ap with
                                  | Some m => m
                                  | None => calculatedAmount ap
                                  end) (appliedPolicies r)
                   = map (fun s => sumZ (map (childFull s) (childrenEver s (c0 :: cs0))))
                         (filterByChildConditions
                            (filterByIncomeLimit (policies (loadPrefectureData p))
                                                 (householdIncome input)) (c0 :: cs0))).
    { apply (mapM_map _ _ _ _ _) with (2 := Hm).
      intros s ap Hap.
      apply calculateSubsidyAmount_ok in Hap; [|rewrite Ec; discriminate].
      destruct Hap as (_ & _ & Hmx & _). rewrite Hmx, Ec. reflexivity. }
    rewrite <- Hmax.
    revert Hok. unfold calculateSubsidies. rewrite Ec, Hm. simpl.
    intros H. injection H as <-. simpl.
    rewrite (fold_left_plus _ (fun ap => match maxAmount ap with
                                         | Some m => m
                                         | None => calculatedAmount ap
                                         end)) by reflexivity.
    lia.
Qed.

(** X13.  The full-span total does not depend on the children's ages: two
    households with the same income whose children have the same birth
    orders get the same [totalMaxAmount]. *)
Theorem total_max_ignores_ages (p : Prefecture) (income : Z) (cs cs' : list ChildInfo)
  (r r' : CalculationResult) :
  map birthOrder cs = map birthOrder cs' ->
  calculateSubsidies p {| householdIncome := income; children := cs |} = Ok r ->
  calculateSubsidies p {| householdIncome := income; children := cs' |} = Ok r' ->
  totalMaxAmount r = totalMaxAmount r'.
Proof.
  intros Hbo Hr Hr'.
  rewrite (totalMaxAmount_sum _ _ _ Hr), (totalMaxAmount_sum _ _ _ Hr'). simpl.
  rewrite (child_filter_ignores_ages_aux _ cs cs' Hbo).
  apply sumZ_pointwise. intros s _.
  now rewrite !full_sum_birthOrder, (childrenEver_birthOrder s cs cs' Hbo).
Qed.

Lemma totalAmount_sum (p : Prefecture) (input : CalculationInput) r :
  calculateSubsidies p input = Ok r ->
  totalAmount r
  = sumZ (map (fun s => sumZ (map (childRemaining s (householdIncome input))
                                  (childrenEver s (children input))))
              (filterByChildConditions
                 (filterByIncomeLimit (policies (loadPrefectureData p))
                                      (householdIncome input))
                 (children input))).
Proof.
  intros Hok. pose proof (calculateSubsidies_applied p input r Hok) as Hm.
  destruct (calculateSubsidies_fields p input r Hok) as (_ & _ & ->).
  assert (Hin : forall ap, In ap (appliedPolicies r) ->
            calculatedAmount ap
            = sumZ (map (childRemaining (policy ap) (householdIncome input))
                        (childrenEver (policy ap) (children input)))).
  { intros ap Hap.
    destruct (in_appliedPolicies p input r ap Hok Hap) as (s & _ & _ & Hex & Hcalc).
    pose proof (existsb_nonempty _ _ Hex) as Hne.
    destruct (calculateSubsidyAmount_ok s input ap Hcalc Hne) as (-> & Hcur & _).
    destruct (childrenNow_Ever s (children input) Hex) as [_ <-]. exact Hcur. }
  rewrite (sumZ_pointwise _ _ _ Hin).
  assert (Hpol : map policy (appliedPolicies r)
                 = filterByChildConditions
                     (filterByIncomeLimit (policies (loadPrefectureData p))
                                          (householdIncome input)) (children input)).
  { apply (mapM_map _ policy (fun s => s) _ _) in Hm; [now rewrite map_id in Hm|].
    intros s ap. unfold calculateSubsidyAmount.
    destruct (if isVariableAmountSubsidy s then _ else _) as [[[t y] a]|]; simpl;
      [|discriminate].
    destruct (calculateMaxAmount s (children input)); simpl; [|discriminate].
    destruct (calculateReceivedAmount s (children input)); simpl; [|discriminate].
    intros H. now injection H as <-. }
  rewrite <- Hpol, map_map. reflexivity.
Qed.

Lemma calculateMedicalSubsidy_nonneg (a : Z) (j : Prefecture) :
  nonNegativeCosts -> 0 <= calculateMedicalSubsidy a j.
Proof.
  intros Hc.
  destruct (Z_lt_ge_dec a 0) as [Hneg|Hpos].
  - rewrite calculateMedicalSubsidy_out_of_range by lia. lia.
  - destruct (Z_le_gt_dec a 19) as [Hle|Hgt].
    + pose proof (calculateMedicalSubsidy_mono a 19 j Hc) as H.
      rewrite (calculateMedicalSubsidy_out_of_range 19) in H by lia. apply H. lia.
    + rewrite calculateMedicalSubsidy_out_of_range by lia. lia.
Qed.

Lemma remainingOf_bounds (a mn mx : Z) (c : ChildInfo) :
  0 <= a -> 0 <= remainingOf a mn mx c /\ (mn <= mx -> remainingOf a mn mx c <= a * (mx - mn + 1)).
Proof.
  intros Ha. destruct c as [g bo].
  unfold remainingOf, calculateYearsFromCurrentAge. simpl.
  split; [|intros Hwf]; zbool; zfinish.
Qed.

Lemma bandAnnual_nonneg (s : Subsidy) (b : AgeBasedAmount) :
  nonNegativeAmounts s -> In b (bandList s) -> 0 <= bandAnnual b.
Proof.
  intros (_ & Hb & _) Hin. unfold bandList in Hin.
  destruct (ageBasedAmounts s) as [bands|]; [|destruct Hin].
  specialize (Hb bands eq_refl). rewrite Forall_forall in Hb. specialize (Hb b Hin).
  unfold bandAnnual, calculateAmountByFrequency. destruct (ab_frequency b); lia.
Qed.

Lemma sumZ_nonneg {A : Type} (f : A -> Z) (l : list A) :
  (forall a, In a l -> 0 <= f a) -> 0 <= sumZ (map f l).
Proof.
  intros H. rewrite <- (sumZ_zero (fun _ : A => 0) l (fun _ _ => eq_refl)).
  now apply sumZ_le.
Qed.

Lemma childRemaining_nonneg (s : Subsidy) (income : Z) (c : ChildInfo) :
  nonNegativeAmounts s -> nonNegativeCosts -> 0 <= childRemaining s income c.
Proof.
  intros Hnn Hc. unfold childRemaining.
  destruct (s_amount s) as [n|] eqn:Hn.
  - pose proof (annualOf_nonneg s n (proj1 Hnn n Hn)) as Ha.
    pose proof (tuitionPerYear_nonneg s n income Hnn Hn) as Ht.
    destruct (s_type s); cbv zeta;
      try (destruct (s_frequency s);
           [destruct (_ >? 0); lia | now apply remainingOf_bounds
            | now apply remainingOf_bounds]).
    + now apply calculateMedicalSubsidy_nonneg.
    + now apply remainingOf_bounds.
    + now apply remainingOf_bounds.
  - destruct (isThirdChildAllowance s c).
    + unfold calculateYearsFromCurrentAge, thirdChildAnnual,
        CHILDCARE_ALLOWANCE_THIRD_CHILD_MONTHLY.
      zbool; zfinish.
    + apply sumZ_nonneg. intros b Hb. unfold bandRemaining.
      apply remainingOf_bounds. now apply (bandAnnual_nonneg s).
Qed.

Lemma childRemaining_le_full (s : Subsidy) (income : Z) (c : ChildInfo) :
  nonNegativeAmounts s -> nonNegativeCosts -> wellFormedAges s ->
  passesIncomeLimit income s = true -> firstTierApplies s income ->
  childRemaining s income c <= childFull s c.
Proof.
  intros Hnn Hc Hwf Hpass Hfirst. unfold childRemaining, childFull.
  unfold wellFormedAges in Hwf.
  destruct (s_amount s) as [n|] eqn:Hn.
  - pose proof (annualOf_nonneg s n (proj1 Hnn n Hn)) as Ha.
    pose proof (tuitionPerYear_nonneg s n income Hnn Hn) as Ht.
    destruct (s_type s) eqn:Et; cbv zeta;
      try (destruct (s_frequency s);
           [destruct (_ >? 0); lia | now apply remainingOf_bounds
            | now apply remainingOf_bounds]).
    + destruct (Z_lt_ge_dec (age c) 0) as [Hneg|Hpos].
      * rewrite (calculateMedicalSubsidy_out_of_range (age c)) by lia.
        now apply calculateMedicalSubsidy_nonneg.
      * apply calculateMedicalSubsidy_mono; [assumption | lia].
    + now apply remainingOf_bounds.
    + rewrite <- (tuition_first_tier s n income Hpass Hfirst Hn Et).
      now apply remainingOf_bounds.
  - destruct (isThirdChildAllowance s c).
    + unfold calculateYearsFromCurrentAge, thirdChildAnnual,
        CHILDCARE_ALLOWANCE_THIRD_CHILD_MONTHLY.
      zbool; zfinish.
    + apply sumZ_le. intros b Hb. unfold bandRemaining, bandFull.
      apply remainingOf_bounds; [now apply (bandAnnual_nonneg s)|].
      unfold bandList in Hb. destruct (ageBasedAmounts s) as [bands|] eqn:Eb; [|destruct Hb].
      specialize (Hwf bands eq_refl). rewrite Forall_forall in Hwf. now apply Hwf.
Qed.

(** X14.  When the amounts of the prefecture's catalog and the medical
    costs are non-negative, its age bounds are well formed, and the income
    is below the first threshold of every tiered tuition policy, the
    remaining total never exceeds the full-span total. *)
Theorem total_at_most_total_max (p : Prefecture) (input : CalculationInput)
  (r : CalculationResult) :
  nonNegativeCosts ->
  (forall s, In s (policies (loadPrefectureData p)) ->
             nonNegativeAmounts s /\ wellFormedAges s /\
             firstTierApplies s (householdIncome input)) ->
  calculateSubsidies p input = Ok r ->
  totalAmount r <= totalMaxAmount r.
Proof.
  intros Hc Hcat Hok.
  rewrite (totalAmount_sum p input r Hok), (totalMaxAmount_sum p input r Hok).
  apply sumZ_le. intros s Hs.
  unfold filterByChildConditions, filterByIncomeLimit in Hs.
  apply filter_In in Hs. destruct Hs as [Hs _].
  apply filter_In in Hs. destruct Hs as [Hs Hpass].
  destruct (Hcat s Hs) as (Hnn & Hwf & Hfirst).
  apply sumZ_le. intros c _.
  now apply childRemaining_le_full.
Qed.

(** X15.  A one-time grant is either still to come or received: for a
    fixed policy paid once (other than the three special types) whose
    [minAge] does not exceed its [maxAge], [maxAmount] is [calculatedAmount]
    plus [receivedAmount] at every age of the children. *)
Theorem one_time_grant_binary (p : Prefecture) (input : CalculationInput)
  (r : CalculationResult) (ap : AppliedPolicy) :
  calculateSubsidies p input = Ok r ->
  In ap (appliedPolicies r) ->
  isGenericFixed (policy ap) = true ->
  s_frequency (policy ap) = once ->
  effectiveMinAge (policy ap) <= effectiveMaxAge (policy ap) ->
  exists m received,
    maxAmount ap = Some m /\ receivedAmount ap = Some received /\
    m = calculatedAmount ap + received.
Proof.
  intros Hok Hin Hgen Hfreq Hwf.
  destruct (in_appliedPolicies p input r ap Hok Hin) as (s & _ & Hpass & Hex & Hcalc).
  pose proof (existsb_nonempty _ _ Hex) as Hne.
  destruct (calculateSubsidyAmount_ok s input ap Hcalc Hne) as (Hpol & Hcur & Hmax & Hrec).
  destruct (childrenNow_Ever s (children input) Hex) as [_ Hsame].
  rewrite Hpol in *.
  eexists. eexists. split; [exact Hmax|]. split; [exact Hrec|].
  rewrite Hcur, Hsame, <- sumZ_plus.
  apply sumZ_pointwise. intros c _.
  unfold isGenericFixed, isVariableAmountSubsidy in Hgen.
  unfold childFull, childRemaining, childReceived.
  destruct (s_amount s) as [n|]; [|discriminate].
  revert Hwf. generalize (effectiveMinAge s) as mn, (effectiveMaxAge s) as mx.
  intros mn mx Hwf.
  destruct (s_type s); try discriminate; rewrite Hfreq; cbv zeta;
    unfold calculateYearsFromCurrentAge; generalize (annualOf s n) as a; intros a;
    destruct c as [g bo]; simpl; zbool; zfinish.
Qed.

(** X16.  Once every child is older than 18, a policy whose intervals end
    at 18 or before has nothing left to pay: its [calculatedAmount] is 0. *)
Theorem aged_out_nothing_left (p : Prefecture) (input : CalculationInput)
  (r : CalculationResult) (ap : AppliedPolicy) :
  calculateSubsidies p input = Ok r ->
  In ap (appliedPolicies r) ->
  Forall (fun child => 18 < age child) (children input) ->
  endsBy18 (policy ap) ->
  calculatedAmount ap = 0.
Proof.
  intros Hok Hin Hages Hends.
  destruct (in_appliedPolicies p input r ap Hok Hin) as (s & _ & Hpass & Hex & Hcalc).
  pose proof (existsb_nonempty _ _ Hex) as Hne.
  destruct (calculateSubsidyAmount_ok s input ap Hcalc Hne) as (Hpol & Hcur & _).
  destruct (childrenNow_Ever s (children input) Hex) as [_ Hsame].
  rewrite Hpol in *. rewrite Hcur, Hsame.
  apply sumZ_zero. intros c Hc. apply In_childrenEver in Hc.
  rewrite Forall_forall in Hages. specialize (Hages c Hc).
  assert (Hrem : forall a mn mx, mx <= 18 -> remainingOf a mn mx c = 0).
  { intros a mn mx Hmx. unfold remainingOf, calculateYearsFromCurrentAge.
    replace (age c >? mx) with true by (symmetry; rewrite Z.gtb_ltb; apply Z.ltb_lt; lia).
    reflexivity. }
  unfold endsBy18 in Hends. unfold childRemaining.
  destruct (s_amount s) as [n|].
  - destruct (s_type s); cbv zeta;
      try (destruct (s_frequency s); rewrite ?Hrem by assumption; try reflexivity;
           unfold calculateYearsFromCurrentAge;
           replace (age c >? effectiveMaxAge s) with true
             by (symmetry; rewrite Z.gtb_ltb; apply Z.ltb_lt; lia);
           reflexivity).
    apply calculateMedicalSubsidy_out_of_range. lia.
  - destruct (isThirdChildAllowance s c).
    + unfold calculateYearsFromCurrentAge.
      replace (age c >? 18) with true by (symmetry; rewrite Z.gtb_ltb; apply Z.ltb_lt; lia).
      lia.
    + apply sumZ_zero. intros b Hb. unfold bandRemaining. apply Hrem.
      rewrite Forall_forall in Hends. now apply Hends.
Qed.

Lemma forOf_ext_in {A S : Type} (body body' : S -> A -> Result S) (l : list A) (s0 : S) :
  (forall s a, In a l -> body s a = body' s a) ->
  forOf l s0 body = forOf l s0 body'.
Proof.
  unfold forOf. generalize (Ok s0) as r.
  induction l as [|a l IH]; intros r H; simpl; [reflexivity|].
  rewrite IH by (intros s b Hb; apply H; now right).
  f_equal. destruct r as [s|e]; simpl; [|reflexivity].
  apply H. now left.
Qed.

(** X17.  Without a third-or-later child the child-allowance calculator is
    the general age-band calculator: the two return the same amount, or
    throw the same exception. *)
Theorem allowance_without_third_child (s : Subsidy) (cs : list ChildInfo) :
  Forall (fun child => birthOrder child <> third_or_more) cs ->
  calculateChildcareAllowance s cs = calculateVariableAmount s cs.
Proof.
  intros Hno. rewrite Forall_forall in Hno.
  unfold calculateChildcareAllowance, calculateVariableAmount.
  apply forOf_ext_in. intros t c Hc. specialize (Hno c Hc).
  destruct (birthOrder c); [reflexivity | reflexivity | now elim Hno].
Qed.

(** X18.  A household of third-or-later children gets from the
    child-allowance calculator 30000 yen a month for every remaining year
    up to 18 per child; the age bands are not read, so the result is the
    same for a policy that carries none. *)
Theorem allowance_third_children (s : Subsidy) (cs : list ChildInfo) :
  Forall (fun child => birthOrder child = third_or_more) cs ->
  calculateChildcareAllowance s cs
  = Ok (sumZ (map (fun child =>
                     30000 * 12 * calculateYearsFromCurrentAge (age child) 0 18) cs)).
Proof.
  intros Hall. rewrite Forall_forall in Hall.
  unfold calculateChildcareAllowance.
  rewrite (forOf_ext_in _
             (fun total child =>
                Ok (total + 30000 * 12 * calculateYearsFromCurrentAge (age child) 0 18))).
  - rewrite (forOf_pure
               (fun total child =>
                  total + 30000 * 12 * calculateYearsFromCurrentAge (age child) 0 18))
      by reflexivity.
    rewrite (fold_left_plus _
               (fun child => 30000 * 12 * calculateYearsFromCurrentAge (age child) 0 18))
      by reflexivity.
    f_equal.
  - intros t c Hc. rewrite (Hall c Hc). reflexivity.
Qed.

Lemma sumZ_filter_positive {A : Type} (f : A -> Z) (l : list A) :
  (forall a, In a l -> 0 <= f a) ->
  sumZ (map f (filter (fun a => f a >? 0) l)) = sumZ (map f l).
Proof.
  induction l as [|a l IH]; intros H; simpl; [reflexivity|].
  pose proof (H a (or_introl eq_refl)) as Ha.
  rewrite Z.gtb_ltb. destruct (Z.ltb_spec 0 (f a)); simpl; rewrite IH; auto; try lia.
  all: intros b Hb; apply H; now right.
Qed.

(** X19.  On a catalog with non-negative amounts and costs no applied
    policy has a negative [calculatedAmount], and the policies the detail
    view lists ([calculatedAmount > 0]) add up to the [totalAmount] it
    shows. *)
Theorem active_policies_sum (p : Prefecture) (input : CalculationInput)
  (r : CalculationResult) :
  nonNegativeCatalog -> nonNegativeCosts ->
  calculateSubsidies p input = Ok r ->
  Forall (fun ap => 0 <= calculatedAmount ap) (appliedPolicies r) /\
  sumZ (map calculatedAmount (activePolicies r)) = totalAmount r.
Proof.
  intros Hnn Hc Hok.
  assert (Hall : forall ap, In ap (appliedPolicies r) -> 0 <= calculatedAmount ap).
  { intros ap Hap.
    destruct (in_appliedPolicies p input r ap Hok Hap) as (s & Hs & _ & Hex & Hcalc).
    pose proof (existsb_nonempty _ _ Hex) as Hne.
    destruct (calculateSubsidyAmount_ok s input ap Hcalc Hne) as (_ & -> & _).
    apply sumZ_nonneg. intros c _. apply childRemaining_nonneg; [|assumption].
    unfold nonNegativeCatalog in Hnn. rewrite Forall_forall in Hnn.
    apply Hnn. now apply (In_allPolicies p). }
  split; [now apply Forall_forall|].
  destruct (calculateSubsidies_fields p input r Hok) as (_ & _ & ->).
  unfold activePolicies. now apply sumZ_filter_positive.
Qed.

(* ================================================================== *)
(** * Further properties: the medical calculator *)

Lemma sumQ_zero {A : Type} (f : A -> Q) (l : list A) :
  (forall a, (f a == 0)%Q) -> (sumQ (map f l) == 0)%Q.
Proof.
  intros H. induction l as [|a l IH]; simpl; [reflexivity|].
  rewrite H, IH. reflexivity.
Qed.

(** X20.  [calculateMedicalSubsidy] is 0 for Kanagawa at every age and on
    every cost table, 0 for every prefecture at an age below 0 or above 18,
    and the same for Tokyo, Saitama and Chiba. *)
Theorem medical_subsidy_zero_cases :
  (forall a, calculateMedicalSubsidy a Kanagawa = 0) /\
  (forall a j, a < 0 \/ 18 < a -> calculateMedicalSubsidy a j = 0) /\
  (forall a, calculateMedicalSubsidy a Saitama = calculateMedicalSubsidy a Tokyo /\
             calculateMedicalSubsidy a Chiba = calculateMedicalSubsidy a Tokyo).
Proof.
  repeat split; try reflexivity.
  - intros a. destruct (Z_lt_ge_dec a 0) as [Hneg|Hpos];
      [apply calculateMedicalSubsidy_out_of_range; lia|].
    destruct (Z_le_gt_dec a 18) as [Hle|Hgt];
      [|apply calculateMedicalSubsidy_out_of_range; lia].
    rewrite calculateMedicalSubsidy_in_range by lia.
    unfold medicalSubsidySpec. rewrite <- Math_round_zero.
    unfold Math_round. apply Qfloor_comp. apply Qplus_comp; [|reflexivity].
    apply sumQ_zero. intros x. simpl. ring.
  - intros a j. apply calculateMedicalSubsidy_out_of_range.
Qed.

(** X21.  With non-negative costs the medical subsidy is never negative
    and never grows with age: from age 0 on, an older child has at most
    what a younger one has, and at most the amount from birth. *)
Theorem medical_subsidy_monotone (a b : Z) (j : Prefecture) :
  nonNegativeCosts -> 0 <= a <= b ->
  0 <= calculateMedicalSubsidy b j <= calculateMedicalSubsidy a j /\
  calculateMedicalSubsidy a j <= calculateMedicalSubsidy 0 j.
Proof.
  intros Hc Hab. repeat split.
  - now apply calculateMedicalSubsidy_nonneg.
  - now apply calculateMedicalSubsidy_mono.
  - apply calculateMedicalSubsidy_mono; [assumption | lia].
Qed.

(* ================================================================== *)
(** * Further properties: data loading *)

(** X22.  The record returned by [loadAllPrefectureData] has the
    prefectures of [getAllPrefectures] as its keys, in that order, and
    under each key the data that [loadPrefectureData] returns for it. *)
Theorem load_all_agrees :
  map fst loadAllPrefectureData = getAllPrefectures /\
  (forall p, recordGet loadAllPrefectureData p = Some (loadPrefectureData p)).
Proof.
  split; [reflexivity|]. intros p. destruct p; reflexivity.
Qed.

(* ================================================================== *)
(** * Further properties: the form *)

Lemma round_man_yen (v : Z) :
  Math_round (inject_Z v / inject_Z 10000)%Q = (v + 5000) / 10000.
Proof.
  unfold Math_round, Qfloor, Qdiv, Qinv, Qmult, Qplus, inject_Z. simpl.
  replace (v * 1 * 2 + 10000) with ((v + 5000) * 2) by lia.
  replace 20000 with (10000 * 2) by reflexivity.
  apply Z.div_mul_cancel_r; lia.
Qed.

Lemma manYenValue_div (v : Z) : manYenValue v = (v + 5000) / 10000.
Proof.
  unfold manYenValue. destruct (Z.eqb_spec v 0) as [->|_]; [reflexivity|].
  apply round_man_yen.
Qed.

(** X23.  [manYenValue] rounds yen to the nearest 10000, a tie going
    upwards: the yen amount lies from 5000 below to less than 5000 above
    the value shown. *)
Theorem man_yen_rounding (value : Z) :
  10000 * manYenValue value - 5000 <= value < 10000 * manYenValue value + 5000.
Proof.
  rewrite manYenValue_div.
  pose proof (Z.div_mod (value + 5000) 10000 ltac:(lia)) as Hd.
  pose proof (Z.mod_pos_bound (value + 5000) 10000 ltac:(lia)) as Hm.
  lia.
Qed.


(** X25.  [validateIncome] accepts exactly the numbers from 0 to
    99,990,000, reports an error exactly when it rejects, and so accepts
    what the income field produces from a typed amount of 0 to 9999. *)
Theorem validate_income_range (income : IncomeValue) :
  (isValid (validateIncome income) = true <->
   exists n, income = IncomeNumber n /\ 0 <= n <= 99990000) /\
  (error (validateIncome income) = None <-> isValid (validateIncome income) = true) /\
  (forall m, isValid (validateIncome (IncomeNumber (handleChange (Some m)))) = true <->
             0 <= m <= 9999).
Proof.
  assert (Hn : forall n, isValid (validateIncome (IncomeNumber n)) = true <->
                         0 <= n <= 99990000).
  { intros n. unfold validateIncome. zbool; simpl; split; intros Hv; try discriminate;
      try reflexivity; lia. }
  split; [|split].
  - split.
    + destruct income as [|n]; [discriminate|].
      intros Hv. exists n. split; [reflexivity|]. now apply Hn.
    + intros (n & -> & Hr). now apply Hn.
  - destruct income as [|n]; simpl; [split; discriminate|].
    zbool; simpl; split; (discriminate || reflexivity).
  - intros m. rewrite Hn. unfold handleChange. lia.
Qed.

Lemma mapi_from_birthOrder (l : list ChildInfo) (k : nat) :
  map birthOrder
      (mapi_from k (fun child i => {| age := age child; birthOrder := birthOrderAt i |}) l)
  = map birthOrderAt (seq k (length l)).
Proof.
  revert k. induction l as [|c l IH]; intros k; simpl; [reflexivity|].
  now rewrite IH.
Qed.

Lemma mapi_from_len {A B : Type} (f : A -> nat -> B) (l : list A) (k : nat) :
  length (mapi_from k f l) = length l.
Proof.
  revert k. induction l as [|a l IH]; intros k; simpl; auto.
Qed.

Lemma removeChild_positional (l : list ChildInfo) (index : nat) :
  positional (removeChild l index).
Proof.
  unfold positional, removeChild, mapi.
  now rewrite mapi_from_birthOrder, mapi_from_len.
Qed.

Lemma addChild_positional (l : list ChildInfo) :
  positional l -> positional (addChild l).
Proof.
  unfold positional, addChild. intros H.
  rewrite map_app, length_app, H. simpl.
  rewrite Nat.add_1_r, seq_S, map_app. reflexivity.
Qed.

Lemma updateChild_shape (l : list ChildInfo) (index : nat) (g : Z) l' :
  updateChild l index g = Some l' ->
  map birthOrder l' = map birthOrder l /\ length l' = length l.
Proof.
  revert index l'. induction l as [|c l IH]; intros index l' H; simpl in H; [discriminate|].
  destruct index as [|index].
  - injection H as <-. simpl. auto.
  - destruct (updateChild l index g) as [rest|] eqn:E; [|discriminate].
    injection H as <-. destruct (IH _ _ E) as [Hb Hl]. simpl. now rewrite Hb, Hl.
Qed.

(** X26.  Whatever the user adds, edits and removes, starting from the
    empty list, the children handed to the engine carry birth orders by
    position: first, second, and third_or_more from the third on. *)
Theorem form_children_positional (l : list ChildInfo) :
  FormReachable l -> positional l.
Proof.
  induction 1 as [|l l' _ IH Hstep].
  - reflexivity.
  - destruct Hstep as [l|l index g l' Hup|l index].
    + now apply addChild_positional.
    + destruct (updateChild_shape l index g l' Hup) as [Hb Hl].
      unfold positional in *. now rewrite Hb, Hl.
    + apply removeChild_positional.
Qed.

Lemma filteri_from_keep_all {A : Type} (l : list A) (j index : nat) :
  (index < j)%nat -> filteri_from j (fun i => negb (i =? index)%nat) l = l.
Proof.
  revert j. induction l as [|b l IH]; intros j Hj; simpl; [reflexivity|].
  destruct (Nat.eqb_spec j index); [lia|]. simpl. rewrite IH by lia. reflexivity.
Qed.

Lemma filteri_from_remove {A : Type} (l : list A) (k index : nat) :
  (k <= index)%nat ->
  filteri_from k (fun i => negb (i =? index)%nat) l
  = firstn (index - k) l ++ skipn (S (index - k)) l.
Proof.
  revert k. induction l as [|a l IH]; intros k Hk; simpl.
  - now destruct (index - k)%nat.
  - destruct (Nat.eqb_spec k index) as [->|Hne]; simpl.
    + rewrite Nat.sub_diag. simpl. apply filteri_from_keep_all. lia.
    + rewrite IH by lia.
      replace (index - k)%nat with (S (index - S k)) by lia. reflexivity.
Qed.

(** X27.  [removeChild] at a position of the list drops that child and
    keeps the ages of the others in order; at a position past the end it
    drops nobody.  Either way the result has positional birth orders. *)
Theorem remove_child_ages (l : list ChildInfo) (index : nat) :
  map age (removeChild l index) = map age (firstn index l ++ skipn (S index) l) /\
  ((index < length l)%nat -> S (length (removeChild l index)) = length l) /\
  ((length l <= index)%nat -> map age (removeChild l index) = map age l) /\
  positional (removeChild l index).
Proof.
  assert (Hages : map age (removeChild l index)
                  = map age (firstn index l ++ skipn (S index) l)).
  { unfold removeChild, mapi.
    rewrite (mapi_from_map _ age age) by reflexivity.
    rewrite filteri_from_remove by lia. now rewrite Nat.sub_0_r. }
  repeat split.
  - exact Hages.
  - intros Hlt. rewrite <- (length_map age (removeChild l index)), Hages.
    rewrite length_map, length_app, length_firstn, length_skipn. lia.
  - intros Hge. rewrite Hages.
    rewrite firstn_all2 by lia. rewrite skipn_all2 by lia. now rewrite app_nil_r.
  - apply removeChild_positional.
Qed.

(** X28.  [updateChild] at a position of the list changes the age there and
    nothing else: birth orders and the other ages stay; past the end it
    yields no list of children. *)
Theorem update_child_spec (l : list ChildInfo) (index : nat) (newAge : Z) :
  ((index < length l)%nat ->
   exists l', updateChild l index newAge = Some l' /\
              map birthOrder l' = map birthOrder l /\
              map age l' = firstn index (map age l) ++ newAge :: skipn (S index) (map age l)) /\
  ((length l <= index)%nat -> updateChild l index newAge = None).
Proof.
  revert index. induction l as [|c l IH]; intros index; split; simpl.
  - lia.
  - reflexivity.
  - intros Hlt. destruct index as [|index].
    + eexists. split; [reflexivity|]. simpl. auto.
    + destruct (proj1 (IH index) ltac:(lia)) as (l' & Hl' & Hb & Ha).
      rewrite Hl'. eexists. split; [reflexivity|]. simpl. now rewrite Hb, Ha.
  - intros Hge. destruct index as [|index]; [lia|].
    now rewrite (proj2 (IH index) ltac:(lia)).
Qed.

(* ================================================================== *)
(** * Further properties: the chart *)

Lemma chartData_descending (results : list CalculationResult) :
  descending totalAmount results -> descending displayAmount (chartData results).
Proof.
  unfold descending. induction 1 as [|r l Hs IH Hhd]; simpl.
  - constructor.
  - constructor; [exact IH|].
    destruct Hhd as [|r' l' Hge]; simpl; constructor. simpl.
    rewrite !round_man_yen.
    apply Z.le_ge. apply Z.div_le_mono; lia.
Qed.

(** X29.  The chart lists the results of [calculateAllSubsidies] in rank
    order 1..N, its bars (amounts in units of 10000 yen) never grow from
    one rank to the next, and each bar is its [totalAmount] rounded to the
    nearest 10000. *)
Theorem chart_follows_ranking (input : CalculationInput)
  (results : list CalculationResult) :
  calculateAllSubsidies input = Ok results ->
  map cd_rank (chartData results) = map Z.of_nat (seq 1 (length getAllPrefectures)) /\
  descending displayAmount (chartData results) /\
  Forall (fun d => 10000 * displayAmount d - 5000 <= cd_totalAmount d
                   < 10000 * displayAmount d + 5000) (chartData results).
Proof.
  intros Hok.
  destruct (calculateAllSubsidies_ok input results Hok) as (_ & Hranks & Hsorted).
  repeat split.
  - unfold chartData. rewrite map_map. exact Hranks.
  - now apply chartData_descending.
  - unfold chartData. apply Forall_forall. intros d Hd.
    apply in_map_iff in Hd. destruct Hd as (r & <- & _).
    cbn [displayAmount cd_totalAmount]. rewrite round_man_yen.
    pose proof (Z.div_mod (totalAmount r + 5000) 10000 ltac:(lia)) as Hdm.
    pose proof (Z.mod_pos_bound (totalAmount r + 5000) 10000 ltac:(lia)) as Hm.
    lia.
Qed.

End Engine.

(* ================================================================== *)
(** * The engine on the sample catalog *)

(** The documented example of [calculateAmountByFrequency]. *)
Example monthly_5000 : calculateAmountByFrequency 5000 monthly = 60000.
Proof. reflexivity. Qed.

(** The cases of [calculateMedicalSubsidy.test.ts] that do not depend on the
    cost table: ages 19 and -1 give 0, and so does Kanagawa. *)
Example medical_age_19 : calculateMedicalSubsidy sampleCosts 19 Tokyo = 0.
Proof. reflexivity. Qed.

Example medical_negative_age : calculateMedicalSubsidy sampleCosts (-1) Tokyo = 0.
Proof. reflexivity. Qed.

Example medical_kanagawa : calculateMedicalSubsidy sampleCosts 0 Kanagawa = 0.
Proof. reflexivity. Qed.

Example medical_saitama_like_tokyo :
  calculateMedicalSubsidy sampleCosts 0 Saitama = calculateMedicalSubsidy sampleCosts 0 Tokyo.
Proof. reflexivity. Qed.

(** The running total 635400.6 is rounded to 635401. *)
Example medical_tokyo_from_birth : calculateMedicalSubsidy sampleCosts 0 Tokyo = 635401.
Proof. vm_compute. reflexivity. Qed.

(** The ranking of the four prefectures for a first child aged 5. *)
Example ranking_age5 :
  match calculateAllSubsidies sampleData sampleCosts sampleNow inputAge5 with
  | Ok results => map (fun r => (prefecture r, totalAmount r, rank r)) results
  | Throw _ => []
  end
  = [(Tokyo, 3371400, 1); (Chiba, 2531400, 2); (Saitama, 2087400, 3); (Kanagawa, 1680000, 4)].
Proof. vm_compute. reflexivity. Qed.

(** An entry with the ['variable'] sentinel and no age bands makes the
    engine throw as soon as a child reaches its loop over the bands. *)
Example mistyped_entry_throws :
  calculateMaxAmount sampleCosts mistypedTuition [firstChild 16]
  = Throw (TypeError "undefined is not iterable").
Proof. reflexivity. Qed.

Lemma sample_wellTyped : wellTypedCatalog sampleData.
Proof.
  unfold wellTypedCatalog. repeat constructor; intros H; simpl; discriminate.
Qed.

Lemma sample_nonNegative : nonNegativeCatalog sampleData.
Proof.
  unfold nonNegativeCatalog.
  repeat constructor; simpl;
    try (intros ? H; injection H as <-); repeat constructor; try discriminate; simpl; lia.
Qed.

Lemma sample_costs_nonNegative : nonNegativeCosts sampleCosts.
Proof.
  unfold nonNegativeCosts. repeat constructor; simpl; lia.
Qed.

Lemma years_remaining_cases_witness :
  6 <= 14 /\ calculateYearsFromCurrentAge 5 6 14 = 14 - 6 + 1.
Proof.
  split; [lia|].
  apply (years_remaining_cases 5 6 14); lia.
Defined.

Lemma tiered_income_filter_witness :
  il_type (incomeLimit (s_conditions saitamaTuition)) = tiered /\
  In saitamaTuition (filterByIncomeLimit [saitamaTuition; mistypedTuition] 5500000).
Proof.
  split; [reflexivity|].
  apply (tiered_income_filter [saitamaTuition; mistypedTuition] 5500000 saitamaTuition);
    [reflexivity|].
  split; [simpl; auto|].
  exists {| tier_threshold := 5900000; tier_amount := 14000 |}.
  split; [simpl; auto | simpl; lia].
Defined.

Lemma tuition_amount_per_year_witness :
  (exists r, calculateHighSchoolTuition saitamaTuition inputAge16 = Ok r /\
             fr_amount r = 14000 * 3) /\
  calculateMaxHighSchoolTuition saitamaTuition [firstChild 16] = 200000 * 4 * 1.
Proof.
  destruct (tuition_amount_per_year saitamaTuition inputAge16 200000
              [ {| tier_threshold := 5000000; tier_amount := 200000 |};
                {| tier_threshold := 5900000; tier_amount := 14000 |} ]
              eq_refl eq_refl eq_refl eq_refl) as [Hcur Hmax].
  split.
  - exact Hcur.
  - exact (Hmax _ _ [firstChild 16] eq_refl).
Defined.


Lemma ranking_validity_witness :
  exists results,
    calculateAllSubsidies sampleData sampleCosts sampleNow inputAge5 = Ok results /\
    Permutation (map prefecture results) getAllPrefectures /\
    map rank results = map Z.of_nat (seq 1 (length getAllPrefectures)) /\
    descending totalAmount results /\
    (forall r1 r2, In r1 results -> In r2 results -> rank r1 <= rank r2 ->
                   totalAmount r2 <= totalAmount r1).
Proof.
  exact (ranking_validity sampleData sampleCosts sampleNow inputAge5 sample_wellTyped).
Defined.

Lemma single_jurisdiction_rank_witness :
  exists r, calculateSubsidies sampleData sampleCosts sampleNow Chiba inputAge5 = Ok r /\
            rank r = 0.
Proof.
  exact (proj1 (single_jurisdiction_rank sampleData sampleCosts sampleNow Chiba inputAge5
                  sample_wellTyped)).
Defined.

Lemma variable_sentinel_witness :
  s_amount mistypedTuition = AmountVariable /\
  (exists message,
     calculateFixedAmount sampleCosts mistypedTuition inputAge16 = Throw (Error message)) /\
  calculateMaxHighSchoolTuition mistypedTuition [firstChild 16] = 0 /\
  calculateReceivedHighSchoolTuition mistypedTuition [firstChild 16] = 0.
Proof.
  split; [reflexivity|].
  destruct (variable_sentinel sampleCosts mistypedTuition inputAge16 [firstChild 16] eq_refl)
    as (Hfixed & _ & _ & _ & Hmax & _ & Hreceived & _).
  auto.
Defined.

Lemma conservation_continuous_witness :
  exists m received,
    maxAmount tokyo018At5 = Some m /\ receivedAmount tokyo018At5 = Some received /\
    m = calculatedAmount tokyo018At5 + received.
Proof.
  eapply (conservation_continuous sampleData sampleCosts sampleNow Tokyo inputAge5 _
            tokyo018At5).
  - vm_compute. reflexivity.
  - simpl. left. reflexivity.
  - repeat constructor; simpl; lia.
  - discriminate.
  - unfold wellFormedAges, effectiveMinAge, effectiveMaxAge. simpl. lia.
  - intros _ H. discriminate H.
Defined.

Lemma identity_at_birth_witness :
  receivedAmount allowanceAtBirth = Some 0 /\
  maxAmount allowanceAtBirth = Some (calculatedAmount allowanceAtBirth).
Proof.
  assert (H : calculateSubsidies sampleData sampleCosts sampleNow Saitama inputBirth
              = Ok {| prefecture := Saitama;
                      appliedPolicies :=
                        [tuitionAtBirth; allowanceAtBirth;
                         {| policy := medicalAid Saitama;
                            calculatedAmount := 635401;
                            yearsApplied := 19;
                            ageRange := Some {| fromAge := 0; toAge := 18; years := 19 |};
                            maxAmount := Some 635401;
                            receivedAmount := Some 0 |}];
                      totalAmount := 3151401;
                      totalMaxAmount := 3895401;
                      calculatedAt := sampleNow;
                      rank := 0 |})
    by (vm_compute; reflexivity).
  destruct (identity_at_birth sampleData sampleCosts sampleNow Saitama inputBirth _
              allowanceAtBirth H) as [Hreceived Hmax].
  - simpl. right. left. reflexivity.
  - repeat constructor.
  - split; [exact Hreceived|].
    apply Hmax.
    + intros bands Hb. injection Hb as <-. repeat constructor; simpl; lia.
    + intros bands Hb. injection Hb as <-. repeat constructor; simpl; lia.
    + intros H0. discriminate H0.
Defined.

Lemma total_amount_monotone_witness :
  exists ra rb,
    calculateSubsidies sampleData sampleCosts sampleNow Tokyo
      {| householdIncome := 6000000; children := [firstChild 5] |} = Ok ra /\
    calculateSubsidies sampleData sampleCosts sampleNow Tokyo
      {| householdIncome := 6000000; children := [firstChild 6] |} = Ok rb /\
    totalAmount rb <= totalAmount ra.
Proof.
  apply (total_amount_monotone sampleData sampleCosts sampleNow Tokyo 6000000 first 5 6
           sample_wellTyped sample_nonNegative sample_costs_nonNegative).
  lia.
Defined.

(* ================================================================== *)
(** * Where the stated properties fail *)

(** C1 as stated fails: with an income between the two tiers, the tuition
    policy of a 16-year-old has a maximum of 800000 but a remaining amount
    of 42000 and a received amount of 200000. *)
Lemma conservation_continuous_counterexample :
  exists r ap,
    calculateSubsidies sampleData sampleCosts sampleNow Saitama inputAge16 = Ok r /\
    In ap (appliedPolicies r) /\
    Forall (fun child => 1 <= age child <= 18) (children inputAge16) /\
    s_frequency (policy ap) <> once /\
    maxAmount ap = Some 800000 /\
    calculatedAmount ap = 42000 /\
    receivedAmount ap = Some 200000 /\
    800000 <> 42000 + 200000.
Proof.
  eexists. exists tuitionAt16.
  split; [vm_compute; reflexivity|].
  split; [simpl; left; reflexivity|].
  split; [repeat constructor; simpl; lia|].
  split; [discriminate|].
  repeat split. lia.
Qed.

(** C5 as stated fails: with an income between the two tiers, the tuition
    policy of a newborn has a maximum of 800000 and a remaining amount of
    56000. *)
Lemma identity_at_birth_counterexample :
  exists r ap,
    calculateSubsidies sampleData sampleCosts sampleNow Saitama inputBirth = Ok r /\
    In ap (appliedPolicies r) /\
    Forall (fun child => age child = 0) (children inputBirth) /\
    maxAmount ap = Some 800000 /\
    calculatedAmount ap = 56000 /\
    maxAmount ap <> Some (calculatedAmount ap).
Proof.
  eexists. exists tuitionAtBirth.
  split; [vm_compute; reflexivity|].
  split; [simpl; left; reflexivity|].
  split; [repeat constructor|].
  repeat split. discriminate.
Qed.

(** C9 as stated fails: on a tuition entry carrying the ['variable']
    sentinel, the current calculator throws, but the maximum and the
    received calculator return 0, and so do [calculateMaxAmount] and
    [calculateReceivedAmount] for a household without children. *)
Lemma variable_sentinel_counterexample :
  s_amount mistypedTuition = AmountVariable /\
  calculateHighSchoolTuition mistypedTuition inputAge16
  = Throw (Error "固定金額の計算に変動金額型が渡されました") /\
  calculateMaxHighSchoolTuition mistypedTuition (children inputAge16) = 0 /\
  calculateReceivedHighSchoolTuition mistypedTuition (children inputAge16) = 0 /\
  calculateMaxAmount sampleCosts mistypedTuition [] = Ok 0 /\
  calculateReceivedAmount sampleCosts mistypedTuition [] = Ok 0.
Proof.
  repeat split.
Qed.

(* ================================================================== *)
(** * The further properties on the sample catalog *)

Lemma years_bounds_monotone_witness :
  6 <= 14 /\ calculateYearsFromCurrentAge 10 6 14 <= calculateYearsFromCurrentAge 3 6 14.
Proof.
  split; [lia|].
  apply (years_bounds_monotone 6 14); lia.
Defined.

Lemma age_range_info_consistent_witness :
  5 <= 14 /\
  years (calculateAgeRangeInfo 5 6 14)
  = toAge (calculateAgeRangeInfo 5 6 14) - fromAge (calculateAgeRangeInfo 5 6 14) + 1.
Proof.
  split; [lia|].
  apply (age_range_info_consistent 5 6 14). lia.
Defined.

Lemma age_range_info_aged_out_witness :
  14 < 15 /\ years (calculateAgeRangeInfo 15 6 14) = 0.
Proof.
  split; [lia|].
  apply (age_range_info_aged_out 15 6 14). lia.
Defined.

Lemma income_filter_antitone_witness :
  5500000 <= 6000000 /\
  incl (filterByIncomeLimit (policies (saitama sampleData)) 6000000)
       (filterByIncomeLimit (policies (saitama sampleData)) 5500000).
Proof.
  split; [lia|].
  apply (income_filter_antitone (policies (saitama sampleData)) 5500000 6000000). lia.
Defined.

Lemma single_threshold_filter_witness :
  In (singleLimitPolicy 9100000)
     (filterByIncomeLimit [singleLimitPolicy 9100000] 9099999) /\
  ~ In (singleLimitPolicy 9100000)
       (filterByIncomeLimit [singleLimitPolicy 9100000] 9100000).
Proof.
  split.
  - apply (single_threshold_filter [singleLimitPolicy 9100000] 9099999 9100000
             (singleLimitPolicy 9100000) eq_refl eq_refl).
    split; [simpl; auto | split; [discriminate | lia]].
  - intros H.
    apply (single_threshold_filter [singleLimitPolicy 9100000] 9100000 9100000
             (singleLimitPolicy 9100000) eq_refl eq_refl) in H.
    lia.
Defined.

Lemma child_filter_ignores_ages_witness :
  filterByChildConditions (policies (tokyo sampleData)) [firstChild 2]
  = filterByChildConditions (policies (tokyo sampleData)) [firstChild 17].
Proof.
  apply (child_filter_ignores_ages (policies (tokyo sampleData))
           [firstChild 2] [firstChild 17]).
  reflexivity.
Defined.


Lemma applied_policies_follow_catalog_witness :
  exists r,
    calculateSubsidies sampleData sampleCosts sampleNow Saitama inputAge16 = Ok r /\
    map policy (appliedPolicies r)
    = [saitamaTuition; childAllowance Saitama; medicalAid Saitama].
Proof.
  destruct (calculateSubsidies sampleData sampleCosts sampleNow Saitama inputAge16)
    as [r|e] eqn:E; [|vm_compute in E; discriminate E].
  exists r. split; [reflexivity|].
  rewrite (proj1 (applied_policies_follow_catalog sampleData sampleCosts sampleNow
                    Saitama inputAge16 r E)).
  reflexivity.
Defined.

Lemma ranked_results_are_single_results_witness :
  exists results r,
    calculateAllSubsidies sampleData sampleCosts sampleNow inputAge5 = Ok results /\
    In r results /\
    calculateSubsidies sampleData sampleCosts sampleNow (prefecture r) inputAge5
    = Ok (withRank r 0).
Proof.
  destruct (calculateAllSubsidies sampleData sampleCosts sampleNow inputAge5)
    as [[|r rest]|e] eqn:E; try (vm_compute in E; discriminate E).
  exists (r :: rest), r. split; [reflexivity|]. split; [now left|].
  exact (ranked_results_are_single_results sampleData sampleCosts sampleNow inputAge5
           (r :: rest) r E (or_introl eq_refl)).
Defined.

Lemma total_max_ignores_ages_witness :
  exists r r',
    calculateSubsidies sampleData sampleCosts sampleNow Tokyo
      {| householdIncome := 6000000; children := [firstChild 0] |} = Ok r /\
    calculateSubsidies sampleData sampleCosts sampleNow Tokyo
      {| householdIncome := 6000000; children := [firstChild 5] |} = Ok r' /\
    totalMaxAmount r = totalMaxAmount r'.
Proof.
  destruct (calculateSubsidies sampleData sampleCosts sampleNow Tokyo
              {| householdIncome := 6000000; children := [firstChild 0] |})
    as [r|e] eqn:E; [|vm_compute in E; discriminate E].
  destruct (calculateSubsidies sampleData sampleCosts sampleNow Tokyo
              {| householdIncome := 6000000; children := [firstChild 5] |})
    as [r'|e] eqn:E'; [|vm_compute in E'; discriminate E'].
  exists r, r'. split; [reflexivity|]. split; [reflexivity|].
  exact (total_max_ignores_ages sampleData sampleCosts sampleNow Tokyo 6000000
           [firstChild 0] [firstChild 5] r r' eq_refl E E').
Defined.

Lemma sample_tokyo_regular (s : Subsidy) :
  In s (policies (loadPrefectureData sampleData Tokyo)) ->
  nonNegativeAmounts s /\ wellFormedAges s /\ firstTierApplies s 6000000.
Proof.
  intros H. pose proof sample_nonNegative as Hnn.
  unfold nonNegativeCatalog in Hnn. rewrite Forall_forall in Hnn.
  split; [apply Hnn; now apply (In_allPolicies sampleData Tokyo)|].
  simpl in H.
  repeat (destruct H as [<-|H]);
    try (split;
         [unfold wellFormedAges, effectiveMinAge, effectiveMaxAge; simpl;
          try lia; intros bands Hb; injection Hb as <-; repeat constructor; simpl; lia
         | intros H1 H2; discriminate]).
  destruct H.
Qed.

Lemma total_at_most_total_max_witness :
  exists r,
    calculateSubsidies sampleData sampleCosts sampleNow Tokyo inputAge5 = Ok r /\
    totalAmount r <= totalMaxAmount r.
Proof.
  destruct (calculateSubsidies sampleData sampleCosts sampleNow Tokyo inputAge5)
    as [r|e] eqn:E; [|vm_compute in E; discriminate E].
  exists r. split; [reflexivity|].
  exact (total_at_most_total_max sampleData sampleCosts sampleNow Tokyo inputAge5 r
           sample_costs_nonNegative sample_tokyo_regular E).
Defined.

Lemma one_time_grant_binary_witness :
  exists m received,
    maxAmount birthGrantAt5 = Some m /\ receivedAmount birthGrantAt5 = Some received /\
    m = calculatedAmount birthGrantAt5 + received.
Proof.
  eapply (one_time_grant_binary sampleData sampleCosts sampleNow Tokyo inputAge5 _
            birthGrantAt5).
  - vm_compute. reflexivity.
  - simpl. do 3 right. left. reflexivity.
  - reflexivity.
  - reflexivity.
  - unfold effectiveMinAge, effectiveMaxAge. simpl. lia.
Defined.

Lemma aged_out_nothing_left_witness : calculatedAmount tokyo018At19 = 0.
Proof.
  eapply (aged_out_nothing_left sampleData sampleCosts sampleNow Tokyo inputAge19 _
            tokyo018At19).
  - vm_compute. reflexivity.
  - simpl. left. reflexivity.
  - repeat constructor.
  - unfold endsBy18, effectiveMaxAge. simpl. lia.
Defined.

Lemma allowance_without_third_child_witness :
  calculateChildcareAllowance (childAllowance Tokyo) [firstChild 5]
  = calculateVariableAmount (childAllowance Tokyo) [firstChild 5].
Proof.
  apply (allowance_without_third_child (childAllowance Tokyo) [firstChild 5]).
  repeat constructor. discriminate.
Defined.

Lemma allowance_third_children_witness :
  calculateChildcareAllowance mistypedTuition [thirdChild 3] = Ok (30000 * 12 * 16).
Proof.
  apply (allowance_third_children mistypedTuition [thirdChild 3]).
  repeat constructor.
Defined.

Lemma active_policies_sum_witness :
  exists r,
    calculateSubsidies sampleData sampleCosts sampleNow Tokyo inputAge19 = Ok r /\
    sumZ (map calculatedAmount (activePolicies r)) = totalAmount r.
Proof.
  destruct (calculateSubsidies sampleData sampleCosts sampleNow Tokyo inputAge19)
    as [r|e] eqn:E; [|vm_compute in E; discriminate E].
  exists r. split; [reflexivity|].
  exact (proj2 (active_policies_sum sampleData sampleCosts sampleNow Tokyo inputAge19 r
                  sample_nonNegative sample_costs_nonNegative E)).
Defined.

Lemma medical_subsidy_monotone_witness :
  0 <= calculateMedicalSubsidy sampleCosts 12 Tokyo
  <= calculateMedicalSubsidy sampleCosts 5 Tokyo.
Proof.
  apply (medical_subsidy_monotone sampleCosts 5 12 Tokyo sample_costs_nonNegative). lia.
Defined.

Lemma form_children_positional_witness :
  positional (removeChild (addChild (addChild (addChild []))) 0).
Proof.
  apply form_children_positional.
  eapply reach_step; [|apply step_remove].
  eapply reach_step; [|apply step_add].
  eapply reach_step; [|apply step_add].
  eapply reach_step; [|apply step_add].
  apply reach_initial.
Defined.

Lemma chart_follows_ranking_witness :
  exists results,
    calculateAllSubsidies sampleData sampleCosts sampleNow inputAge5 = Ok results /\
    descending displayAmount (chartData results).
Proof.
  destruct (calculateAllSubsidies sampleData sampleCosts sampleNow inputAge5)
    as [results|e] eqn:E; [|vm_compute in E; discriminate E].
  exists results. split; [reflexivity|].
  exact (proj1 (proj2 (chart_follows_ranking sampleData sampleCosts sampleNow inputAge5
                         results E))).
Defined.
